(** * Tinker UI: a shallow embedding of the dashboard's chat, model,
      deployment and training-wizard logic and of the run-orchestration
      contracts, with their properties.

    Part I holds the definitions, one module per source component.
    Part II holds the lemmas and theorems about them.

    Conventions of the embedding:
    - a JavaScript string is a [string]; [s1 +:+ s2] is concatenation, which is
      what a template literal performs;
    - a JavaScript array is a [list]; [Array.prototype.filter] is [filter] and
      [Array.prototype.map] is [fmap] ([<$>]);
    - a JavaScript number that holds an identifier or a count is a [Z]; one
      that holds a fraction or a metric is an exact rational [Q];
    - [x | null] and optional properties are [option];
    - built-ins whose result depends on the Unicode tables or on the number
      printer ([toLowerCase], [trim], [JSON.parse], [parseInt], the number to
      string conversion) are taken as parameters. *)

From Stdlib Require Import ZArith QArith String Ascii List Permutation Sorted Lia.
From stdpp Require Import base option list sorting gmap strings pretty.

(* ===================================================================== *)
(** * Part I: definitions                                                 *)
(* ===================================================================== *)

(** ** JavaScript string primitives used by the components *)

Module JsString.

(** [s.startsWith(t)] *)
Fixpoint startsWith (s t : string) {struct t} : bool :=
  match t with
  | EmptyString => true
  | String c t' =>
      match s with
      | EmptyString => false
      | String d s' => if decide (c = d) then startsWith s' t' else false
      end
  end.

(** [s.includes(t)]: [t] occurs in [s] at some position. *)
Fixpoint includes (s t : string) : bool :=
  startsWith s t ||
  match s with
  | EmptyString => false
  | String _ s' => includes s' t
  end.

(** [s.split(sep)] for a separator of one character; the result is never
    empty, [''.split(sep)] being [['']]. *)
Fixpoint split (sep : ascii) (s : string) : list string :=
  match s with
  | EmptyString => [EmptyString]
  | String c s' =>
      if decide (c = sep) then EmptyString :: split sep s'
      else
        match split sep s' with
        | w :: ws => String c w :: ws
        | [] => [String c EmptyString]
        end
  end.

(** [parts.join(sep)] *)
Fixpoint join (sep : string) (parts : list string) : string :=
  match parts with
  | [] => EmptyString
  | [w] => w
  | w :: ws => w +:+ sep +:+ join sep ws
  end.

(** [s.slice(n)] for [n] within the string. *)
Fixpoint drop (n : nat) (s : string) : string :=
  match n, s with
  | S n', String _ s' => drop n' s'
  | _, _ => s
  end.

(** [s.split(sep)] for a separator of one or more characters: [skip]
    counts the characters of a separator found that are still to be passed
    over. *)
Fixpoint split_from (sep : string) (skip : nat) (s : string) : list string :=
  match s with
  | EmptyString => [EmptyString]
  | String c s' =>
      match skip with
      | S k => split_from sep k s'
      | O =>
          if startsWith s sep then EmptyString :: split_from sep (String.length sep - 1) s'
          else
            match split_from sep 0 s' with
            | w :: ws => String c w :: ws
            | [] => [String c EmptyString]
            end
      end
  end.

Definition splitOn (sep s : string) : list string := split_from sep 0 s.

(** [s.replace(pattern, replacement)] for a string pattern and a
    replacement without [$]: the first occurrence is replaced. *)
Fixpoint replace (pattern replacement s : string) : string :=
  if startsWith s pattern then replacement +:+ drop (String.length pattern) s
  else
    match s with
    | EmptyString => EmptyString
    | String c s' => String c (replace pattern replacement s')
    end.

(** [!s] on a string: only the empty string is falsy. *)
Definition falsy (s : string) : bool :=
  match s with
  | EmptyString => true
  | String _ _ => false
  end.

(** An ASCII instance of [toLowerCase], used to run the definitions on
    concrete names: 'A'..'Z' are moved to 'a'..'z', all else is kept. *)
Definition ascii_toLowerCase (c : ascii) : ascii :=
  let n := nat_of_ascii c in
  if (65 <=? n)%nat && (n <=? 90)%nat then ascii_of_nat (n + 32) else c.

Fixpoint ascii_lower (s : string) : string :=
  match s with
  | EmptyString => EmptyString
  | String c s' => String (ascii_toLowerCase c) (ascii_lower s')
  end.

(** A decimal instance of the number to string conversion, exact on the
    integers that serve as identifiers. *)
Definition decimal (n : Z) : string :=
  pretty n.

End JsString.

(** ** components/tabs/chat-tab.tsx *)

Module ChatTab.

(** The fields of [Run] (declared in [@/lib/api]) that the tab reads. *)
Record Run := {
  id : Z;
  status : string;
  recipe_type : string;
}.

(** [{ value: string; label: string }] *)
Record ModelOption := {
  value : string;
  label : string;
}.

Section options.

(** The conversion a template literal applies to [run.id]. *)
Variable Number_toString : Z → string.

(** [runs.filter(run => run.status === 'completed').map(run => ({...}))] *)
Definition trainedRunOptions (runs : list Run) : list ModelOption :=
  (λ run, {| value := "run::" +:+ Number_toString (id run);
             label := "Run #" +:+ Number_toString (id run) +:+ " - " +:+ recipe_type run |})
    <$> filter (λ run, status run = "completed") runs.

(** [[...modelOptions, ...trainedRunOptions]] *)
Definition allModelOptions (modelOptions : list ModelOption) (runs : list Run) : list ModelOption :=
  modelOptions ++ trainedRunOptions runs.

End options.

End ChatTab.

(** ** components/tabs/chat-tab.tsx: the submit handler *)

Module ChatTabSubmit.

Inductive Role := user | assistant.

(** [type ChatMessage = { role: 'user' | 'assistant'; content: string }] *)
Record ChatMessage := {
  role : Role;
  content : string;
}.

(** A promise awaited by the handler: fulfilled with a value, or rejected
    with an [Error] of which the handler reads the message. *)
Inductive Settled (A : Type) :=
| Fulfilled (a : A)
| Rejected (message : string).

Arguments Fulfilled {A} a.
Arguments Rejected {A} message.

Section handler.

(** The numbers that [Number(value)] produces, [Number] itself (applied to
    [undefined] when the key has no second part), [trim], and the message of
    the [TypeError] raised by a method call on [undefined]. *)
Variable JsNumber : Type.
Variable Number : option string → JsNumber.
Variable trim : string → string.
Variable TypeError_message : string.

(** [ChatRequest] and [SampleRequest] (declared in [@/lib/api]), with the
    fields that the handler sets. *)
Record ChatRequest := {
  run_id : option JsNumber;
  model_id : option JsNumber;
  base_model : option string;
  prompt : string;
  temperature : Q;
  max_tokens : Z;
}.

Record SamplingParams := {
  sp_max_tokens : Z;
  sp_temperature : Q;
  top_p : Q;
  stop : list string;
}.

Record SampleRequest := {
  sr_model_id : JsNumber;
  sr_prompt : string;
  sampling_params : SamplingParams;
}.

(** The two calls of the API: [chatWithModel] gives [response.response],
    [sampleModel] the texts of [response.sequences]. *)
Inductive ApiCall :=
| ChatWithModel (request : ChatRequest)
| SampleModel (request : SampleRequest).

Variable chatWithModel : ChatRequest → Settled string.
Variable sampleModel : SampleRequest → Settled (list string).

(** The [useState] cells of the tab. *)
Record State := {
  chatHistory : list ChatMessage;
  chatInput : string;
  chatModelKey : string;
  chatLoading : bool;
}.

(** What a call of the handler has done when its promise settles: the state
    of the tab, the calls of the API in order, and the messages handed to
    [onError]. *)
Record Outcome := {
  state : State;
  calls : list ApiCall;
  errors : list string;
}.

(** What the [try] block leaves: the history, the calls made and, if an
    error reached the outer [catch], its message. *)
Definition attempt (nextHistory : list ChatMessage) (key prompt : string)
  : list ChatMessage * list ApiCall * list string :=
  let parts := JsString.splitOn "::" key in
  let kind := default EmptyString (head parts) in
  let value := parts !! 1%nat in
  if decide (kind = "run") then
    let chatRequest :=
      {| run_id := Some (Number value); model_id := None; base_model := None;
         prompt := prompt; temperature := 0.7; max_tokens := 256 |} in
    match chatWithModel chatRequest with
    | Fulfilled text =>
        (nextHistory ++ [{| role := assistant; content := "[Real Inference] " +:+ trim text |}],
         [ChatWithModel chatRequest], [])
    | Rejected message => (nextHistory, [ChatWithModel chatRequest], [message])
    end
  else if decide (kind = "registered") then
    let chatRequest :=
      {| run_id := None; model_id := Some (Number value); base_model := None;
         prompt := prompt; temperature := 0.7; max_tokens := 256 |} in
    match chatWithModel chatRequest with
    | Fulfilled text =>
        (nextHistory ++ [{| role := assistant; content := "[Real Inference] " +:+ trim text |}],
         [ChatWithModel chatRequest], [])
    | Rejected _ =>
        let request :=
          {| sr_model_id := Number value; sr_prompt := prompt;
             sampling_params :=
               {| sp_max_tokens := 256; sp_temperature := 0.7; top_p := 0.9;
                  stop := ["User:"; "Assistant:"] |} |} in
        match sampleModel request with
        | Fulfilled sequences =>
            (nextHistory ++
               [{| role := assistant;
                   content := "[Simulation] " +:+ trim (default "(no response)" (head sequences)) |}],
             [ChatWithModel chatRequest; SampleModel request], [])
        | Rejected message =>
            (nextHistory, [ChatWithModel chatRequest; SampleModel request], [message])
        end
    end
  else
    match value with
    | None => (nextHistory, [], [TypeError_message])
    | Some v =>
        let modelName := JsString.replace "supported::" EmptyString v in
        let chatRequest :=
          {| run_id := None; model_id := None; base_model := Some modelName;
             prompt := prompt; temperature := 0.7; max_tokens := 256 |} in
        match chatWithModel chatRequest with
        | Fulfilled text =>
            (nextHistory ++ [{| role := assistant; content := trim text |}],
             [ChatWithModel chatRequest], [])
        | Rejected message => (nextHistory, [ChatWithModel chatRequest], [message])
        end
    end.

(** [handleChatSubmit(prompt)], run until its promise settles. *)
Definition handleChatSubmit (st : State) (prompt : string) : Outcome :=
  if JsString.falsy (trim prompt) then {| state := st; calls := []; errors := [] |}
  else if JsString.falsy (chatModelKey st) then
    {| state := st; calls := []; errors := ["Select a model for chat sampling."] |}
  else
    let nextHistory := chatHistory st ++ [{| role := user; content := prompt |}] in
    let '(history, calls, errors) := attempt nextHistory (chatModelKey st) prompt in
    {| state := {| chatHistory := history; chatInput := EmptyString;
                   chatModelKey := chatModelKey st; chatLoading := false |};
       calls := calls; errors := errors |}.

End handler.

Arguments run_id {JsNumber} _.
Arguments model_id {JsNumber} _.
Arguments base_model {JsNumber} _.
Arguments prompt {JsNumber} _.
Arguments temperature {JsNumber} _.
Arguments max_tokens {JsNumber} _.
Arguments sr_model_id {JsNumber} _.
Arguments sr_prompt {JsNumber} _.
Arguments sampling_params {JsNumber} _.
Arguments ChatWithModel {JsNumber} request.
Arguments SampleModel {JsNumber} request.
Arguments state {JsNumber} _.
Arguments calls {JsNumber} _.
Arguments errors {JsNumber} _.

End ChatTabSubmit.

(** ** components/chat/chat-console.tsx *)

Module ChatConsole.
Import ChatTab.

(** The value of [groupedModels]. *)
Record GroupedModels := {
  trained : list ModelOption;
  registered : list ModelOption;
  supported : list ModelOption;
}.

Section console.

Variable toLowerCase : string → string.

(** [useMemo(() => { const trained = modelOptions.filter(m =>
    m.value.startsWith('run::')); ... return { trained: trained.filter(m =>
    m.label.toLowerCase().includes(query)), ... } })] *)
Definition groupedModels (modelOptions : list ModelOption) (searchQuery : string)
  : GroupedModels :=
  let trained := filter (λ m, JsString.startsWith (value m) "run::" = true) modelOptions in
  let registered :=
    filter (λ m, JsString.startsWith (value m) "registered::" = true) modelOptions in
  let supported :=
    filter (λ m, JsString.startsWith (value m) "supported::" = true) modelOptions in
  let query := toLowerCase searchQuery in
  {| trained := filter (λ m, JsString.includes (toLowerCase (label m)) query = true) trained;
     registered :=
       filter (λ m, JsString.includes (toLowerCase (label m)) query = true) registered;
     supported :=
       filter (λ m, JsString.includes (toLowerCase (label m)) query = true) supported |}.

(** The three [SelectGroup]s are rendered only when they have an entry;
    "No models found" is shown when all three are empty. *)
Definition showsNoModelsFound (g : GroupedModels) : bool :=
  bool_decide (length (trained g) = 0%nat) && bool_decide (length (registered g) = 0%nat)
  && bool_decide (length (supported g) = 0%nat).

End console.

End ChatConsole.

(** ** The deployments page *)

Module Deployments.

(** [getProgressValue(status, deployed_at)] *)
Definition getProgressValue (status : string) (deployed_at : option string) : Z :=
  if decide (status = "completed") then 100
  else if decide (status = "uploading") then 75
  else if decide (status = "pending") then 25
  else 0.

(** The condition under which the card of a deployment renders the progress
    bar: [status === "pending" || status === "uploading" || status ===
    "completed"]. *)
Definition showsProgressBar (status : string) : bool :=
  bool_decide (status = "pending") || bool_decide (status = "uploading")
  || bool_decide (status = "completed").

(** [disabled={deployment.status !== "completed"}] on the button that opens
    the repository. *)
Definition hubButtonDisabled (status : string) : bool :=
  negb (bool_decide (status = "completed")).

(** The predicate of [data.some(...)]: [d.status === 'pending' || d.status
    === 'uploading']. *)
Definition isActive (status : string) : bool :=
  bool_decide (status = "pending") || bool_decide (status = "uploading").

(** [const hasActiveDeployments = data.some(...)], over the statuses of the
    deployments received. *)
Definition hasActiveDeployments (data : list string) : bool :=
  existsb isActive data.

(** The timers of the page: [intervalRef.current] (a [NodeJS.Timeout |
    null], so a handle is never falsy), the intervals that have been set and
    not cleared, and the handle that the next [setInterval] returns. *)
Record Timers := {
  intervalRef : option positive;
  live : list positive;
  next_handle : positive;
}.

Definition no_timers : Timers := {| intervalRef := None; live := []; next_handle := 1 |}.

(** "Manage polling interval": start polling if there are active
    deployments and no interval is referenced, stop polling if there are
    none and an interval is referenced. *)
Definition managePolling (hasActive : bool) (t : Timers) : Timers :=
  match hasActive, intervalRef t with
  | true, None =>
      {| intervalRef := Some (next_handle t); live := next_handle t :: live t;
         next_handle := Pos.succ (next_handle t) |}
  | false, Some i =>
      {| intervalRef := None; live := filter (λ j, j ≠ i) (live t);
         next_handle := next_handle t |}
  | _, _ => t
  end.

(** The cleanup of the effect: [if (intervalRef.current) {
    clearInterval(intervalRef.current); intervalRef.current = null; }]. *)
Definition cleanup (t : Timers) : Timers :=
  match intervalRef t with
  | Some i =>
      {| intervalRef := None; live := filter (λ j, j ≠ i) (live t);
         next_handle := next_handle t |}
  | None => t
  end.

(** What reaches the timers of a mounted page: a fetch that succeeded with
    the given statuses, a fetch that failed (an HTTP error returns before the
    polling block, a network error skips it), and the effect cleanup. *)
Inductive PageEvent :=
| FetchOk (data : list string)
| FetchFailed
| Cleanup.

Definition on_event (t : Timers) (e : PageEvent) : Timers :=
  match e with
  | FetchOk data => managePolling (hasActiveDeployments data) t
  | FetchFailed => t
  | Cleanup => cleanup t
  end.

Definition on_events (events : list PageEvent) : Timers :=
  fold_left on_event events no_timers.

End Deployments.

(** ** components/tabs/models-tab.tsx and components/models/model-catalog.tsx *)

Module Models.

(** The fields of [SupportedModel] and [RegisteredModel] (declared in
    [@/lib/api]) that the two components read. *)
Record SupportedModel := {
  model_name : string;
  parameters : option string;
  context_length : option string;
  supported_description : option string;
}.

Record RegisteredModel := {
  registered_id : Z;
  name : string;
  base_model : string;
  tinker_path : option string;
  description : option string;
}.

(** What "the name contains the term, ignoring case" means for a model name
    and a search term: after lowering both, the term occurs in the name. *)
Definition contains_ignoring_case (toLowerCase : string → string) (name term : string) : Prop :=
  ∃ pre post, toLowerCase name = pre +:+ toLowerCase term +:+ post.

(** The contract of a search filter [f] over models named by [name]:
    it keeps exactly the models whose name contains the term ignoring case,
    in the order of the input, and is the identity on the empty term. *)
Definition filters_by_name {A : Type} (toLowerCase : string → string)
    (name : A → string) (f : list A → string → list A) : Prop :=
  ∀ (models : list A) (term : string),
    (∀ m, m ∈ f models term ↔ m ∈ models ∧ contains_ignoring_case toLowerCase (name m) term) ∧
    f models term `sublist_of` models ∧
    (term = "" → f models term = models).

End Models.

Module ModelsTab.
Import Models.

Section filters.

Variable toLowerCase : string → string.

(** [useMemo(() => { if (!modelSearch) return supportedModels; return
    supportedModels.filter(...) })] *)
Definition filteredSupported (supportedModels : list SupportedModel) (modelSearch : string)
  : list SupportedModel :=
  if JsString.falsy modelSearch then supportedModels
  else filter (λ model,
         JsString.includes (toLowerCase (model_name model)) (toLowerCase modelSearch) = true)
       supportedModels.

Definition filteredRegistered (registeredModels : list RegisteredModel) (modelSearch : string)
  : list RegisteredModel :=
  if JsString.falsy modelSearch then registeredModels
  else filter (λ model,
         JsString.includes (toLowerCase (name model)) (toLowerCase modelSearch) = true)
       registeredModels.

End filters.

End ModelsTab.

Module ModelCatalog.
Import Models.

Section filters.

Variable toLowerCase : string → string.

Definition filteredSupported (supported : list SupportedModel) (searchTerm : string)
  : list SupportedModel :=
  if JsString.falsy searchTerm then supported
  else filter (λ model,
         JsString.includes (toLowerCase (model_name model)) (toLowerCase searchTerm) = true)
       supported.

Definition filteredRegistered (registered : list RegisteredModel) (searchTerm : string)
  : list RegisteredModel :=
  if JsString.falsy searchTerm then registered
  else filter (λ model,
         JsString.includes (toLowerCase (name model)) (toLowerCase searchTerm) = true)
       registered.

(** In list view [ModelsTab] hands its filtered lists and the same search
    term to [ModelCatalog], which filters them once more. *)
Definition listViewSupported (supportedModels : list SupportedModel) (modelSearch : string) :=
  filteredSupported (ModelsTab.filteredSupported toLowerCase supportedModels modelSearch) modelSearch.

Definition listViewRegistered (registeredModels : list RegisteredModel) (modelSearch : string) :=
  filteredRegistered (ModelsTab.filteredRegistered toLowerCase registeredModels modelSearch) modelSearch.

End filters.

End ModelCatalog.

(** ** components/models/model-grid.tsx *)

Module ModelCard.

(** "Split model name into org and model for better display":
    [modelName.split('/')], [nameParts.length > 1], [hasOrg ? nameParts[0] :
    null] and [hasOrg ? nameParts.slice(1).join('/') : modelName]. The list
    view of [ModelCatalog] computes the same four values from
    [model.model_name] for each supported model. *)
Definition nameParts (modelName : string) : list string :=
  JsString.split "/" modelName.

Definition hasOrg (modelName : string) : bool :=
  bool_decide (1 < length (nameParts modelName))%nat.

Definition orgName (modelName : string) : option string :=
  if hasOrg modelName then head (nameParts modelName) else None.

Definition displayName (modelName : string) : string :=
  if hasOrg modelName then JsString.join "/" (drop 1 (nameParts modelName)) else modelName.

End ModelCard.

(** ** The inline training wizard (third module of
       components/datasets/dataset-manager.tsx) *)

Module InlineTrainingWizard.

(** The result of [parseInt]: an integer, or [NaN] when the text does not
    start with one. *)
Inductive ParsedInt :=
| Int (n : Z)
| NaN.

(** The built-ins the submit handler calls. [JSON_parse_entries s] stands for
    [JSON.parse(s)] followed by the own enumerable entries that an object
    spread copies out of the parsed value; it is [None] when [JSON.parse]
    throws. *)
Class JsBuiltins (JsonValue : Type) := {
  trim : string → string;
  JSON_parse_entries : string → option (list (string * JsonValue));
  parseInt : string → ParsedInt;
}.

Section wizard.

(** The type of the values that [JSON.parse] produces. *)
Context {JsonValue : Type} {builtins : JsBuiltins JsonValue}.

(** A value stored in [hyperparameters: Record<string, any>]. *)
Inductive HyperValue :=
| HNumber (q : Q)
| HString (s : string)
| HJson (v : JsonValue).

(** An object literal as its entries in insertion order. *)
Definition JsObject := list (string * HyperValue).

(** [o[k] = v] *)
Fixpoint obj_set (k : string) (v : HyperValue) (o : JsObject) : JsObject :=
  match o with
  | [] => [(k, v)]
  | (k', v') :: o' => if decide (k' = k) then (k, v) :: o' else (k', v') :: obj_set k v o'
  end.

(** [{ ...a, ...b }] *)
Definition obj_spread (a b : JsObject) : JsObject :=
  fold_left (λ o kv, obj_set kv.1 kv.2 o) b a.

(** [o[k]], [None] standing for [undefined]. *)
Definition obj_get (k : string) (o : JsObject) : option HyperValue :=
  snd <$> List.find (λ kv, bool_decide (kv.1 = k)) o.

(** An entry of [ALL_RECIPES]; the [icon] component is left out. *)
Record Recipe := {
  value : string;
  label : string;
  shortLabel : string;
  description : string;
  popular : bool;
  supported : bool;
  comingSoon : option bool;
  defaultConfig : option (list (string * Q));
}.

Definition ALL_RECIPES : list Recipe := [
  {| value := "SFT"; label := "Supervised Fine-Tuning"; shortLabel := "SFT";
     description := "Train on instruction-response pairs";
     popular := true; supported := true; comingSoon := None;
     defaultConfig := Some [("learning_rate", 5e-5%Q); ("batch_size", 4%Q);
                            ("rank", 64%Q); ("epochs", 3%Q)] |};
  {| value := "CHAT_SL"; label := "Chat Training"; shortLabel := "Chat";
     description := "Conversational AI training";
     popular := true; supported := true; comingSoon := None;
     defaultConfig := Some [("learning_rate", 5e-4%Q); ("batch_size", 64%Q); ("rank", 64%Q)] |};
  {| value := "MATH_RL"; label := "Math Reasoning RL"; shortLabel := "Math RL";
     description := "Mathematical reasoning with RL";
     popular := true; supported := true; comingSoon := None;
     defaultConfig := Some [("learning_rate", 1e-5%Q); ("rank", 32%Q)] |};
  {| value := "DPO"; label := "Direct Preference Optimization"; shortLabel := "DPO";
     description := "Learn from preference pairs";
     popular := false; supported := true; comingSoon := None; defaultConfig := None |};
  {| value := "RL"; label := "Reinforcement Learning"; shortLabel := "RL";
     description := "General RL training";
     popular := false; supported := true; comingSoon := None; defaultConfig := None |};
  {| value := "DISTILLATION"; label := "Model Distillation"; shortLabel := "Distill";
     description := "Compress model knowledge";
     popular := false; supported := true; comingSoon := None; defaultConfig := None |};
  {| value := "PPO"; label := "Proximal Policy Optimization"; shortLabel := "PPO";
     description := "Advanced RL with PPO";
     popular := false; supported := false; comingSoon := Some true; defaultConfig := None |};
  {| value := "GRPO"; label := "Group Relative Policy Optimization"; shortLabel := "GRPO";
     description := "Group-based RL optimization";
     popular := false; supported := false; comingSoon := Some true; defaultConfig := None |};
  {| value := "PROMPT_DISTILLATION"; label := "Prompt Distillation"; shortLabel := "P-Distill";
     description := "Distill prompt strategies";
     popular := false; supported := false; comingSoon := Some true; defaultConfig := None |};
  {| value := "TOOL_USE"; label := "Tool Use Training"; shortLabel := "Tool Use";
     description := "Train to use external tools";
     popular := false; supported := false; comingSoon := Some true; defaultConfig := None |};
  {| value := "MULTIPLAYER_RL"; label := "Multi-Agent RL"; shortLabel := "Multi-RL";
     description := "Multiple agents training";
     popular := false; supported := false; comingSoon := Some true; defaultConfig := None |}
].

(** The properties of the component that the handlers read. *)
Record Props := {
  isOpen : bool;
  selectedProjectId : option Z;
}.

(** The [useState] cells that recipe selection and submission read or write. *)
Record State := {
  step : Z;
  selectedRecipe : string;
  selectedModel : string;
  selectedDataset : string;
  showAllRecipes : bool;
  customHyperparams : string;
  selectedRenderer : string;
  wandbProject : string;
  lrScheduler : string;
  warmupSteps : Z;
  isSubmitting : bool;
}.

(** The initial values given to [useState]. *)
Definition initial : State := {|
  step := 1;
  selectedRecipe := "";
  selectedModel := "meta-llama/Llama-3.1-8B-Instruct";
  selectedDataset := "none";
  showAllRecipes := false;
  customHyperparams := "";
  selectedRenderer := "";
  wandbProject := "";
  lrScheduler := "constant";
  warmupSteps := 0;
  isSubmitting := false;
|}.

(** The effect that runs when the wizard opens. *)
Definition reset (st : State) : State := {|
  step := 1;
  selectedRecipe := "";
  selectedModel := "meta-llama/Llama-3.1-8B-Instruct";
  selectedDataset := "none";
  showAllRecipes := false;
  customHyperparams := "";
  selectedRenderer := selectedRenderer st;
  wandbProject := "";
  lrScheduler := "constant";
  warmupSteps := 0;
  isSubmitting := isSubmitting st;
|}.

Definition setStep (n : Z) (st : State) : State := {|
  step := n; selectedRecipe := selectedRecipe st; selectedModel := selectedModel st;
  selectedDataset := selectedDataset st; showAllRecipes := showAllRecipes st;
  customHyperparams := customHyperparams st; selectedRenderer := selectedRenderer st;
  wandbProject := wandbProject st; lrScheduler := lrScheduler st;
  warmupSteps := warmupSteps st; isSubmitting := isSubmitting st |}.

Definition setSelectedRecipe (r : string) (st : State) : State := {|
  step := step st; selectedRecipe := r; selectedModel := selectedModel st;
  selectedDataset := selectedDataset st; showAllRecipes := showAllRecipes st;
  customHyperparams := customHyperparams st; selectedRenderer := selectedRenderer st;
  wandbProject := wandbProject st; lrScheduler := lrScheduler st;
  warmupSteps := warmupSteps st; isSubmitting := isSubmitting st |}.

Definition setSelectedModel (m : string) (st : State) : State := {|
  step := step st; selectedRecipe := selectedRecipe st; selectedModel := m;
  selectedDataset := selectedDataset st; showAllRecipes := showAllRecipes st;
  customHyperparams := customHyperparams st; selectedRenderer := selectedRenderer st;
  wandbProject := wandbProject st; lrScheduler := lrScheduler st;
  warmupSteps := warmupSteps st; isSubmitting := isSubmitting st |}.

Definition setSelectedDataset (d : string) (st : State) : State := {|
  step := step st; selectedRecipe := selectedRecipe st; selectedModel := selectedModel st;
  selectedDataset := d; showAllRecipes := showAllRecipes st;
  customHyperparams := customHyperparams st; selectedRenderer := selectedRenderer st;
  wandbProject := wandbProject st; lrScheduler := lrScheduler st;
  warmupSteps := warmupSteps st; isSubmitting := isSubmitting st |}.

Definition setShowAllRecipes (b : bool) (st : State) : State := {|
  step := step st; selectedRecipe := selectedRecipe st; selectedModel := selectedModel st;
  selectedDataset := selectedDataset st; showAllRecipes := b;
  customHyperparams := customHyperparams st; selectedRenderer := selectedRenderer st;
  wandbProject := wandbProject st; lrScheduler := lrScheduler st;
  warmupSteps := warmupSteps st; isSubmitting := isSubmitting st |}.

Definition setCustomHyperparams (s : string) (st : State) : State := {|
  step := step st; selectedRecipe := selectedRecipe st; selectedModel := selectedModel st;
  selectedDataset := selectedDataset st; showAllRecipes := showAllRecipes st;
  customHyperparams := s; selectedRenderer := selectedRenderer st;
  wandbProject := wandbProject st; lrScheduler := lrScheduler st;
  warmupSteps := warmupSteps st; isSubmitting := isSubmitting st |}.

Definition setSelectedRenderer (r : string) (st : State) : State := {|
  step := step st; selectedRecipe := selectedRecipe st; selectedModel := selectedModel st;
  selectedDataset := selectedDataset st; showAllRecipes := showAllRecipes st;
  customHyperparams := customHyperparams st; selectedRenderer := r;
  wandbProject := wandbProject st; lrScheduler := lrScheduler st;
  warmupSteps := warmupSteps st; isSubmitting := isSubmitting st |}.

Definition setWandbProject (s : string) (st : State) : State := {|
  step := step st; selectedRecipe := selectedRecipe st; selectedModel := selectedModel st;
  selectedDataset := selectedDataset st; showAllRecipes := showAllRecipes st;
  customHyperparams := customHyperparams st; selectedRenderer := selectedRenderer st;
  wandbProject := s; lrScheduler := lrScheduler st;
  warmupSteps := warmupSteps st; isSubmitting := isSubmitting st |}.

Definition setLrScheduler (s : string) (st : State) : State := {|
  step := step st; selectedRecipe := selectedRecipe st; selectedModel := selectedModel st;
  selectedDataset := selectedDataset st; showAllRecipes := showAllRecipes st;
  customHyperparams := customHyperparams st; selectedRenderer := selectedRenderer st;
  wandbProject := wandbProject st; lrScheduler := s;
  warmupSteps := warmupSteps st; isSubmitting := isSubmitting st |}.

Definition setWarmupSteps (n : Z) (st : State) : State := {|
  step := step st; selectedRecipe := selectedRecipe st; selectedModel := selectedModel st;
  selectedDataset := selectedDataset st; showAllRecipes := showAllRecipes st;
  customHyperparams := customHyperparams st; selectedRenderer := selectedRenderer st;
  wandbProject := wandbProject st; lrScheduler := lrScheduler st;
  warmupSteps := n; isSubmitting := isSubmitting st |}.

Definition setIsSubmitting (b : bool) (st : State) : State := {|
  step := step st; selectedRecipe := selectedRecipe st; selectedModel := selectedModel st;
  selectedDataset := selectedDataset st; showAllRecipes := showAllRecipes st;
  customHyperparams := customHyperparams st; selectedRenderer := selectedRenderer st;
  wandbProject := wandbProject st; lrScheduler := lrScheduler st;
  warmupSteps := warmupSteps st; isSubmitting := b |}.

(** [RunCreatePayload] *)
Record ConfigJson := {
  base_model : string;
  hyperparameters : JsObject;
}.

Record RunCreatePayload := {
  project_id : Z;
  recipe_type : string;
  config_json : ConfigJson;
  dataset_id : option ParsedInt;
}.

(** Truthiness of [recipe.comingSoon], which is [undefined] on the entries
    that do not set it. *)
Definition truthy_flag (b : option bool) : bool := default false b.

(** [!selectedProjectId]: [null] and [0] are both falsy. *)
Definition falsy_id (p : option Z) : bool :=
  match p with
  | None => true
  | Some n => bool_decide (n = 0%Z)
  end.

(** [const isDisabled = recipe.comingSoon || !recipe.supported] *)
Definition isDisabled (recipe : Recipe) : bool :=
  truthy_flag (comingSoon recipe) || negb (supported recipe).

(** [onClick={() => !isDisabled && setSelectedRecipe(recipe.value)}] *)
Definition clickRecipe (recipe : Recipe) (st : State) : State :=
  if isDisabled recipe then st else setSelectedRecipe (value recipe) st.

(** [const popularRecipes = ALL_RECIPES.filter((r) => r.popular)] *)
Definition popularRecipes : list Recipe :=
  filter (λ r, popular r = true) ALL_RECIPES.

(** [const displayedRecipes = showAllRecipes ? ALL_RECIPES : popularRecipes] *)
Definition displayedRecipes (st : State) : list Recipe :=
  if showAllRecipes st then ALL_RECIPES else popularRecipes.

(** [ALL_RECIPES.find((r) => r.value === selectedRecipe)] *)
Definition findRecipe (selected : string) : option Recipe :=
  List.find (λ r, bool_decide (value r = selected)) ALL_RECIPES.

(** "Recommended models for quick access" *)
Definition RECOMMENDED_MODELS : list string :=
  ["meta-llama/Llama-3.1-8B-Instruct"; "Qwen/Qwen3-8B-Base"; "meta-llama/Llama-3.2-3B"].

(** [supportedModels.filter((m) => RECOMMENDED_MODELS.includes(m.model_name))] *)
Definition recommendedModelsList (supportedModels : list Models.SupportedModel)
  : list Models.SupportedModel :=
  filter (λ m, Models.model_name m ∈ RECOMMENDED_MODELS) supportedModels.

(** [supportedModels.filter((m) => !RECOMMENDED_MODELS.includes(m.model_name))] *)
Definition otherModels (supportedModels : list Models.SupportedModel)
  : list Models.SupportedModel :=
  filter (λ m, Models.model_name m ∉ RECOMMENDED_MODELS) supportedModels.

(** [showAllModels ? supportedModels : recommendedModelsList] *)
Definition displayedModels (showAllModels : bool) (supportedModels : list Models.SupportedModel)
  : list Models.SupportedModel :=
  if showAllModels then supportedModels else recommendedModelsList supportedModels.

(** The condition under which the "Show All Models" button is rendered:
    [!showAllModels && otherModels.length > 0]. *)
Definition offersShowAll (showAllModels : bool) (supportedModels : list Models.SupportedModel)
  : bool :=
  negb showAllModels && bool_decide (0 < length (otherModels supportedModels))%nat.

(** What one call of [handleSubmit] does. *)
Inductive SubmitOutcome :=
| Ignored
| InvalidJson
| Submitted (payload : RunCreatePayload).

Definition handleSubmit (props : Props) (st : State) : SubmitOutcome :=
  if falsy_id (selectedProjectId props) || JsString.falsy (selectedRecipe st)
     || JsString.falsy (selectedModel st) then Ignored
  else
    let recipe := findRecipe (selectedRecipe st) in
    let defaults : JsObject :=
      match recipe ≫= defaultConfig with
      | Some cfg => obj_spread [] ((λ kv, (kv.1, HNumber kv.2)) <$> cfg)
      | None => []
      end in
    let merged : option JsObject :=
      if JsString.falsy (trim (customHyperparams st)) then Some defaults
      else
        match JSON_parse_entries (customHyperparams st) with
        | Some customParams =>
            Some (obj_spread defaults ((λ kv, (kv.1, HJson kv.2)) <$> customParams))
        | None => None
        end in
    match merged with
    | None => InvalidJson
    | Some h0 =>
        let h1 := if JsString.falsy (selectedRenderer st) then h0
                  else obj_set "renderer_name" (HString (selectedRenderer st)) h0 in
        let h2 := if JsString.falsy (trim (wandbProject st)) then h1
                  else obj_set "wandb_project" (HString (trim (wandbProject st))) h1 in
        let h3 := if decide (lrScheduler st = "constant") then h2
                  else obj_set "lr_schedule" (HString (lrScheduler st)) h2 in
        let h4 := if (0 <? warmupSteps st)%Z
                  then obj_set "lr_warmup_steps" (HNumber (inject_Z (warmupSteps st))) h3
                  else h3 in
        Submitted {|
          project_id := default 0%Z (selectedProjectId props);
          recipe_type := selectedRecipe st;
          config_json := {| base_model := selectedModel st; hyperparameters := h4 |};
          dataset_id :=
            if JsString.falsy (selectedDataset st) || bool_decide (selectedDataset st = "none")
            then None else Some (parseInt (selectedDataset st));
        |}
    end.

(** The state once [handleSubmit] has returned: the early return touches
    nothing, every other path ends in [setIsSubmitting(false)]. *)
Definition afterSubmit (props : Props) (st : State) : State :=
  match handleSubmit props st with
  | Ignored => st
  | InvalidJson | Submitted _ => setIsSubmitting false st
  end.

(** What can happen to a mounted wizard. *)
Inductive Event :=
| PropsChanged (props : Props)
| ClickRecipe (i : nat)
| ToggleAllRecipes
| ClickContinue
| ClickBack
| ChooseModel (m : string)
| ChooseDataset (d : string)
| EditCustomHyperparams (s : string)
| ChooseRenderer (r : string)
| EditWandbProject (s : string)
| ChooseLrScheduler (s : string)
| EditWarmupSteps (n : Z)
| ClickStartTraining.

(** The mounted component: its current props and state. *)
Record Wizard := {
  props : Props;
  state : State;
}.

(** The payload handed to [onSubmit] by an event, if any. *)
Definition submitted (w : Wizard) (e : Event) : option RunCreatePayload :=
  match e with
  | ClickStartTraining =>
      if isOpen (props w) && negb (bool_decide (step (state w) = 1%Z))
         && negb (isSubmitting (state w) || JsString.falsy (selectedRecipe (state w))
                  || JsString.falsy (selectedModel (state w)))
      then match handleSubmit (props w) (state w) with
           | Submitted payload => Some payload
           | _ => None
           end
      else None
  | _ => None
  end.

(** The wizard after an event. While closed the component renders nothing,
    so only a change of props can reach it; a button that is not rendered or
    is disabled cannot be clicked. The fields of the second step are taken
    to be editable at every step, which only adds behaviours to those of the
    component; a submission is taken to run to its end before the next
    event. *)
Definition react (w : Wizard) (e : Event) : Wizard :=
  let st := state w in
  match e with
  | PropsChanged p =>
      {| props := p;
         state := if negb (isOpen (props w)) && isOpen p then reset st else st |}
  | _ =>
      if negb (isOpen (props w)) then w
      else
        {| props := props w;
           state :=
             match e with
             | PropsChanged _ => st
             | ClickRecipe i =>
                 if bool_decide (step st = 1%Z) then
                   match displayedRecipes st !! i with
                   | Some recipe => clickRecipe recipe st
                   | None => st
                   end
                 else st
             | ToggleAllRecipes =>
                 if bool_decide (step st = 1%Z) then setShowAllRecipes (negb (showAllRecipes st)) st
                 else st
             | ClickContinue =>
                 if bool_decide (step st = 1%Z) && negb (JsString.falsy (selectedRecipe st))
                 then setStep 2 st else st
             | ClickBack =>
                 if (1 <? step st)%Z then setStep (step st - 1) st else st
             | ChooseModel m => setSelectedModel m st
             | ChooseDataset d => setSelectedDataset d st
             | EditCustomHyperparams s => setCustomHyperparams s st
             | ChooseRenderer r => setSelectedRenderer r st
             | EditWandbProject s => setWandbProject s st
             | ChooseLrScheduler s => setLrScheduler s st
             | EditWarmupSteps n => setWarmupSteps n st
             | ClickStartTraining =>
                 if negb (bool_decide (step st = 1%Z))
                    && negb (isSubmitting st || JsString.falsy (selectedRecipe st)
                             || JsString.falsy (selectedModel st))
                 then afterSubmit (props w) st else st
             end |}
  end.

(** Running a sequence of events from a wizard, collecting every payload
    handed to [onSubmit]. *)
Fixpoint run (w : Wizard) (events : list Event) : Wizard * list RunCreatePayload :=
  match events with
  | [] => (w, [])
  | e :: events' =>
      let out := submitted w e in
      let '(w', outs) := run (react w e) events' in
      (w', from_option (λ p, [p]) [] out ++ outs)
  end.

(** A freshly mounted wizard. *)
Definition mount (p : Props) : Wizard := {| props := p; state := initial |}.

End wizard.

End InlineTrainingWizard.

(** ** The simple run wizard (second module of
       components/datasets/dataset-manager.tsx) *)

Module SimpleRunWizard.
Import InlineTrainingWizard.

Section wizard.

Context {JsonValue : Type} {builtins : JsBuiltins JsonValue}.

(** An entry of [QUICK_RECIPES]; the [icon] component is left out. *)
Record QuickRecipe := {
  value : string;
  label : string;
  description : string;
  defaultConfig : JsObject (JsonValue := JsonValue);
}.

(** "Top 3 most common recipes - simple choices" *)
Definition QUICK_RECIPES : list QuickRecipe := [
  {| value := "SFT"; label := "Fine-Tune"; description := "Train on your data";
     defaultConfig := [("learning_rate", HNumber 5e-5%Q); ("batch_size", HNumber 4%Q);
                       ("rank", HNumber 64%Q); ("epochs", HNumber 3%Q)] |};
  {| value := "CHAT_SL"; label := "Chat Training"; description := "Conversational AI";
     defaultConfig := [("dataset", HString "HuggingFaceH4/no_robots");
                       ("learning_rate", HNumber 5e-4%Q); ("batch_size", HNumber 64%Q);
                       ("rank", HNumber 64%Q); ("eval_every", HNumber 20%Q);
                       ("save_every", HNumber 20%Q)] |};
  {| value := "MATH_RL"; label := "Math RL"; description := "Math reasoning";
     defaultConfig := [("environment", HString "arithmetic");
                       ("learning_rate", HNumber 1e-5%Q); ("rank", HNumber 32%Q);
                       ("group_size", HNumber 4%Q); ("groups_per_batch", HNumber 100%Q);
                       ("max_tokens", HNumber 256%Q)] |}
].

(** The properties of the component that the handlers read. *)
Record Props := {
  open : bool;
  selectedProjectId : option Z;
}.

(** The [useState] cells that selection and submission read or write. *)
Record State := {
  selectedRecipe : string;
  selectedModel : string;
  showAdvanced : bool;
  selectedDataset : string;
  wandbProject : string;
  customHyperparams : string;
  selectedRenderer : string;
  availableRenderers : list string;
  isSubmitting : bool;
}.

(** The initial values given to [useState]. *)
Definition initial : State := {|
  selectedRecipe := "";
  selectedModel := "meta-llama/Llama-3.1-8B-Instruct";
  showAdvanced := false;
  selectedDataset := "none";
  wandbProject := "";
  customHyperparams := "";
  selectedRenderer := "";
  availableRenderers := [];
  isSubmitting := false;
|}.

Definition setSelectedRecipe (r : string) (st : State) : State := {|
  selectedRecipe := r; selectedModel := selectedModel st; showAdvanced := showAdvanced st;
  selectedDataset := selectedDataset st; wandbProject := wandbProject st;
  customHyperparams := customHyperparams st; selectedRenderer := selectedRenderer st;
  availableRenderers := availableRenderers st; isSubmitting := isSubmitting st |}.

Definition setSelectedModel (m : string) (st : State) : State := {|
  selectedRecipe := selectedRecipe st; selectedModel := m; showAdvanced := showAdvanced st;
  selectedDataset := selectedDataset st; wandbProject := wandbProject st;
  customHyperparams := customHyperparams st; selectedRenderer := selectedRenderer st;
  availableRenderers := availableRenderers st; isSubmitting := isSubmitting st |}.

Definition setShowAdvanced (b : bool) (st : State) : State := {|
  selectedRecipe := selectedRecipe st; selectedModel := selectedModel st; showAdvanced := b;
  selectedDataset := selectedDataset st; wandbProject := wandbProject st;
  customHyperparams := customHyperparams st; selectedRenderer := selectedRenderer st;
  availableRenderers := availableRenderers st; isSubmitting := isSubmitting st |}.

Definition setSelectedDataset (d : string) (st : State) : State := {|
  selectedRecipe := selectedRecipe st; selectedModel := selectedModel st;
  showAdvanced := showAdvanced st; selectedDataset := d; wandbProject := wandbProject st;
  customHyperparams := customHyperparams st; selectedRenderer := selectedRenderer st;
  availableRenderers := availableRenderers st; isSubmitting := isSubmitting st |}.

Definition setWandbProject (s : string) (st : State) : State := {|
  selectedRecipe := selectedRecipe st; selectedModel := selectedModel st;
  showAdvanced := showAdvanced st; selectedDataset := selectedDataset st; wandbProject := s;
  customHyperparams := customHyperparams st; selectedRenderer := selectedRenderer st;
  availableRenderers := availableRenderers st; isSubmitting := isSubmitting st |}.

Definition setCustomHyperparams (s : string) (st : State) : State := {|
  selectedRecipe := selectedRecipe st; selectedModel := selectedModel st;
  showAdvanced := showAdvanced st; selectedDataset := selectedDataset st;
  wandbProject := wandbProject st; customHyperparams := s;
  selectedRenderer := selectedRenderer st; availableRenderers := availableRenderers st;
  isSubmitting := isSubmitting st |}.

(** [setAvailableRenderers(rs); setSelectedRenderer(r)] *)
Definition setRenderers (rs : list string) (r : string) (st : State) : State := {|
  selectedRecipe := selectedRecipe st; selectedModel := selectedModel st;
  showAdvanced := showAdvanced st; selectedDataset := selectedDataset st;
  wandbProject := wandbProject st; customHyperparams := customHyperparams st;
  selectedRenderer := r; availableRenderers := rs; isSubmitting := isSubmitting st |}.

Definition setIsSubmitting (b : bool) (st : State) : State := {|
  selectedRecipe := selectedRecipe st; selectedModel := selectedModel st;
  showAdvanced := showAdvanced st; selectedDataset := selectedDataset st;
  wandbProject := wandbProject st; customHyperparams := customHyperparams st;
  selectedRenderer := selectedRenderer st; availableRenderers := availableRenderers st;
  isSubmitting := b |}.

(** "Reset form", the eight setters after [await onSubmit(payload)]. *)
Definition resetForm (st : State) : State := {|
  selectedRecipe := "";
  selectedModel := "meta-llama/Llama-3.1-8B-Instruct";
  showAdvanced := false;
  selectedDataset := "none";
  wandbProject := "";
  customHyperparams := "";
  selectedRenderer := "";
  availableRenderers := [];
  isSubmitting := isSubmitting st;
|}.

(** [QUICK_RECIPES.find(r => r.value === selectedRecipe)] *)
Definition findRecipe (selected : string) : option QuickRecipe :=
  List.find (λ r, bool_decide (value r = selected)) QUICK_RECIPES.

(** [handleSubmit] up to the call of [onSubmit]. *)
Definition handleSubmit (props : Props) (st : State) : SubmitOutcome :=
  if falsy_id (selectedProjectId props) || JsString.falsy (selectedRecipe st)
     || JsString.falsy (selectedModel st) then Ignored
  else
    let recipe := findRecipe (selectedRecipe st) in
    let defaults : JsObject :=
      match recipe with
      | Some r => obj_spread [] (defaultConfig r)
      | None => []
      end in
    let merged : option JsObject :=
      if JsString.falsy (trim (customHyperparams st)) then Some defaults
      else
        match JSON_parse_entries (customHyperparams st) with
        | Some customParams =>
            Some (obj_spread defaults ((λ kv, (kv.1, HJson kv.2)) <$> customParams))
        | None => None
        end in
    match merged with
    | None => InvalidJson
    | Some h0 =>
        let h1 := if JsString.falsy (selectedRenderer st) then h0
                  else obj_set "renderer_name" (HString (selectedRenderer st)) h0 in
        let h2 := if JsString.falsy (trim (wandbProject st)) then h1
                  else obj_set "wandb_project" (HString (trim (wandbProject st))) h1 in
        Submitted {|
          project_id := default 0%Z (selectedProjectId props);
          recipe_type := selectedRecipe st;
          config_json := {| base_model := selectedModel st; hyperparameters := h2 |};
          dataset_id :=
            if JsString.falsy (selectedDataset st) || bool_decide (selectedDataset st = "none")
            then None else Some (parseInt (selectedDataset st));
        |}
    end.

(** The state once [handleSubmit] has returned; [fulfilled] tells whether
    the promise of [onSubmit] was fulfilled. The early return touches
    nothing; the form is reset only after a fulfilled [onSubmit]; every other
    path ends in [setIsSubmitting(false)]. *)
Definition afterSubmit (props : Props) (st : State) (fulfilled : bool) : State :=
  match handleSubmit props st with
  | Ignored => st
  | InvalidJson => setIsSubmitting false st
  | Submitted _ => setIsSubmitting false (if fulfilled then resetForm st else st)
  end.

(** Whether [handleSubmit] calls [onOpenChange(false)]. *)
Definition closesDialog (props : Props) (st : State) (fulfilled : bool) : bool :=
  match handleSubmit props st with
  | Submitted _ => fulfilled
  | _ => false
  end.

(** [const canSubmit = selectedRecipe && selectedModel && selectedProjectId] *)
Definition canSubmit (props : Props) (st : State) : bool :=
  negb (JsString.falsy (selectedRecipe st)) && negb (JsString.falsy (selectedModel st))
  && negb (falsy_id (selectedProjectId props)).

(** What can happen to a mounted wizard. *)
Inductive Event :=
| PropsChanged (props : Props)
| ClickRecipe (i : nat)
| ChooseModel (m : string)
| ToggleAdvanced
| ChooseDataset (d : string)
| EditWandbProject (s : string)
| EditCustomHyperparams (s : string)
| ChooseRenderer (r : string)
| RenderersLoaded (recommended : list string) (default_renderer : string)
| RenderersFailed
| ClickStartTraining (fulfilled : bool).

Record Wizard := {
  props : Props;
  state : State;
}.

(** The payload handed to [onSubmit] by an event, if any. *)
Definition submitted (w : Wizard) (e : Event) : option RunCreatePayload :=
  match e with
  | ClickStartTraining _ =>
      if open (props w) && canSubmit (props w) (state w) && negb (isSubmitting (state w))
      then match handleSubmit (props w) (state w) with
           | Submitted payload => Some payload
           | _ => None
           end
      else None
  | _ => None
  end.

(** The wizard after an event. The dialog renders its content only while
    open, so a closed wizard is reached only by a change of props and by the
    renderers of the selected model arriving; the state is kept across
    closing and reopening. The fields of the advanced section are taken to
    be editable whether or not the section is shown, which only adds
    behaviours. A submission is taken to run to its end before the next
    event. *)
Definition react (w : Wizard) (e : Event) : Wizard :=
  let st := state w in
  match e with
  | PropsChanged p => {| props := p; state := st |}
  | RenderersLoaded rs r => {| props := props w; state := setRenderers rs r st |}
  | RenderersFailed => {| props := props w; state := setRenderers [] "" st |}
  | _ =>
      if negb (open (props w)) then w
      else
        {| props := props w;
           state :=
             match e with
             | ClickRecipe i =>
                 match QUICK_RECIPES !! i with
                 | Some recipe => setSelectedRecipe (value recipe) st
                 | None => st
                 end
             | ChooseModel m => setSelectedModel m st
             | ToggleAdvanced => setShowAdvanced (negb (showAdvanced st)) st
             | ChooseDataset d => setSelectedDataset d st
             | EditWandbProject s => setWandbProject s st
             | EditCustomHyperparams s => setCustomHyperparams s st
             | ChooseRenderer r =>
                 if bool_decide (r ∈ availableRenderers st)
                 then setRenderers (availableRenderers st) r st else st
             | ClickStartTraining fulfilled =>
                 if canSubmit (props w) st && negb (isSubmitting st)
                 then afterSubmit (props w) st fulfilled else st
             | _ => st
             end |}
  end.

(** Running a sequence of events from a wizard, collecting every payload
    handed to [onSubmit]. *)
Fixpoint run (w : Wizard) (events : list Event) : Wizard * list RunCreatePayload :=
  match events with
  | [] => (w, [])
  | e :: events' =>
      let out := submitted w e in
      let '(w', outs) := run (react w e) events' in
      (w', from_option (λ p, [p]) [] out ++ outs)
  end.

(** A freshly mounted wizard. *)
Definition mount (p : Props) : Wizard := {| props := p; state := initial |}.

(** The text shown for a model in the select:
    [model.model_name.split('/')[1] || model.model_name]. *)
Definition shortName (model_name : string) : string :=
  match JsString.split "/" model_name !! 1%nat with
  | Some part => if JsString.falsy part then model_name else part
  | None => model_name
  end.

End wizard.

End SimpleRunWizard.

(** An instance of the built-ins for running the wizard on concrete inputs:
    [trim] strips ASCII white space at both ends, the JSON reader accepts
    flat objects of natural numbers only and [parseInt] reads an unsigned
    decimal prefix after leading white space, which is what [parseInt] gives
    on the decimal identifiers that the dataset options hold. *)

Module PlainBuiltins.

Definition is_space (c : ascii) : bool :=
  let n := nat_of_ascii c in
  bool_decide (n = 32 ∨ n = 9 ∨ n = 10 ∨ n = 11 ∨ n = 12 ∨ n = 13)%nat.

Fixpoint trim_start (s : string) : string :=
  match s with
  | EmptyString => EmptyString
  | String c s' => if is_space c then trim_start s' else s
  end.

Fixpoint trim_end (s : string) : string :=
  match s with
  | EmptyString => EmptyString
  | String c s' =>
      match trim_end s' with
      | EmptyString => if is_space c then EmptyString else String c EmptyString
      | t => String c t
      end
  end.

Definition trim (s : string) : string := trim_end (trim_start s).

Fixpoint digits (s : string) (acc : Z) : Z :=
  match s with
  | EmptyString => acc
  | String c s' =>
      let n := nat_of_ascii c in
      if (48 <=? n)%nat && (n <=? 57)%nat
      then digits s' (10 * acc + Z.of_nat (n - 48))%Z
      else acc
  end.

Definition parseInt (s : string) : InlineTrainingWizard.ParsedInt :=
  match trim_start s with
  | String c _ as t =>
      if (48 <=? nat_of_ascii c)%nat && (nat_of_ascii c <=? 57)%nat
      then InlineTrainingWizard.Int (digits t 0%Z)
      else InlineTrainingWizard.NaN
  | EmptyString => InlineTrainingWizard.NaN
  end.

(** The JSON texts accepted: an object whose keys are quoted strings without
    quotes, backslashes or control characters and whose values are natural
    numbers in decimal notation, white space allowed around every token. All
    other texts are rejected, those included that [JSON.parse] accepts. *)
Definition quote : ascii := ascii_of_nat 34.

Fixpoint but_last (close : ascii) (s : string) : option string :=
  match s with
  | EmptyString => None
  | String c EmptyString => if decide (c = close) then Some EmptyString else None
  | String c s' => String c <$> but_last close s'
  end.

Fixpoint plain (s : string) : bool :=
  match s with
  | EmptyString => true
  | String c s' =>
      negb (bool_decide (c = quote) || bool_decide (nat_of_ascii c = 92%nat)
            || (nat_of_ascii c <? 32)%nat)
      && plain s'
  end.

Fixpoint all_digits (s : string) : bool :=
  match s with
  | EmptyString => true
  | String c s' => (48 <=? nat_of_ascii c)%nat && (nat_of_ascii c <=? 57)%nat && all_digits s'
  end.

Definition json_key (s : string) : option string :=
  match trim s with
  | String c rest =>
      if decide (c = quote) then
        match but_last quote rest with
        | Some k => if plain k then Some k else None
        | None => None
        end
      else None
  | EmptyString => None
  end.

Definition json_number (s : string) : option Z :=
  match trim s with
  | EmptyString => None
  | String "0" EmptyString => Some 0%Z
  | String "0" _ => None
  | t => if all_digits t then Some (digits t 0%Z) else None
  end.

Definition json_entry (s : string) : option (string * Z) :=
  match JsString.split ":" s with
  | [k; v] =>
      match json_key k, json_number v with
      | Some key, Some n => Some (key, n)
      | _, _ => None
      end
  | _ => None
  end.

Fixpoint json_entries (parts : list string) : option (list (string * Z)) :=
  match parts with
  | [] => Some []
  | part :: parts' =>
      match json_entry part, json_entries parts' with
      | Some e, Some es => Some (e :: es)
      | _, _ => None
      end
  end.

Definition JSON_parse_entries (s : string) : option (list (string * Z)) :=
  match trim s with
  | String "{" rest =>
      match but_last "}" rest with
      | Some inner =>
          if JsString.falsy (trim inner) then Some []
          else json_entries (JsString.split "," inner)
      | None => None
      end
  | _ => None
  end.

Definition builtins : InlineTrainingWizard.JsBuiltins Z := {|
  InlineTrainingWizard.trim := trim;
  InlineTrainingWizard.JSON_parse_entries := JSON_parse_entries;
  InlineTrainingWizard.parseInt := parseInt;
|}.

End PlainBuiltins.

(** ** The dataset form (first module of
       components/datasets/dataset-manager.tsx, and
       components/tabs/datasets-tab.tsx) *)

Module DatasetManager.

(** A string between double quotes, for the texts that hold them. *)
Definition quoted (s : string) : string :=
  String (ascii_of_nat 34) (s +:+ String (ascii_of_nat 34) "").

(** [DatasetManagerProps['formState']]; the kind is the value of one of the
    three options of the select. *)
Record FormState := {
  name : string;
  kind : string;
  spec : string;
  description : string;
}.

(** [Partial<DatasetManagerProps['formState']>], as the component builds
    it: a field is present with a string or left out. *)
Record Partial := {
  new_name : option string;
  new_kind : option string;
  new_spec : option string;
  new_description : option string;
}.

(** [{ ...prev, ...updater }] *)
Definition merge (prev : FormState) (updater : Partial) : FormState := {|
  name := default (name prev) (new_name updater);
  kind := default (kind prev) (new_kind updater);
  spec := default (spec prev) (new_spec updater);
  description := default (description prev) (new_description updater);
|}.

(** An entry of [PRESET_DATASETS]; the [spec] object by its entries. *)
Record Preset := {
  preset_name : string;
  preset_kind : string;
  preset_spec : list (string * string);
  preset_description : string;
}.

Definition PRESET_DATASETS : list Preset := [
  {| preset_name := "allenai/tulu-3-sft-mixture"; preset_kind := "huggingface";
     preset_spec := [("repo", "allenai/tulu-3-sft-mixture")];
     preset_description := "High-quality supervised fine-tuning mixture from Tulu-3" |};
  {| preset_name := "openmath/deepmath-103k"; preset_kind := "huggingface";
     preset_spec := [("repo", "openmath/deepmath-103k")];
     preset_description := "Math reasoning prompts used in distillation recipe" |};
  {| preset_name := "local/chat-traces"; preset_kind := "local";
     preset_spec := [("path", "./data/chat_traces.jsonl")];
     preset_description := "Upload chat traces stored locally (JSONL)" |};
  {| preset_name := "preference/pairs"; preset_kind := "jsonl";
     preset_spec := [("path", "./data/preference_pairs.jsonl")];
     preset_description := "Pairwise comparisons for preference learning (JSONL)" |}
].

Section manager.

(** The values of [JSON.parse], [JSON.parse] itself ([None] when it
    throws), the object with the given string entries, and
    [JSON.stringify(value, null, 2)]. *)
Variable JsonValue : Type.
Variable JSON_parse : string → option JsonValue.
Variable object : list (string * string) → JsonValue.
Variable JSON_stringify : JsonValue → string.

(** The argument of [onSubmit]; [description] is [undefined] when the
    field is empty. *)
Record Payload := {
  payload_name : string;
  payload_kind : string;
  payload_spec : JsonValue;
  payload_description : option string;
}.

(** [handlePreset(preset)]: the argument it hands to [onChange]. *)
Definition handlePreset (preset : Preset) : Partial := {|
  new_name := Some (preset_name preset);
  new_kind := Some (preset_kind preset);
  new_spec := Some (JSON_stringify (object (preset_spec preset)));
  new_description := Some (preset_description preset);
|}.

(** [handleSubmit(event)]: the payload handed to [onSubmit], or [None] when
    [JSON.parse] throws and the alert is shown instead. *)
Definition handleSubmit (formState : FormState) : option Payload :=
  match JSON_parse (spec formState) with
  | Some spec =>
      Some {| payload_name := name formState; payload_kind := kind formState;
              payload_spec := spec;
              payload_description :=
                if JsString.falsy (description formState) then None
                else Some (description formState) |}
  | None => None
  end.

End manager.

Arguments payload_name {JsonValue} _.
Arguments payload_kind {JsonValue} _.
Arguments payload_spec {JsonValue} _.
Arguments payload_description {JsonValue} _.

End DatasetManager.

Module DatasetsTab.
Import DatasetManager.

Section tab.

Variable JsonValue : Type.
Variable JSON_parse : string → option JsonValue.
Variable object : list (string * string) → JsonValue.
Variable JSON_stringify : JsonValue → string.

(** The dataset that [createDataset] resolves to, of which the tab reads
    the name. *)
Variable Dataset : Type.
Variable dataset_name : Dataset → string.

(** The [useState] cells of the tab. *)
Record State := {
  datasetForm : FormState;
  datasetLoading : bool;
}.

Definition initial : State := {|
  datasetForm :=
    {| name := ""; kind := "huggingface";
       spec := "{" +:+ quoted "repo" +:+ ": "
               +:+ quoted "allenai/tulu-3-sft-mixture" +:+ "}";
       description := "" |};
  datasetLoading := false;
|}.

(** What the tab and the form do that is seen outside: the calls of the
    props of the tab, of [createDataset], and the alert of the form. *)
Inductive Effect :=
| OnError (message : string)
| OnSuccess (message : string)
| OnDatasetCreated (dataset : Dataset)
| CreateDataset (payload : Payload JsonValue)
| Alert (message : string).

(** [handleDatasetSubmit(payload)], run until its promise settles;
    [created] is what the promise of [createDataset(payload)] settles to. *)
Definition handleDatasetSubmit (st : State) (payload : Payload JsonValue)
    (created : ChatTabSubmit.Settled Dataset) : State * list Effect :=
  match created with
  | ChatTabSubmit.Fulfilled dataset =>
      ({| datasetForm :=
            {| name := ""; kind := kind (datasetForm st); spec := spec (datasetForm st);
               description := "" |};
          datasetLoading := false |},
       [OnError ""; OnSuccess ""; CreateDataset payload; OnDatasetCreated dataset;
        OnSuccess ("Dataset " +:+ quoted (dataset_name dataset)
                   +:+ " registered successfully.")])
  | ChatTabSubmit.Rejected message =>
      ({| datasetForm := datasetForm st; datasetLoading := false |},
       [OnError ""; OnSuccess ""; CreateDataset payload; OnError message])
  end.

(** What can happen to the form: a field is edited or the kind chosen (an
    [onChange] with some fields), a preset is clicked, the form is
    submitted. *)
Inductive Event :=
| Change (updater : Partial)
| ClickPreset (i : nat)
| Submit (created : ChatTabSubmit.Settled Dataset).

(** The tab after an event, and the effects of the event. The name and the
    specification are [required] fields, so the browser does not submit the
    form while one of them is empty; the button is disabled while a
    registration is under way. A registration is taken to run to its end
    before the next event. *)
Definition react (st : State) (e : Event) : State * list Effect :=
  match e with
  | Change updater =>
      ({| datasetForm := merge (datasetForm st) updater;
          datasetLoading := datasetLoading st |}, [])
  | ClickPreset i =>
      match PRESET_DATASETS !! i with
      | Some preset =>
          ({| datasetForm :=
                merge (datasetForm st) (handlePreset JsonValue object JSON_stringify preset);
              datasetLoading := datasetLoading st |}, [])
      | None => (st, [])
      end
  | Submit created =>
      if JsString.falsy (name (datasetForm st)) || JsString.falsy (spec (datasetForm st))
         || datasetLoading st
      then (st, [])
      else
        match handleSubmit JsonValue JSON_parse (datasetForm st) with
        | Some payload => handleDatasetSubmit st payload created
        | None => (st, [Alert "Dataset specification must be valid JSON."])
        end
  end.

End tab.

Arguments OnError {JsonValue Dataset} message.
Arguments OnSuccess {JsonValue Dataset} message.
Arguments OnDatasetCreated {JsonValue Dataset} dataset.
Arguments CreateDataset {JsonValue Dataset} payload.
Arguments Alert {JsonValue Dataset} message.
Arguments Change {Dataset} updater.
Arguments ClickPreset {Dataset} i.
Arguments Submit {Dataset} created.

End DatasetsTab.

(** ** The models tab as a whole (components/tabs/models-tab.tsx with the
       form and the rows of components/models/model-catalog.tsx and the
       sections of components/models/model-grid.tsx) *)

Module ModelGrid.
Import Models.

(** What [ModelGrid] renders, top to bottom: a section of cards with its
    count, for each of the two kinds of models, and the empty state. *)
Inductive Block :=
| BaseModels (count : nat) (cards : list SupportedModel)
| CustomCheckpoints (count : nat) (cards : list RegisteredModel)
| NoModelsFound.

Definition ModelGrid (supported : list SupportedModel) (registered : list RegisteredModel)
  : list Block :=
  (if (0 <? length supported)%nat
   then [BaseModels (length supported) supported] else [])
  ++ (if (0 <? length registered)%nat
      then [CustomCheckpoints (length registered) registered] else [])
  ++ (if (length supported =? 0)%nat && (length registered =? 0)%nat
      then [NoModelsFound] else []).

End ModelGrid.

Module ModelCatalogPanel.
Import Models.

(** [ModelRegisterForm] *)
Record ModelRegisterForm := {
  name : string;
  base_model : string;
  tinker_path : string;
  description : string;
}.

(** [Partial<ModelRegisterForm>], as the inputs of the form build it. *)
Record Partial := {
  new_name : option string;
  new_base_model : option string;
  new_tinker_path : option string;
  new_description : option string;
}.

(** [{ ...prev, ...updater }] *)
Definition merge (prev : ModelRegisterForm) (updater : Partial) : ModelRegisterForm := {|
  name := default (name prev) (new_name updater);
  base_model := default (base_model prev) (new_base_model updater);
  tinker_path := default (tinker_path prev) (new_tinker_path updater);
  description := default (description prev) (new_description updater);
|}.

(** What [ModelCatalog] renders below its search input, top to bottom: the
    rows of the supported models and the notice under them, the rows of
    the registered models and the notice under them, and the form. *)
Inductive Block :=
| SupportedRows (rows : list SupportedModel)
| NoSupportedMatch
| RegisteredRows (rows : list RegisteredModel)
| NoRegisteredYet
| RegisterCheckpoint (registerForm : ModelRegisterForm) (registering : bool).

Section catalog.

Variable toLowerCase : string → string.
Variable trim : string → string.

Definition ModelCatalog (supported : list SupportedModel) (registered : list RegisteredModel)
    (searchTerm : string) (registerForm : ModelRegisterForm) (registering : bool) : list Block :=
  let filteredSupported := ModelCatalog.filteredSupported toLowerCase supported searchTerm in
  let filteredRegistered := ModelCatalog.filteredRegistered toLowerCase registered searchTerm in
  [SupportedRows filteredSupported]
  ++ (if (length filteredSupported =? 0)%nat then [NoSupportedMatch] else [])
  ++ [RegisteredRows filteredRegistered]
  ++ (if (length filteredRegistered =? 0)%nat then [NoRegisteredYet] else [])
  ++ [RegisterCheckpoint registerForm registering].

(** [handleRegisterSubmit(event)]: the form handed to [onRegister], or
    [None] when the alert is shown instead. *)
Definition handleRegisterSubmit (registerForm : ModelRegisterForm) : option ModelRegisterForm :=
  if JsString.falsy (trim (name registerForm)) || JsString.falsy (trim (base_model registerForm))
  then None
  else Some registerForm.

End catalog.

End ModelCatalogPanel.

Module ModelsTabPage.
Import Models.

(** ['grid' | 'list'] *)
Inductive ViewMode := view_grid | view_list.

#[global] Instance ViewMode_eq_dec : EqDecision ViewMode.
Proof. solve_decision. Defined.

(** [ModelCatalogResponse], as far as the tab reads it. *)
Record ModelCatalogResponse := {
  supported_models : list SupportedModel;
  registered_models : list RegisteredModel;
}.

(** The props that the tab reads; [None] is [null]. *)
Record Props := {
  modelCatalog : option ModelCatalogResponse;
}.

(** The [useState] cells of the tab. *)
Record State := {
  modelSearch : string;
  registerModelForm : ModelCatalogPanel.ModelRegisterForm;
  registeringModel : bool;
  viewMode : ViewMode;
}.

Definition blank : ModelCatalogPanel.ModelRegisterForm :=
  {| ModelCatalogPanel.name := ""; ModelCatalogPanel.base_model := "";
     ModelCatalogPanel.tinker_path := ""; ModelCatalogPanel.description := "" |}.

Definition initial : State := {|
  modelSearch := "";
  registerModelForm := blank;
  registeringModel := false;
  viewMode := view_grid;
|}.

(** [modelCatalog?.supported_models ?? []] *)
Definition supportedModels (props : Props) : list SupportedModel :=
  match modelCatalog props with
  | Some catalog => supported_models catalog
  | None => []
  end.

Definition registeredModels (props : Props) : list RegisteredModel :=
  match modelCatalog props with
  | Some catalog => registered_models catalog
  | None => []
  end.

(** The argument of [registerModel]; the two optional fields are
    [undefined] when the form leaves them empty, [meta] is the empty
    object. *)
Record RegisterPayload := {
  payload_name : string;
  payload_base_model : string;
  payload_tinker_path : option string;
  payload_description : option string;
  payload_meta : list (string * string);
}.

(** The calls seen outside the tab: its props, [registerModel], and the
    alert of the form. *)
Inductive Effect :=
| OnError (message : string)
| OnSuccess (message : string)
| RegisterModel (payload : RegisterPayload)
| Alert (message : string)
| OnFineTunePrefill (model : SupportedModel + RegisteredModel) (datasetId : option Z)
| OnOpenRunsTab.

(** [s || undefined] *)
Definition or_undefined (s : string) : option string :=
  if JsString.falsy s then None else Some s.

(** [handleRegisterModel(form)], run until its promise settles;
    [registered] is what the promise of [registerModel(...)] settles to. *)
Definition handleRegisterModel (st : State) (form : ModelCatalogPanel.ModelRegisterForm)
    (registered : ChatTabSubmit.Settled unit) : State * list Effect :=
  let payload := {|
    payload_name := ModelCatalogPanel.name form;
    payload_base_model := ModelCatalogPanel.base_model form;
    payload_tinker_path := or_undefined (ModelCatalogPanel.tinker_path form);
    payload_description := or_undefined (ModelCatalogPanel.description form);
    payload_meta := [];
  |} in
  match registered with
  | ChatTabSubmit.Fulfilled _ =>
      ({| modelSearch := modelSearch st; registerModelForm := blank;
          registeringModel := false; viewMode := viewMode st |},
       [OnError ""; OnSuccess ""; RegisterModel payload;
        OnSuccess ("Model " +:+ DatasetManager.quoted (ModelCatalogPanel.name form)
                   +:+ " registered.")])
  | ChatTabSubmit.Rejected message =>
      ({| modelSearch := modelSearch st; registerModelForm := registerModelForm st;
          registeringModel := false; viewMode := viewMode st |},
       [OnError ""; OnSuccess ""; RegisterModel payload; OnError message])
  end.

(** [handleFineTunePrefill(model, datasetId)] *)
Definition handleFineTunePrefill (model : SupportedModel + RegisteredModel)
    (datasetId : option Z) : list Effect :=
  [OnFineTunePrefill model datasetId; OnOpenRunsTab].

Section tab.

Variable toLowerCase : string → string.
Variable trim : string → string.

(** What the tab renders under its title: whether the button that clears
    the search is there, the number on the badge, and the grid or the
    catalog. *)
Inductive Body :=
| Grid (blocks : list ModelGrid.Block)
| Catalog (blocks : list ModelCatalogPanel.Block).

Record Page := {
  clearSearch : bool;
  badge : nat;
  body : Body;
}.

Definition render (props : Props) (st : State) : Page :=
  let filteredSupported :=
    ModelsTab.filteredSupported toLowerCase (supportedModels props) (modelSearch st) in
  let filteredRegistered :=
    ModelsTab.filteredRegistered toLowerCase (registeredModels props) (modelSearch st) in
  {| clearSearch := negb (JsString.falsy (modelSearch st));
     badge := length filteredSupported + length filteredRegistered;
     body :=
       match viewMode st with
       | view_grid => Grid (ModelGrid.ModelGrid filteredSupported filteredRegistered)
       | view_list =>
           Catalog (ModelCatalogPanel.ModelCatalog toLowerCase filteredSupported
                      filteredRegistered (modelSearch st) (registerModelForm st)
                      (registeringModel st))
       end |}.

(** The models that have a card or a row on the page, each with a Quick
    Start button. *)
Definition shownSupported (page : Page) : list SupportedModel :=
  match body page with
  | Grid blocks =>
      mjoin (omap (λ b, match b with ModelGrid.BaseModels _ cards => Some cards | _ => None end)
               blocks)
  | Catalog blocks =>
      mjoin (omap (λ b, match b with ModelCatalogPanel.SupportedRows rows => Some rows
                                   | _ => None end) blocks)
  end.

Definition shownRegistered (page : Page) : list RegisteredModel :=
  match body page with
  | Grid blocks =>
      mjoin (omap (λ b, match b with ModelGrid.CustomCheckpoints _ cards => Some cards
                                   | _ => None end) blocks)
  | Catalog blocks =>
      mjoin (omap (λ b, match b with ModelCatalogPanel.RegisteredRows rows => Some rows
                                   | _ => None end) blocks)
  end.

(** What can happen on the tab: a search input is edited, the search is
    cleared, a view is chosen, a field of the form is edited, the form is
    submitted, Quick Start is clicked on the [i]-th card or row of a
    kind. *)
Inductive Event :=
| Search (value : string)
| ClearSearch
| SetViewMode (mode : ViewMode)
| RegisterChange (updater : ModelCatalogPanel.Partial)
| RegisterSubmit (registered : ChatTabSubmit.Settled unit)
| QuickStartSupported (i : nat)
| QuickStartRegistered (i : nat).

(** The tab after an event, and the effects of the event. The button that
    clears the search is there only while the search is not empty; the form
    is there only in the list view, and its button is disabled while a
    registration is under way; Quick Start is clicked on a card or a row
    that is shown. A registration is taken to run to its end before the
    next event. *)
Definition react (props : Props) (st : State) (e : Event) : State * list Effect :=
  match e with
  | Search value =>
      ({| modelSearch := value; registerModelForm := registerModelForm st;
          registeringModel := registeringModel st; viewMode := viewMode st |}, [])
  | ClearSearch =>
      if clearSearch (render props st)
      then ({| modelSearch := ""; registerModelForm := registerModelForm st;
               registeringModel := registeringModel st; viewMode := viewMode st |}, [])
      else (st, [])
  | SetViewMode mode =>
      ({| modelSearch := modelSearch st; registerModelForm := registerModelForm st;
          registeringModel := registeringModel st; viewMode := mode |}, [])
  | RegisterChange updater =>
      match viewMode st with
      | view_list =>
          ({| modelSearch := modelSearch st;
              registerModelForm := ModelCatalogPanel.merge (registerModelForm st) updater;
              registeringModel := registeringModel st; viewMode := viewMode st |}, [])
      | view_grid => (st, [])
      end
  | RegisterSubmit registered =>
      match viewMode st with
      | view_list =>
          if registeringModel st then (st, [])
          else
            match ModelCatalogPanel.handleRegisterSubmit trim (registerModelForm st) with
            | Some form => handleRegisterModel st form registered
            | None => (st, [Alert "Model name and base model are required."])
            end
      | view_grid => (st, [])
      end
  | QuickStartSupported i =>
      match shownSupported (render props st) !! i with
      | Some model => (st, handleFineTunePrefill (inl model) None)
      | None => (st, [])
      end
  | QuickStartRegistered i =>
      match shownRegistered (render props st) !! i with
      | Some model => (st, handleFineTunePrefill (inr model) None)
      | None => (st, [])
      end
  end.

(** The tab after a sequence of events, with all the effects in order. *)
Fixpoint run (props : Props) (st : State) (events : list Event) : State * list Effect :=
  match events with
  | [] => (st, [])
  | e :: events' =>
      let (st', effects) := react props st e in
      let (st'', effects') := run props st' events' in
      (st'', effects ++ effects')
  end.

End tab.

End ModelsTabPage.

(** ** The top bar (the [TopBar] component) *)

Module TopBar.

(** The fields of [Project] (declared in [@/lib/api]) that the bar reads. *)
Record Project := {
  id : Z;
  name : string;
}.

(** The props that decide what the bar does; the two optional callbacks
    by whether they are given. *)
Record Props := {
  projects : list Project;
  selectedProjectId : option Z;
  onProjectCreated : bool;
  onError : bool;
}.

(** The [useState] cells of the bar. *)
Record State := {
  isCreateDialogOpen : bool;
  newProjectName : string;
  newProjectDescription : string;
  isCreating : bool;
}.

Definition initial : State := {|
  isCreateDialogOpen := false;
  newProjectName := "";
  newProjectDescription := "";
  isCreating := false;
|}.

(** The argument of [createProject]; [description] is [undefined] when
    the trimmed field is empty. *)
Record CreatePayload := {
  payload_name : string;
  payload_description : option string;
}.

(** The calls seen outside the bar. *)
Inductive Effect :=
| CreateProject (payload : CreatePayload)
| OnProjectCreated (project : Project)
| OnError (message : string)
| OnSelectProject (projectId : Z)
| RouterPush (path : string).

Section bar.

(** [String(n)] on a project identifier, [Number(s)] with [None] for
    [NaN], and [s.trim()]. *)
Variable Number_toString : Z → string.
Variable Number : string → option Z.
Variable trim : string → string.

(** [value={selectedProjectId ? String(selectedProjectId) : undefined}] *)
Definition selectValue (props : Props) : option string :=
  match selectedProjectId props with
  | Some projectId => if bool_decide (projectId = 0%Z) then None
                      else Some (Number_toString projectId)
  | None => None
  end.

(** The values of the items of the select, [String(project.id)] each. *)
Definition itemValues (props : Props) : list string :=
  (λ project, Number_toString (id project)) <$> projects props.

(** [disabled={!projects.length}] *)
Definition selectDisabled (props : Props) : bool :=
  bool_decide (length (projects props) = 0%nat).

(** [onValueChange(value)] *)
Definition onValueChange (value : string) : list Effect :=
  match Number value with
  | Some projectId => [OnSelectProject projectId]
  | None => []
  end.

(** [disabled={isCreating || !newProjectName.trim()}] on the button that
    creates the project. *)
Definition createDisabled (st : State) : bool :=
  isCreating st || JsString.falsy (trim (newProjectName st)).

(** [handleCreateProject()], run until its promise settles; [created] is
    what the promise of [createProject(...)] settles to. *)
Definition handleCreateProject (props : Props) (st : State)
    (created : ChatTabSubmit.Settled Project) : State * list Effect :=
  if JsString.falsy (trim (newProjectName st)) then (st, [])
  else
    let payload := {|
      payload_name := trim (newProjectName st);
      payload_description :=
        if JsString.falsy (trim (newProjectDescription st)) then None
        else Some (trim (newProjectDescription st));
    |} in
    match created with
    | ChatTabSubmit.Fulfilled project =>
        ({| isCreateDialogOpen := false; newProjectName := ""; newProjectDescription := "";
            isCreating := false |},
         CreateProject payload
         :: (if onProjectCreated props then [OnProjectCreated project] else []))
    | ChatTabSubmit.Rejected message =>
        ({| isCreateDialogOpen := isCreateDialogOpen st; newProjectName := newProjectName st;
            newProjectDescription := newProjectDescription st; isCreating := false |},
         CreateProject payload :: (if onError props then [OnError message] else []))
    end.

(** What can happen on the bar: the select reports the value of its
    [i]-th item, the dialog asks to be opened or closed, a field of the
    dialog is edited, Cancel or Create Project is clicked, one of the two
    links is clicked. *)
Inductive Event :=
| ValueChange (i : nat)
| OpenChange (open : bool)
| EditName (value : string)
| EditDescription (value : string)
| ClickCancel
| ClickCreate (created : ChatTabSubmit.Settled Project)
| ClickHuggingFace
| ClickDeployments.

(** The bar after an event, and the effects of the event. The fields and
    the buttons of the dialog are there only while it is open, and a
    disabled control reports nothing. A creation is taken to run to its
    end before the next event. *)
Definition react (props : Props) (st : State) (e : Event) : State * list Effect :=
  match e with
  | ValueChange i =>
      if selectDisabled props then (st, [])
      else
        match itemValues props !! i with
        | Some value => (st, onValueChange value)
        | None => (st, [])
        end
  | OpenChange open =>
      ({| isCreateDialogOpen := open; newProjectName := newProjectName st;
          newProjectDescription := newProjectDescription st; isCreating := isCreating st |}, [])
  | EditName value =>
      if isCreateDialogOpen st
      then ({| isCreateDialogOpen := true; newProjectName := value;
               newProjectDescription := newProjectDescription st;
               isCreating := isCreating st |}, [])
      else (st, [])
  | EditDescription value =>
      if isCreateDialogOpen st
      then ({| isCreateDialogOpen := true; newProjectName := newProjectName st;
               newProjectDescription := value; isCreating := isCreating st |}, [])
      else (st, [])
  | ClickCancel =>
      if isCreateDialogOpen st
      then ({| isCreateDialogOpen := false; newProjectName := newProjectName st;
               newProjectDescription := newProjectDescription st;
               isCreating := isCreating st |}, [])
      else (st, [])
  | ClickCreate created =>
      if isCreateDialogOpen st && negb (createDisabled st)
      then handleCreateProject props st created
      else (st, [])
  | ClickHuggingFace => (st, [RouterPush "/settings"])
  | ClickDeployments => (st, [RouterPush "/deployments"])
  end.

(** The bar after a sequence of events, with all the effects in order. *)
Fixpoint run (props : Props) (st : State) (events : list Event) : State * list Effect :=
  match events with
  | [] => (st, [])
  | e :: events' =>
      let (st', effects) := react props st e in
      let (st'', effects') := run props st' events' in
      (st'', effects ++ effects')
  end.

End bar.

End TopBar.

(** ** The hyperparameter calculator (the [HyperparamCalculator]
       component) *)

Module HyperparamCalculator.

(** The props that the component reads, [onApply] apart. *)
Record Props := {
  modelName : string;
  recipeType : string;
  loraRank : option Z;
}.

(** The object whose JSON text is the body of the request; [lora_rank] is
    left out of the text when it is [undefined]. *)
Record Request := {
  model_name : string;
  recipe_type : string;
  lora_rank : option Z;
}.

Section calculator.

(** [HyperparamResponse], and its field [recommendations]. *)
Variable HyperparamResponse : Type.
Variable HyperparamRecommendations : Type.
Variable recommendations_of : HyperparamResponse → HyperparamRecommendations.

(** The [useState] cells of the component. *)
Record State := {
  recommendations : option HyperparamResponse;
  loading : bool;
  error : option string;
}.

Definition initial : State := {|
  recommendations := None;
  loading := false;
  error := None;
|}.

(** How the [try] block ends once the request is sent: the response is ok
    and its JSON is read; the response is not ok, and [detail] is the text
    of [errorData.detail], empty when it is missing or falsy; or something
    else is thrown, an [Error] with a message or another value. *)
Inductive Outcome :=
| Calculated (data : HyperparamResponse)
| Refused (detail : string)
| Threw (message : option string).

(** The calls seen outside the component. *)
Inductive Effect :=
| Fetch (request : Request)
| OnApply (values : HyperparamRecommendations).

(** [calculateRecommendations()], run until its promise settles. *)
Definition calculateRecommendations (props : Props) (st : State) (outcome : Outcome)
  : State * list Effect :=
  if JsString.falsy (modelName props)
  then ({| recommendations := recommendations st; loading := loading st;
           error := Some "Please select a model first" |}, [])
  else
    let request := {| model_name := modelName props; recipe_type := recipeType props;
                      lora_rank := loraRank props |} in
    match outcome with
    | Calculated data =>
        ({| recommendations := Some data; loading := false; error := None |}, [Fetch request])
    | Refused detail =>
        ({| recommendations := recommendations st; loading := false;
            error := Some (if JsString.falsy detail
                           then "Failed to calculate hyperparameters" else detail) |},
         [Fetch request])
    | Threw message =>
        ({| recommendations := recommendations st; loading := false;
            error := Some (default "An error occurred" message) |},
         [Fetch request])
    end.

(** [disabled={loading || !modelName}] on the button that calculates. *)
Definition calculateDisabled (props : Props) (st : State) : bool :=
  loading st || JsString.falsy (modelName props).

(** [{error && <Alert ...>}]: the alert is shown for a message that is not
    empty. *)
Definition showsAlert (st : State) : bool :=
  match error st with
  | Some message => negb (JsString.falsy message)
  | None => false
  end.

(** [{recommendations && <Card ...>}] *)
Definition showsCard (st : State) : bool :=
  bool_decide (is_Some (recommendations st)).

(** The component with the props of its last render. *)
Record Calculator := {
  props : Props;
  state : State;
}.

Definition mount (p : Props) : Calculator := {| props := p; state := initial |}.

(** What can happen to the component: its parent renders it with other
    props, the button that calculates is clicked, the button that applies
    the values is clicked. *)
Inductive Event :=
| PropsChanged (p : Props)
| ClickCalculate (outcome : Outcome)
| ClickApply.

(** The component after an event, and the effects of the event. A disabled
    button reports nothing, and the button that applies is there only with
    the card. A calculation is taken to run to its end before the next
    event. *)
Definition react (c : Calculator) (e : Event) : Calculator * list Effect :=
  match e with
  | PropsChanged p => ({| props := p; state := state c |}, [])
  | ClickCalculate outcome =>
      if calculateDisabled (props c) (state c) then (c, [])
      else
        let (st, effects) := calculateRecommendations (props c) (state c) outcome in
        ({| props := props c; state := st |}, effects)
  | ClickApply =>
      match recommendations (state c) with
      | Some data => (c, [OnApply (recommendations_of data)])
      | None => (c, [])
      end
  end.

(** The component after a sequence of events, with all the effects in
    order. *)
Fixpoint run (c : Calculator) (events : list Event) : Calculator * list Effect :=
  match events with
  | [] => (c, [])
  | e :: events' =>
      let (c', effects) := react c e in
      let (c'', effects') := run c' events' in
      (c'', effects ++ effects')
  end.

End calculator.

Arguments recommendations {HyperparamResponse} _.
Arguments loading {HyperparamResponse} _.
Arguments error {HyperparamResponse} _.
Arguments Calculated {HyperparamResponse} data.
Arguments Refused {HyperparamResponse} detail.
Arguments Threw {HyperparamResponse} message.
Arguments Fetch {HyperparamRecommendations} request.
Arguments OnApply {HyperparamRecommendations} values.
Arguments props {HyperparamResponse} _.
Arguments state {HyperparamResponse} _.
Arguments PropsChanged {HyperparamResponse} p.
Arguments ClickCalculate {HyperparamResponse} outcome.
Arguments ClickApply {HyperparamResponse}.
Arguments showsAlert {HyperparamResponse} st.
Arguments showsCard {HyperparamResponse} st.
Arguments calculateDisabled {HyperparamResponse} props st.
Arguments mount {HyperparamResponse} p.

End HyperparamCalculator.

(** An instance of the JSON built-ins for running the dataset form on
    concrete inputs: the values are the flat objects of strings, printed as
    [JSON.stringify(value, null, 2)] prints them when no character needs an
    escape, and read back from texts of that kind (an object whose keys and
    values are quoted strings without quotes, backslashes, control
    characters, commas or colons, white space allowed around every token).
    All other texts are rejected, those included that [JSON.parse] accepts. *)

Module PlainJson.
Import PlainBuiltins.

Definition newline : string := String (ascii_of_nat 10) "".

Definition print_entry (e : string * string) : string :=
  "  " +:+ DatasetManager.quoted e.1 +:+ ": " +:+ DatasetManager.quoted e.2.

Definition JSON_stringify (entries : list (string * string)) : string :=
  match entries with
  | [] => "{}"
  | _ => "{" +:+ newline +:+ JsString.join ("," +:+ newline) (print_entry <$> entries)
         +:+ newline +:+ "}"
  end.

Definition json_string_entry (s : string) : option (string * string) :=
  match JsString.split ":" s with
  | [k; v] =>
      match json_key k, json_key v with
      | Some key, Some value => Some (key, value)
      | _, _ => None
      end
  | _ => None
  end.

Fixpoint json_string_entries (parts : list string) : option (list (string * string)) :=
  match parts with
  | [] => Some []
  | part :: parts' =>
      match json_string_entry part, json_string_entries parts' with
      | Some e, Some es => Some (e :: es)
      | _, _ => None
      end
  end.

Definition JSON_parse (s : string) : option (list (string * string)) :=
  match trim s with
  | String "{" rest =>
      match but_last "}" rest with
      | Some inner =>
          if JsString.falsy (trim inner) then Some []
          else json_string_entries (JsString.split "," inner)
      | None => None
      end
  | _ => None
  end.

End PlainJson.

(** ** The run-orchestration core

    The job runner, the run state machine and the checkpoint manager belong
    to the backend of the repository, whose sources are not among the files
    embedded above. The modules below are written from the specification of
    that core. *)

Module RunStateMachine.

(** Modelled from the spec: the backend's run status enumeration is missing;
    "States: pending, running, completed, failed, cancelled. Initial:
    pending. Terminal: completed, failed, cancelled." *)
Inductive RunStatus := pending | running | completed | failed | cancelled.

#[global] Instance RunStatus_eq_dec : EqDecision RunStatus.
Proof. solve_decision. Defined.

Definition initial_status : RunStatus := pending.

Definition is_terminal (s : RunStatus) : bool :=
  match s with
  | completed | failed | cancelled => true
  | pending | running => false
  end.

(** Modelled from the spec: the backend's transition table is missing; these
    are the five transitions the spec lists for the run state machine. *)
Inductive Transition :=
| BeginAttempt       (* pending -> running *)
| AttemptSucceeded   (* running -> completed *)
| AttemptFailed      (* running -> failed *)
| RetryAttempt       (* running -> running *)
| CancelObserved.    (* running -> cancelled *)

(** Modelled from the spec: the backend's transition function is missing.
    [None] means that the machine does not permit the transition from the
    given status; no transition leaves a terminal status. *)
Definition transition (s : RunStatus) (t : Transition) : option RunStatus :=
  match s, t with
  | pending, BeginAttempt => Some running
  | running, AttemptSucceeded => Some completed
  | running, AttemptFailed => Some failed
  | running, RetryAttempt => Some running
  | running, CancelObserved => Some cancelled
  | _, _ => None
  end.

End RunStateMachine.

Module CheckpointManager.

(** Runs and checkpoints are identified by numbers. *)
Abbreviation RunId := N (only parsing).
Abbreviation CheckpointId := N (only parsing).

(** Modelled from the spec: the backend's checkpoint entity is missing;
    "identity; owning run identity; step number at which it was produced;
    storage location reference; metric snapshot at that step; a flag marking
    it as the final/merged artifact". Metric values are exact rationals. *)
Record Checkpoint := {
  checkpoint_id : CheckpointId;
  owner : RunId;
  step : Z;
  storageRef : string;
  metrics : gmap string Q;
  isFinal : bool;
}.

(** Modelled from the spec: the backend's checkpoint table is missing; the
    registered checkpoints of all runs, oldest first ("listCheckpoints(runId)
    -> ordered sequence of Checkpoint"). *)
Definition Store := list Checkpoint.

Inductive RegisterError := InvalidStepOrder.

(** Modelled from the spec: "listCheckpoints(runId)", the checkpoints of one
    run in registration order. *)
Definition of_run (run : RunId) (σ : Store) : list Checkpoint :=
  filter (λ c, owner c = run) σ.

(** Modelled from the spec: "the run's current maximum", the greatest step
    among the checkpoints registered for the run, if there is one. *)
Definition max_step (run : RunId) (σ : Store) : option Z :=
  foldr (λ c acc, Some (from_option (Z.max (step c)) (step c) acc)) None (of_run run σ).

(** Modelled from the spec: the backend's [register] is missing;
    "register(run, step, storageRef, metrics, isFinal) -> Checkpoint" and
    "register rejects a step number not strictly greater than the run's
    current maximum (InvalidStepOrder)". The result is the store after the
    call and either the error or the checkpoint created. *)
Definition register (σ : Store) (run : RunId) (step : Z) (storageRef : string)
    (metrics : gmap string Q) (isFinal : bool) : Store * (RegisterError + Checkpoint) :=
  let accept :=
    let c := {| checkpoint_id := N.of_nat (length σ); owner := run; step := step;
                storageRef := storageRef; metrics := metrics; isFinal := isFinal |} in
    (σ ++ [c], inr c) in
  match max_step run σ with
  | Some m => if (step <=? m)%Z then (σ, inl InvalidStepOrder) else accept
  | None => accept
  end.

(** Modelled from the spec: the backend's [latest] is missing;
    "latest(run) -> Checkpoint | none". *)
Definition latest (σ : Store) (run : RunId) : option Checkpoint :=
  last (of_run run σ).

(** Modelled from the spec: the backend's [get] is missing;
    "get(checkpointId) -> Checkpoint | NotFound". *)
Definition get (σ : Store) (id : CheckpointId) : option Checkpoint :=
  List.find (λ c, bool_decide (checkpoint_id c = id)) σ.

(** Modelled from the spec: the "comparison direction (minimize loss vs.
    maximize reward)" supplied by the caller of [best]. *)
Inductive Direction := Minimize | Maximize.

(** [improves d v w]: under direction [d], value [v] is strictly better than
    value [w]. *)
Definition improves (d : Direction) (v w : Q) : bool :=
  match d with
  | Minimize => negb (Qle_bool w v)
  | Maximize => negb (Qle_bool v w)
  end.


(** Modelled from the spec: one step of the selection made by [best]; a
    checkpoint that does not record the key is passed over, one that does
    replaces the current choice when its value is strictly better. *)
Definition pick (metricKey : string) (d : Direction)
    (acc : option (Checkpoint * Q)) (c : Checkpoint) : option (Checkpoint * Q) :=
  match metrics c !! metricKey with
  | None => acc
  | Some v =>
      match acc with
      | None => Some (c, v)
      | Some (b, w) => if improves d v w then Some (c, v) else Some (b, w)
      end
  end.

(** Modelled from the spec: the backend's [best] is missing;
    "best(run, metricKey) -> Checkpoint | none", which "selects by a
    caller-supplied metric key and comparison direction (minimize loss vs.
    maximize reward), never hardcoding a metric name". *)
Definition best (σ : Store) (run : RunId) (metricKey : string) (d : Direction)
  : option Checkpoint :=
  fst <$> fold_left (pick metricKey d) (of_run run σ) None.

(** The arguments of one call of [register], and the store reached by a
    sequence of calls, whether each is accepted or rejected. *)
Record Request := {
  req_run : RunId;
  req_step : Z;
  req_storageRef : string;
  req_metrics : gmap string Q;
  req_isFinal : bool;
}.

Definition serve (σ : Store) (q : Request) : Store :=
  (register σ (req_run q) (req_step q) (req_storageRef q) (req_metrics q) (req_isFinal q)).1.

Definition serve_all (σ : Store) (qs : list Request) : Store :=
  fold_left serve qs σ.

End CheckpointManager.

Module Metrics.

(** Modelled from the spec: the backend's metric sample is missing; "metric
    samples (step, loss, learning rate, progress fraction, timestamp)". A
    field that the sample does not carry is absent. *)
Record MetricSample := {
  step : option Z;
  loss : option Q;
  learning_rate : option Q;
  progress : option Q;
  timestamp : option string;
}.

End Metrics.

Module JobRunner.
Import RunStateMachine.

(** Modelled from the spec: the backend's run entity is missing; "identity;
    owning project; recipe kind; configuration blob; status; last error
    message (nullable); current step and progress fraction". The attempt
    counter of the execution attempts is kept on the run. *)
Record Run := {
  project : Z;
  recipe : string;
  config : string;
  dataset : option Z;
  status : RunStatus;
  attempt : nat;
  current_step : Z;
  progress : Q;
  last_error : option string;
}.

(** The run with one field replaced. *)
Definition with_status (s : RunStatus) (run : Run) : Run := {|
  project := project run; recipe := recipe run; config := config run; dataset := dataset run;
  status := s; attempt := attempt run; current_step := current_step run;
  progress := progress run; last_error := last_error run |}.

Definition with_attempt (n : nat) (run : Run) : Run := {|
  project := project run; recipe := recipe run; config := config run; dataset := dataset run;
  status := status run; attempt := n; current_step := current_step run;
  progress := progress run; last_error := last_error run |}.

Definition with_position (step : Z) (p : Q) (run : Run) : Run := {|
  project := project run; recipe := recipe run; config := config run; dataset := dataset run;
  status := status run; attempt := attempt run; current_step := step;
  progress := p; last_error := last_error run |}.

Definition with_error (e : option string) (run : Run) : Run := {|
  project := project run; recipe := recipe run; config := config run; dataset := dataset run;
  status := status run; attempt := attempt run; current_step := current_step run;
  progress := progress run; last_error := e |}.

(** Modelled from the spec: the execution attempt; one invocation of the
    recipe executor with the run, the attempt number and the resume source
    (none, or a checkpoint reference). *)
Record Invocation := {
  inv_run : N;
  inv_attempt : nat;
  inv_recipe : string;
  inv_resume : option N;
}.

(** Modelled from the spec: the state of the backend is missing; everything
    the job runner reads and writes: the runs, the run-scoped locks that are
    held, the checkpoint store and the executor invocations made so far. *)
Record System := {
  runs : gmap N Run;
  locks : gset N;
  checkpoints : CheckpointManager.Store;
  invocations : list Invocation;
}.

(** The system before any submission. *)
Definition empty_system : System :=
  {| runs := ∅; locks := ∅; checkpoints := []; invocations := [] |}.

(** The system with one component replaced. *)
Definition with_runs (m : gmap N Run) (σ : System) : System :=
  {| runs := m; locks := locks σ; checkpoints := checkpoints σ; invocations := invocations σ |}.

Definition with_locks (l : gset N) (σ : System) : System :=
  {| runs := runs σ; locks := l; checkpoints := checkpoints σ; invocations := invocations σ |}.

Definition with_checkpoints (c : CheckpointManager.Store) (σ : System) : System :=
  {| runs := runs σ; locks := locks σ; checkpoints := c; invocations := invocations σ |}.

Definition with_invocations (i : list Invocation) (σ : System) : System :=
  {| runs := runs σ; locks := locks σ; checkpoints := checkpoints σ; invocations := i |}.

(** Modelled from the spec: the "keyed mutex/lease registry"; taking and
    giving back the run-scoped lock of run [r]. *)
Definition acquire (r : N) (σ : System) : System := with_locks ({[r]} ∪ locks σ) σ.
Definition release (r : N) (σ : System) : System := with_locks (locks σ ∖ {[r]}) σ.

(** Modelled from the spec: the run state machine "is the only component
    permitted to move a run across states"; a status changes only here, when
    the machine permits the transition from the run's present status. *)
Definition fire (r : N) (t : Transition) (σ : System) : option System :=
  match runs σ !! r with
  | None => None
  | Some run =>
      match transition (status run) t with
      | None => None
      | Some s' => Some (with_runs (<[r := with_status s' run]> (runs σ)) σ)
      end
  end.

(** Modelled from the spec: the job runner "mutates Run status/progress";
    this is a change of a run that is not a change of status, which is left
    to [fire]. *)
Definition amend (r : N) (f : Run → Run) (σ : System) : System :=
  with_runs (alter (λ run, with_status (status run) (f run)) r (runs σ)) σ.

(** Modelled from the spec: the job runner "invokes the Recipe Executor for
    the run's recipe kind" with the selected resume source; the invocation is
    recorded. *)
Definition invoke (r : N) (resume : option N) (σ : System) : System :=
  match runs σ !! r with
  | None => σ
  | Some run =>
      with_invocations
        (invocations σ ++
         [{| inv_run := r; inv_attempt := attempt run; inv_recipe := recipe run;
             inv_resume := resume |}]) σ
  end.

(** Modelled from the spec: the recipe kinds without an executor, the
    "unsupported/coming soon recipe kinds"; the spec does not list them, they
    are the kinds that the recipe table of the repository marks as
    unsupported or coming soon. *)
Definition unsupported_kinds : list string :=
  ["PPO"; "GRPO"; "PROMPT_DISTILLATION"; "TOOL_USE"; "MULTIPLAYER_RL"].

(** Modelled from the spec: "ValidationError (bad recipe/config, never
    retried)", which surfaces "immediately to the caller of the
    orchestration contract". *)
Inductive SubmitError := ValidationError (message : string).

(** Modelled from the spec: the run that an accepted submission creates,
    "created on submission in pending". The new run receives an identity
    that no run of the system has. *)
Definition create_run (σ : System) (project : Z) (recipe config : string) (dataset : option Z)
  : System * N :=
  let r := fresh (dom (runs σ)) in
  (with_runs (<[r := {| project := project; recipe := recipe; config := config;
                        dataset := dataset; status := initial_status; attempt := 0;
                        current_step := 0; progress := 0; last_error := None |}]> (runs σ)) σ,
   r).

(** Modelled from the spec: "submitRun(projectId, recipeKind, config,
    datasetRef?) -> Run (status pending)", where "unsupported/coming soon
    recipe kinds must be rejected at submission time (fatal, not retryable)
    rather than accepted and failed mid-execution". A rejected submission
    leaves the system as it was. *)
Definition submitRun (σ : System) (project : Z) (recipe config : string) (dataset : option Z)
  : System * (SubmitError + N) :=
  if bool_decide (recipe ∈ unsupported_kinds)
  then (σ, inl (ValidationError ("unsupported recipe kind: " +:+ recipe)))
  else
    let (σ', r) := create_run σ project recipe config dataset in
    (σ', inr r).

(** Modelled from the spec: "re-submission of a finished run must create a
    logically new run rather than reopen the old one": a new run with the
    parameters of the old one, which were validated when the old run was
    submitted. [None] when the run is unknown. *)
Definition resubmit (σ : System) (r : N) : option (System * N) :=
  match runs σ !! r with
  | None => None
  | Some run => Some (create_run σ (project run) (recipe run) (config run) (dataset run))
  end.

(** Modelled from the spec: the errors of [start]; the spec names
    [AlreadyRunning] for a start on a run whose lock is held and [NotFound]
    for an unknown run, and no error for a start on a run that is no longer
    pending. *)
Inductive StartError := AlreadyRunning | NotFound | NotPending.

#[global] Instance StartError_eq_dec : EqDecision StartError.
Proof. solve_decision. Defined.

(** Modelled from the spec: the backend's [start] is missing; "an exclusive,
    run-scoped lock acquired before any state transition", then "on acquiring
    the lock, the Job Runner transitions the run to running, selects the
    resume source (none for a first attempt ...) and invokes the Recipe
    Executor". The lock is not given back by a call that proceeds, since it
    is held until the attempt ends; a start on a run that is unknown or not
    pending gives the lock back and fails. Calls are taken one at a time. *)
Definition start (σ : System) (r : N) : System * (StartError + unit) :=
  if decide (r ∈ locks σ) then (σ, inl AlreadyRunning)
  else
    let σ1 := acquire r σ in
    match runs σ1 !! r with
    | None => (release r σ1, inl NotFound)
    | Some _ =>
        match fire r BeginAttempt σ1 with
        | Some σ2 =>
            (invoke r None (amend r (λ run, with_attempt (S (attempt run)) run) σ2), inr ())
        | None => (release r σ1, inl NotPending)
        end
    end.

(** *** The events of an attempt *)

(** Modelled from the spec: the terminal outcome of an executor attempt,
    with failures "tagged retryable ... vs fatal ... at the point they are
    raised". *)
Inductive Outcome :=
| Success
| RetryableFailure (message : string)
| FatalFailure (message : string).

(** Modelled from the spec: an explicit resume request, from scratch or
    from the latest checkpoint. *)
Inductive ResumeRequest := FromScratch | FromLatestCheckpoint.

(** Modelled from the spec: the retry budget, a "default small fixed
    number", "e.g., 3". *)
Definition retry_budget : nat := 3.

(** Modelled from the spec: a metric sample is applied to a running run
    only; the progress fraction never moves backwards within an attempt, so a
    sample whose fraction is below the present one leaves it in place. *)
Definition apply_sample (s : Metrics.MetricSample) (run : Run) : Run :=
  match status run with
  | running =>
      with_position
        (default (current_step run) (Metrics.step s))
        (match Metrics.progress s with
         | Some p => if Qle_bool (progress run) p then p else progress run
         | None => progress run
         end)
        run
  | _ => run
  end.

(** The resume source of a retry: the latest checkpoint of the run, if any. *)
Definition latest_id (σ : System) (r : N) : option N :=
  CheckpointManager.checkpoint_id <$> CheckpointManager.latest (checkpoints σ) r.

(** Modelled from the spec: the retry policy; "running -> running: internal
    retry of a retryable failure; re-enters running with attempt counter
    incremented and, if a checkpoint exists, resumes from the latest
    checkpoint"; "exceeding [the budget] converts the error to fatal"; the
    lock is released when the attempt ends in a terminal state and held
    across a retry. The synthesis of a terminal checkpoint for a recipe that
    does not checkpoint is left out. *)
Definition on_outcome (r : N) (o : Outcome) (σ : System) : System :=
  match o with
  | Success =>
      match fire r AttemptSucceeded σ with
      | Some σ' => release r σ'
      | None => σ
      end
  | FatalFailure message =>
      match fire r AttemptFailed σ with
      | Some σ' => release r (amend r (with_error (Some message)) σ')
      | None => σ
      end
  | RetryableFailure message =>
      match runs σ !! r with
      | None => σ
      | Some run =>
          if decide (attempt run < retry_budget)%nat then
            match fire r RetryAttempt σ with
            | Some σ' =>
                invoke r (latest_id σ r)
                  (amend r (λ run, with_attempt (S (attempt run)) run) σ')
            | None => σ
            end
          else
            match fire r AttemptFailed σ with
            | Some σ' =>
                release r
                  (amend r (with_error (Some ("retry budget exhausted: " +:+ message))) σ')
            | None => σ
            end
      end
  end.

(** Modelled from the spec: an explicit resume request on a running run
    starts a new attempt; only a resume from scratch puts the step and the
    progress fraction back to zero. *)
Definition on_resume (r : N) (req : ResumeRequest) (σ : System) : System :=
  match fire r RetryAttempt σ with
  | None => σ
  | Some σ' =>
      match req with
      | FromScratch =>
          invoke r None
            (amend r (λ run, with_position 0 0 (with_attempt (S (attempt run)) run)) σ')
      | FromLatestCheckpoint =>
          invoke r (latest_id σ r)
            (amend r (λ run, with_attempt (S (attempt run)) run) σ')
      end
  end.

(** Modelled from the spec: "running -> cancelled: external cancellation
    request observed between metric-sample boundaries"; the lock is released
    as the attempt has ended. *)
Definition on_cancel (r : N) (σ : System) : System :=
  match fire r CancelObserved σ with
  | Some σ' => release r σ'
  | None => σ
  end.

(** Modelled from the spec: a metric sample of run [r] is applied to the
    run. *)
Definition on_sample (r : N) (s : Metrics.MetricSample) (σ : System) : System :=
  amend r (apply_sample s) σ.

(** Modelled from the spec: "checkpoint events are passed to the Checkpoint
    Manager"; only a running attempt emits them. *)
Definition on_checkpoint (r : N) (step : Z) (storageRef : string) (metrics : gmap string Q)
    (isFinal : bool) (σ : System) : System :=
  match status <$> runs σ !! r with
  | Some running =>
      with_checkpoints
        (CheckpointManager.register (checkpoints σ) r step storageRef metrics isFinal).1 σ
  | _ => σ
  end.

(** Modelled from the spec: the operations that reach the job runner, from
    its callers ([submitRun], re-submission, [start], [cancelRun], an
    explicit resume request) and from the executor of an attempt (metric
    samples, checkpoint events, the terminal outcome). *)
Inductive Op :=
| OpSubmit (project : Z) (recipe config : string) (dataset : option Z)
| OpResubmit (r : N)
| OpStart (r : N)
| OpSample (r : N) (s : Metrics.MetricSample)
| OpCheckpoint (r : N) (step : Z) (storageRef : string) (metrics : gmap string Q) (isFinal : bool)
| OpOutcome (r : N) (o : Outcome)
| OpCancel (r : N)
| OpResume (r : N) (req : ResumeRequest).

(** The system after one operation, and after a sequence of them. *)
Definition exec_op (σ : System) (op : Op) : System :=
  match op with
  | OpSubmit project recipe config dataset => (submitRun σ project recipe config dataset).1
  | OpResubmit r => from_option fst σ (resubmit σ r)
  | OpStart r => (start σ r).1
  | OpSample r s => on_sample r s σ
  | OpCheckpoint r step storageRef metrics isFinal =>
      on_checkpoint r step storageRef metrics isFinal σ
  | OpOutcome r o => on_outcome r o σ
  | OpCancel r => on_cancel r σ
  | OpResume r req => on_resume r req σ
  end.

Definition exec_ops (σ : System) (ops : list Op) : System :=
  fold_left exec_op ops σ.

(** "getRun(id)": the status, progress fraction and attempt counter of a
    run. *)
Definition status_of (r : N) (σ : System) : option RunStatus := status <$> runs σ !! r.
Definition progress_of (r : N) (σ : System) : option Q := progress <$> runs σ !! r.
Definition attempt_of (r : N) (σ : System) : option nat := attempt <$> runs σ !! r.

End JobRunner.

(* ===================================================================== *)
(** * Part II: properties                                                 *)
(* ===================================================================== *)

(** ** Strings *)

Module JsStringFacts.
Import JsString.

Lemma append_empty_l (s : string) : "" +:+ s = s.
Proof. reflexivity. Qed.

Lemma append_String (c : ascii) (s t : string) : String c s +:+ t = String c (s +:+ t).
Proof. reflexivity. Qed.

Lemma startsWith_spec s t :
  startsWith s t = true ↔ ∃ post, s = t +:+ post.
Proof.
  revert s. induction t as [|c t IH]; intros s; simpl.
  - split; [intros _; by exists s | done].
  - destruct s as [|d s]; simpl.
    + split; [done | intros [post Hp]; discriminate].
    + setoid_rewrite append_String. case_decide as Hcd; subst.
      * rewrite IH. split; intros [post Hp]; exists post; congruence.
      * split; [done | intros [post Hp]; congruence].
Qed.

Lemma includes_spec s t :
  includes s t = true ↔ ∃ pre post, s = pre +:+ t +:+ post.
Proof.
  induction s as [|d s IH]; simpl.
  - rewrite orb_false_r, startsWith_spec. split.
    + intros [post Hp]. by exists EmptyString, post.
    + intros [pre [post Hp]]. destruct pre; [by exists post | discriminate].
  - rewrite orb_true_iff, IH, startsWith_spec. split.
    + intros [[post Hp] | [pre [post Hp]]].
      * by exists EmptyString, post.
      * exists (String d pre), post. rewrite append_String. by rewrite Hp.
    + intros [pre [post Hp]]. destruct pre as [|e pre].
      * left. by exists post.
      * right. exists pre, post. rewrite append_String in Hp. congruence.
Qed.

Lemma includes_empty s : includes s EmptyString = true.
Proof. apply includes_spec. by exists EmptyString, s. Qed.

Lemma falsy_spec s : falsy s = true ↔ s = EmptyString.
Proof. by destruct s. Qed.

Lemma ascii_lower_empty : ascii_lower "" = "".
Proof. reflexivity. Qed.

Lemma split_cons (sep : ascii) (s : string) : ∃ w ws, split sep s = w :: ws.
Proof.
  induction s as [|c s (w & ws & IH)]; simpl; [by eexists _, _|].
  case_decide; [by eexists _, _|]. rewrite IH. by eexists _, _.
Qed.

Lemma join_cons (sep w v : string) (ws : list string) :
  join sep (w :: v :: ws) = w +:+ sep +:+ join sep (v :: ws).
Proof. reflexivity. Qed.

(** Joining the parts with the separator gives the string back. *)
Lemma join_split (sep : ascii) (s : string) :
  join (String sep "") (split sep s) = s.
Proof.
  induction s as [|c s IH]; [done|]. simpl.
  destruct (split_cons sep s) as (w & ws & Hs). rewrite Hs in *.
  case_decide as Hc; [subst c|].
  - rewrite join_cons, append_empty_l, append_String, append_empty_l. by rewrite IH.
  - destruct ws as [|v ws].
    + simpl in *. by rewrite IH.
    + rewrite join_cons in IH. rewrite join_cons, append_String. by rewrite IH.
Qed.

(** There is more than one part exactly when the separator occurs. *)
Lemma split_length (sep : ascii) (s : string) :
  bool_decide (1 < length (split sep s))%nat = includes s (String sep "").
Proof.
  induction s as [|c s IH]; [done|]. simpl.
  destruct (split_cons sep s) as (w & ws & Hs). rewrite Hs in *.
  destruct (decide (c = sep)) as [-> | Hc].
  - rewrite decide_True by done. done.
  - rewrite decide_False by done. simpl. by rewrite <- IH.
Qed.

(** The separator does not occur in the first part. *)
Lemma split_head (sep : ascii) (s w : string) (ws : list string) :
  split sep s = w :: ws → includes w (String sep "") = false.
Proof.
  revert w ws. induction s as [|c s IH]; intros w ws; simpl.
  - by intros [= <- <-].
  - destruct (split_cons sep s) as (v & vs & Hs). rewrite Hs in *.
    destruct (decide (c = sep)) as [-> | Hc].
    + by intros [= <- <-].
    + intros [= <- <-]. simpl. rewrite decide_False by done. simpl. by eapply IH.
Qed.

Example split_org : split "/" "meta-llama/Llama-3.1-8B" = ["meta-llama"; "Llama-3.1-8B"].
Proof. reflexivity. Qed.

Example split_none : split "/" "gpt2" = ["gpt2"].
Proof. reflexivity. Qed.

Example split_empty : split "/" "" = [""].
Proof. reflexivity. Qed.

Example join_three : join "/" ["a"; "b"; "c"] = "a/b/c".
Proof. reflexivity. Qed.

Lemma append_assoc (s t u : string) : (s +:+ t) +:+ u = s +:+ (t +:+ u).
Proof. induction s as [|c s IH]; [done|]. by rewrite !append_String, IH. Qed.

Lemma startsWith_includes (s t : string) : startsWith s t = true → includes s t = true.
Proof. intros H. destruct s; simpl; by rewrite H. Qed.

Lemma includes_tail (c : ascii) (s t : string) :
  includes (String c s) t = false → includes s t = false.
Proof. simpl. by intros [_ ?]%orb_false_iff. Qed.

Lemma includes_longer (s pre t : string) :
  includes s t = false → includes s (pre +:+ t) = false.
Proof.
  intros Hno. apply not_true_is_false. intros (a & b & ->)%includes_spec.
  assert (includes (a +:+ (pre +:+ t) +:+ b) t = true); [|congruence].
  apply includes_spec. exists (a +:+ pre), b.
  by rewrite !append_assoc.
Qed.

(** A string in which the separator does not occur is its own single part. *)
Lemma splitOn_absent (sep s : string) :
  includes s sep = false → splitOn sep s = [s].
Proof.
  unfold splitOn. induction s as [|c s IH]; [done|].
  intros Hno. simpl.
  destruct (startsWith (String c s) sep) eqn:Hst.
  { apply startsWith_includes in Hst. congruence. }
  by rewrite (IH (includes_tail c s sep Hno)).
Qed.

(** The first part is what precedes the first separator. *)
Lemma split_from_first (sep s w : string) (ws : list string) :
  split_from sep 0 s = w :: ws → ∃ rest, s = w +:+ rest.
Proof.
  revert w ws. induction s as [|c s IH]; intros w ws; simpl.
  - intros [= <- <-]. by exists EmptyString.
  - destruct (startsWith (String c s) sep).
    + intros [= <- <-]. by exists (String c s).
    + destruct (split_from sep 0 s) as [|v vs] eqn:Hs.
      * intros [= <- <-]. exists s. reflexivity.
      * intros [= <- <-]. destruct (IH v vs eq_refl) as [rest ->].
        exists rest. by rewrite append_String.
Qed.

Lemma startsWith_append (s rest t : string) :
  startsWith s t = true → startsWith (s +:+ rest) t = true.
Proof.
  rewrite !startsWith_spec. intros [post ->]. exists (post +:+ rest).
  by rewrite append_assoc.
Qed.

(** No part holds a separator. *)
Lemma split_from_clean (sep : string) (skip : nat) (s w : string) :
  sep ≠ EmptyString → w ∈ split_from sep skip s → includes w sep = false.
Proof.
  intros Hsep. revert skip w. induction s as [|c s IH]; intros skip w; simpl.
  - intros ->%list_elem_of_singleton. by destruct sep.
  - destruct skip as [|k]; [|apply IH].
    destruct (startsWith (String c s) sep) eqn:Hst.
    + intros [-> | Hw]%elem_of_cons; [by destruct sep | by eapply IH].
    + destruct (split_from sep 0 s) as [|v vs] eqn:Hs.
      * intros ->%list_elem_of_singleton. simpl.
        destruct sep as [|d sep]; [done|]. simpl in *.
        case_decide; [|done]. subst. destruct sep; [|done].
        by destruct s.
      * intros [-> | Hw]%elem_of_cons.
        -- simpl. apply orb_false_iff. split.
           ++ destruct (split_from_first sep s v vs Hs) as [rest ->].
              apply not_true_is_false. intros Hv.
              apply (startsWith_append (String c v) rest) in Hv.
              rewrite append_String in Hv. congruence.
           ++ apply (IH 0%nat). rewrite Hs. apply list_elem_of_here.
        -- apply (IH 0%nat). rewrite Hs. by apply list_elem_of_further.
Qed.

(** Replacing a pattern that does not occur changes nothing. *)
Lemma replace_absent (pattern replacement s : string) :
  includes s pattern = false → replace pattern replacement s = s.
Proof.
  induction s as [|c s IH]; intros Hno.
  - simpl in *. by rewrite orb_false_r in Hno; rewrite Hno.
  - simpl. destruct (startsWith (String c s) pattern) eqn:Hst.
    { apply startsWith_includes in Hst. congruence. }
    by rewrite (IH (includes_tail c s pattern Hno)).
Qed.

Example splitOn_run : splitOn "::" "run::14" = ["run"; "14"].
Proof. reflexivity. Qed.

Example splitOn_twice : splitOn "::" "supported::a::b" = ["supported"; "a"; "b"].
Proof. reflexivity. Qed.

Example splitOn_overlap : splitOn "::" "a:::b" = ["a"; ":b"].
Proof. reflexivity. Qed.

Example replace_first : replace "ab" "Z" "aabab" = "aZab".
Proof. reflexivity. Qed.

Lemma append_inj_l (prefix s t : string) : prefix +:+ s = prefix +:+ t → s = t.
Proof.
  induction prefix as [|c prefix IH]; [by rewrite !append_empty_l|].
  rewrite !append_String. intros [= Heq]. by apply IH.
Qed.

Lemma append_empty_r (s : string) : s +:+ "" = s.
Proof. induction s as [|c s IH]; [done|]. by rewrite append_String, IH. Qed.

Lemma length_append (s t : string) :
  String.length (s +:+ t) = (String.length s + String.length t)%nat.
Proof. induction s as [|c s IH]; [done|]. rewrite append_String. simpl. by rewrite IH. Qed.

(** The separator occurs in no part. *)
Lemma split_clean (sep : ascii) (s w : string) :
  w ∈ split sep s → includes w (String sep "") = false.
Proof.
  revert w. induction s as [|c s IH]; intros w; simpl.
  - by intros ->%list_elem_of_singleton.
  - destruct (split_cons sep s) as (v & vs & Hs). rewrite Hs in *.
    destruct (decide (c = sep)) as [-> | Hc].
    + intros [-> | Hw]%elem_of_cons; [done | by apply IH].
    + intros [-> | Hw]%elem_of_cons.
      * simpl. rewrite decide_False by done. simpl. apply IH, list_elem_of_here.
      * by apply IH, list_elem_of_further.
Qed.

(** The separator occurs in the join of two parts or more. *)
Lemma join_includes (sep : ascii) (w v : string) (ws : list string) :
  includes (join (String sep "") (w :: v :: ws)) (String sep "") = true.
Proof.
  rewrite join_cons. apply includes_spec. by exists w, (join (String sep "") (v :: ws)).
Qed.

Example includes_middle : includes "meta-llama/llama-3.1-8b" "llama-3" = true.
Proof. reflexivity. Qed.

Example includes_absent : includes "qwen/qwen3-8b" "llama" = false.
Proof. reflexivity. Qed.

Example ascii_lower_mixed : ascii_lower "Qwen/Qwen3-8B-Base" = "qwen/qwen3-8b-base".
Proof. reflexivity. Qed.

Example decimal_42 : decimal 42 = "42".
Proof. reflexivity. Qed.

End JsStringFacts.

(** ** Chat tab *)

Module ChatTabFacts.
Import ChatTab.

Section options.

Variable Number_toString : Z → string.

Lemma trainedRunOptions_app (l1 l2 : list Run) :
  trainedRunOptions Number_toString (l1 ++ l2) =
  trainedRunOptions Number_toString l1 ++ trainedRunOptions Number_toString l2.
Proof. unfold trainedRunOptions. by rewrite filter_app, fmap_app. Qed.

Lemma trainedRunOptions_skip (run : Run) (l : list Run) :
  status run ≠ "completed" →
  trainedRunOptions Number_toString (run :: l) = trainedRunOptions Number_toString l.
Proof. intros Hs. unfold trainedRunOptions. by rewrite filter_cons_False. Qed.

Lemma trainedRunOptions_keep (run : Run) (l : list Run) :
  status run = "completed" →
  trainedRunOptions Number_toString (run :: l) =
  {| value := "run::" +:+ Number_toString (id run);
     label := "Run #" +:+ Number_toString (id run) +:+ " - " +:+ recipe_type run |}
  :: trainedRunOptions Number_toString l.
Proof. intros Hs. unfold trainedRunOptions. by rewrite filter_cons_True. Qed.

Lemma trainedRunOptions_drop (before after : list Run) (run : Run) :
  status run ≠ "completed" →
  trainedRunOptions Number_toString (before ++ run :: after) =
  trainedRunOptions Number_toString (before ++ after).
Proof.
  intros Hs. by rewrite !trainedRunOptions_app, trainedRunOptions_skip.
Qed.

Lemma elem_of_trainedRunOptions (runs : list Run) (o : ModelOption) :
  o ∈ trainedRunOptions Number_toString runs ↔
  ∃ run, run ∈ runs ∧ status run = "completed" ∧
         value o = "run::" +:+ Number_toString (id run) ∧
         label o = "Run #" +:+ Number_toString (id run) +:+ " - " +:+ recipe_type run.
Proof.
  unfold trainedRunOptions. rewrite list_elem_of_fmap. split.
  - intros [run [-> Hin]]. apply list_elem_of_filter in Hin as [Hs Hin].
    exists run. by repeat split.
  - intros [run (Hin & Hs & Hv & Hl)]. exists run. split.
    + destruct o as [v l]. simpl in *. by subst.
    + by apply list_elem_of_filter.
Qed.

End options.

(** Every trained-run option carries the "run::" prefix by which the chat
    console groups the trained models. *)
Lemma trainedRunOptions_prefix (Number_toString : Z → string) (runs : list Run) (o : ModelOption) :
  o ∈ trainedRunOptions Number_toString runs → JsString.startsWith (value o) "run::" = true.
Proof.
  intros Ho. apply elem_of_trainedRunOptions in Ho as [run (_ & _ & -> & _)].
  apply JsStringFacts.startsWith_spec. by eexists.
Qed.

(** The options with a "run::" value among the chat options. *)
Definition runOptions (options : list ModelOption) : list ModelOption :=
  filter (λ o, JsString.startsWith (value o) "run::" = true) options.

Lemma runOptions_trained (Number_toString : Z → string) (runs : list Run) :
  runOptions (trainedRunOptions Number_toString runs) = trainedRunOptions Number_toString runs.
Proof.
  unfold runOptions.
  assert (Hall : ∀ l : list ModelOption,
            (∀ o, o ∈ l → JsString.startsWith (value o) "run::" = true) →
            filter (λ o, JsString.startsWith (value o) "run::" = true) l = l).
  { induction l as [|o l IH]; intros Hl; [done|].
    rewrite filter_cons_True by apply Hl, list_elem_of_here.
    rewrite IH; [done|]. intros o' Ho'. by apply Hl, list_elem_of_further. }
  apply Hall. intros o. apply trainedRunOptions_prefix.
Qed.

Lemma runOptions_none (options : list ModelOption) :
  (∀ o, o ∈ options → JsString.startsWith (value o) "run::" = false) →
  runOptions options = [].
Proof.
  unfold runOptions. induction options as [|o l IH]; intros Hl; [done|].
  rewrite filter_cons_False.
  - apply IH. intros o' Ho'. by apply Hl, list_elem_of_further.
  - rewrite (Hl o) by apply list_elem_of_here. done.
Qed.

(** Two runs of a list in which no two runs share the text of their id are
    the same run when the texts of their ids are the same. *)
Lemma same_id_text (Number_toString : Z → string) (runs : list Run) (run run' : Run) :
  NoDup ((λ run, Number_toString (id run)) <$> runs) →
  run ∈ runs → run' ∈ runs →
  Number_toString (id run) = Number_toString (id run') → run = run'.
Proof.
  induction runs as [|r runs IH]; intros Hnd Hin Hin'; [by apply elem_of_nil in Hin|].
  rewrite fmap_cons in Hnd. apply NoDup_cons in Hnd as [Hfirst Hnd].
  apply elem_of_cons in Hin as [-> | Hin]; apply elem_of_cons in Hin' as [-> | Hin'].
  - done.
  - intros Heq. exfalso. apply Hfirst. rewrite Heq.
    apply list_elem_of_fmap. by exists run'.
  - intros Heq. exfalso. apply Hfirst. rewrite <- Heq.
    apply list_elem_of_fmap. by exists run.
  - by apply IH.
Qed.

(** C8. The chat options that the tab hands to the console are the options
    of its [modelOptions] prop followed by the trained-run options, and the
    trained-run options are exactly the runs whose status is 'completed':
    an option is a trained-run option if and only if it is [value = "run::"
    + id], [label = "Run #" + id + " - " + recipe_type] of a completed run
    of the list, there is one per completed run, in the order of the runs,
    and a run in any other status ('pending', 'running', 'failed',
    'cancelled' among them) contributes none, so that removing it from the
    list changes no chat option. When no option of the prop has a value that
    starts with "run::", the chat options with such a value are exactly the
    options of the completed runs; when moreover no two runs share the text
    of their id, a run of the list has a chat option with value "run::" + id
    if and only if it is completed, and a run that is pending, running,
    failed or cancelled never appears among the chat options. *)
Theorem trainedRunOptions_exactly_completed (Number_toString : Z → string)
    (modelOptions : list ModelOption) (runs : list Run) :
  (∀ o, o ∈ trainedRunOptions Number_toString runs ↔
        ∃ run, run ∈ runs ∧ status run = "completed" ∧
               value o = "run::" +:+ Number_toString (id run) ∧
               label o = "Run #" +:+ Number_toString (id run) +:+ " - " +:+ recipe_type run) ∧
  length (trainedRunOptions Number_toString runs) =
    length (filter (λ run, status run = "completed") runs) ∧
  (∀ before run after,
     runs = before ++ run :: after →
     status run ≠ "completed" →
     trainedRunOptions Number_toString runs = trainedRunOptions Number_toString (before ++ after)) ∧
  (∀ before run after,
     runs = before ++ run :: after →
     status run ∈ ["pending"; "running"; "failed"; "cancelled"] →
     trainedRunOptions Number_toString runs = trainedRunOptions Number_toString (before ++ after)) ∧
  allModelOptions Number_toString modelOptions runs =
    modelOptions ++
    ((λ run, {| value := "run::" +:+ Number_toString (id run);
                label := "Run #" +:+ Number_toString (id run) +:+ " - " +:+ recipe_type run |})
       <$> filter (λ run, status run = "completed") runs) ∧
  (∀ o, o ∈ allModelOptions Number_toString modelOptions runs ↔
        o ∈ modelOptions ∨
        ∃ run, run ∈ runs ∧ status run = "completed" ∧
               value o = "run::" +:+ Number_toString (id run) ∧
               label o = "Run #" +:+ Number_toString (id run) +:+ " - " +:+ recipe_type run) ∧
  runOptions (allModelOptions Number_toString modelOptions runs) =
    runOptions modelOptions ++ trainedRunOptions Number_toString runs ∧
  (∀ before run after,
     runs = before ++ run :: after →
     status run ≠ "completed" →
     allModelOptions Number_toString modelOptions runs =
     allModelOptions Number_toString modelOptions (before ++ after)) ∧
  ((∀ o, o ∈ modelOptions → JsString.startsWith (value o) "run::" = false) →
   runOptions (allModelOptions Number_toString modelOptions runs) =
     ((λ run, {| value := "run::" +:+ Number_toString (id run);
                 label := "Run #" +:+ Number_toString (id run) +:+ " - " +:+ recipe_type run |})
        <$> filter (λ run, status run = "completed") runs) ∧
   (NoDup ((λ run, Number_toString (id run)) <$> runs) →
    ∀ run, run ∈ runs →
      ((∃ o, o ∈ allModelOptions Number_toString modelOptions runs ∧
             value o = "run::" +:+ Number_toString (id run)) ↔
       status run = "completed") ∧
      (status run ∈ ["pending"; "running"; "failed"; "cancelled"] →
       ∀ o, o ∈ allModelOptions Number_toString modelOptions runs →
            value o ≠ "run::" +:+ Number_toString (id run)))).
Proof.
  split; [apply elem_of_trainedRunOptions|].
  split; [unfold trainedRunOptions; by rewrite length_fmap|].
  split.
  { intros before run after -> Hs. by apply trainedRunOptions_drop. }
  split.
  { intros before run after -> Hs. apply trainedRunOptions_drop.
    intros Hc. rewrite Hc in Hs.
    repeat (apply elem_of_cons in Hs as [Hs|Hs]; [discriminate|]).
    by apply elem_of_nil in Hs. }
  split; [done|].
  split.
  { intros o. unfold allModelOptions. rewrite elem_of_app.
    by rewrite elem_of_trainedRunOptions. }
  assert (Hrun : runOptions (allModelOptions Number_toString modelOptions runs) =
                 runOptions modelOptions ++ trainedRunOptions Number_toString runs).
  { unfold allModelOptions, runOptions. rewrite filter_app.
    f_equal. apply runOptions_trained. }
  split; [done|].
  split.
  { intros before run after -> Hs. unfold allModelOptions.
    by rewrite trainedRunOptions_drop. }
  intros Hprop.
  split; [by rewrite Hrun, runOptions_none|].
  intros Hnd run Hin.
  assert (Hiff : (∃ o, o ∈ allModelOptions Number_toString modelOptions runs ∧
                       value o = "run::" +:+ Number_toString (id run)) ↔
                 status run = "completed").
  { split.
    - intros (o & Ho & Hv). unfold allModelOptions in Ho.
      apply elem_of_app in Ho as [Ho | Ho].
      + apply Hprop in Ho. rewrite Hv in Ho.
        assert (JsString.startsWith ("run::" +:+ Number_toString (id run)) "run::" = true);
          [|congruence].
        apply JsStringFacts.startsWith_spec. by eexists.
      + apply elem_of_trainedRunOptions in Ho as (run' & Hin' & Hs' & Hv' & _).
        rewrite Hv in Hv'. apply JsStringFacts.append_inj_l in Hv'.
        by rewrite (same_id_text Number_toString runs run run').
    - intros Hs.
      exists {| value := "run::" +:+ Number_toString (id run);
                label := "Run #" +:+ Number_toString (id run) +:+ " - " +:+ recipe_type run |}.
      split; [|done]. unfold allModelOptions. apply elem_of_app. right.
      apply elem_of_trainedRunOptions. by exists run. }
  split; [done|].
  intros Hs o Ho Hv.
  assert (Hc : status run = "completed") by (apply Hiff; by exists o).
  rewrite Hc in Hs.
  repeat (apply elem_of_cons in Hs as [Hs|Hs]; [discriminate|]).
  by apply elem_of_nil in Hs.
Qed.

Definition run1 : Run := {| id := 1; status := "completed"; recipe_type := "SFT" |}.
Definition run2 : Run := {| id := 2; status := "running"; recipe_type := "DPO" |}.
Definition run3 : Run := {| id := 3; status := "failed"; recipe_type := "RL" |}.
Definition run4 : Run := {| id := 14; status := "completed"; recipe_type := "CHAT_SL" |}.

(** The options that the parent hands to the tab name base models and
    registered models. *)
Definition base_options : list ModelOption :=
  [ {| value := "supported::Qwen/Qwen3-8B-Base"; label := "Qwen/Qwen3-8B-Base" |};
    {| value := "registered::4"; label := "team/llama-tuned" |} ].

Example trainedRunOptions_sample :
  trainedRunOptions JsString.decimal [run1; run2; run3; run4] =
  [ {| value := "run::1"; label := "Run #1 - SFT" |};
    {| value := "run::14"; label := "Run #14 - CHAT_SL" |} ].
Proof. reflexivity. Qed.

Example allModelOptions_sample :
  allModelOptions JsString.decimal base_options [run1; run2; run3; run4] =
  [ {| value := "supported::Qwen/Qwen3-8B-Base"; label := "Qwen/Qwen3-8B-Base" |};
    {| value := "registered::4"; label := "team/llama-tuned" |};
    {| value := "run::1"; label := "Run #1 - SFT" |};
    {| value := "run::14"; label := "Run #14 - CHAT_SL" |} ].
Proof. reflexivity. Qed.

Lemma trainedRunOptions_exactly_completed_witness :
  (∀ o, o ∈ base_options → JsString.startsWith (value o) "run::" = false) ∧
  NoDup ((λ run, JsString.decimal (id run)) <$> [run1; run2; run3; run4]) ∧
  ((∃ o, o ∈ allModelOptions JsString.decimal base_options [run1; run2; run3; run4] ∧
         value o = "run::" +:+ JsString.decimal (id run4)) ↔
   status run4 = "completed") ∧
  (∀ o, o ∈ allModelOptions JsString.decimal base_options [run1; run2; run3; run4] →
        value o ≠ "run::" +:+ JsString.decimal (id run2)).
Proof.
  assert (Hprop : ∀ o, o ∈ base_options → JsString.startsWith (value o) "run::" = false).
  { intros o Ho. unfold base_options in Ho.
    rewrite !elem_of_cons, elem_of_nil in Ho. destruct Ho as [-> | [-> | []]]; reflexivity. }
  assert (Hnd : NoDup ((λ run, JsString.decimal (id run)) <$> [run1; run2; run3; run4])).
  { vm_compute. repeat (apply NoDup_cons; split; [rewrite ?elem_of_cons, elem_of_nil; intuition discriminate|]).
    apply NoDup_nil. done. }
  split; [exact Hprop|]. split; [exact Hnd|].
  destruct (trainedRunOptions_exactly_completed JsString.decimal base_options
              [run1; run2; run3; run4]) as (_ & _ & _ & _ & _ & _ & _ & _ & Hchat).
  destruct (Hchat Hprop) as [_ Hruns]. split.
  - apply (Hruns Hnd run4). rewrite !elem_of_cons. auto.
  - apply (Hruns Hnd run2).
    + rewrite !elem_of_cons. auto.
    + simpl. rewrite !elem_of_cons. auto.
Defined.

End ChatTabFacts.

(** ** Chat console *)

Module ChatConsoleFacts.
Import ChatTab ChatConsole.

Lemma filter_all {A : Type} (P : A → Prop) `{∀ x, Decision (P x)} (l : list A) :
  (∀ x, x ∈ l → P x) → filter P l = l.
Proof.
  induction l as [|x l IH]; intros Hall; [done|].
  rewrite filter_cons_True by apply Hall, list_elem_of_here.
  rewrite IH; [done|]. intros y Hy. by apply Hall, list_elem_of_further.
Qed.

Lemma filter_none {A : Type} (P : A → Prop) `{∀ x, Decision (P x)} (l : list A) :
  (∀ x, x ∈ l → ¬ P x) → filter P l = [].
Proof.
  induction l as [|x l IH]; intros Hnone; [done|].
  rewrite filter_cons_False by apply Hnone, list_elem_of_here.
  apply IH. intros y Hy. by apply Hnone, list_elem_of_further.
Qed.

(** The three prefixes exclude one another. *)
Lemma prefix_run (v : string) :
  JsString.startsWith v "run::" = true →
  JsString.startsWith v "registered::" = false ∧ JsString.startsWith v "supported::" = false.
Proof. intros [post ->]%JsStringFacts.startsWith_spec. by split. Qed.

Lemma prefix_registered (v : string) :
  JsString.startsWith v "registered::" = true → JsString.startsWith v "supported::" = false.
Proof. by intros [post ->]%JsStringFacts.startsWith_spec. Qed.

Section console.

Variable toLowerCase : string → string.

Lemma elem_of_trained (modelOptions : list ModelOption) (searchQuery : string) (m : ModelOption) :
  m ∈ trained (groupedModels toLowerCase modelOptions searchQuery) ↔
  m ∈ modelOptions ∧ JsString.startsWith (value m) "run::" = true ∧
  JsString.includes (toLowerCase (label m)) (toLowerCase searchQuery) = true.
Proof. unfold groupedModels. simpl. rewrite !list_elem_of_filter. tauto. Qed.

Lemma elem_of_registered (modelOptions : list ModelOption) (searchQuery : string)
    (m : ModelOption) :
  m ∈ registered (groupedModels toLowerCase modelOptions searchQuery) ↔
  m ∈ modelOptions ∧ JsString.startsWith (value m) "registered::" = true ∧
  JsString.includes (toLowerCase (label m)) (toLowerCase searchQuery) = true.
Proof. unfold groupedModels. simpl. rewrite !list_elem_of_filter. tauto. Qed.

Lemma elem_of_supported (modelOptions : list ModelOption) (searchQuery : string)
    (m : ModelOption) :
  m ∈ supported (groupedModels toLowerCase modelOptions searchQuery) ↔
  m ∈ modelOptions ∧ JsString.startsWith (value m) "supported::" = true ∧
  JsString.includes (toLowerCase (label m)) (toLowerCase searchQuery) = true.
Proof. unfold groupedModels. simpl. rewrite !list_elem_of_filter. tauto. Qed.

End console.

(** X4. In the model selector of the chat console no option is listed in
    two groups, and the options that the chat tab adds for the completed
    runs are listed under "Trained Models" only: with them the trained group
    is the trained group of the given options followed by the completed-run
    options whose label matches the search query, in the order of the runs,
    while the registered and the supported group are what they are without
    them. *)
Theorem chat_console_groups (toLowerCase : string → string) (Number_toString : Z → string)
    (modelOptions : list ModelOption) (runs : list Run) (searchQuery : string) :
  (∀ options m,
     ¬ (m ∈ trained (groupedModels toLowerCase options searchQuery) ∧
        m ∈ registered (groupedModels toLowerCase options searchQuery)) ∧
     ¬ (m ∈ trained (groupedModels toLowerCase options searchQuery) ∧
        m ∈ supported (groupedModels toLowerCase options searchQuery)) ∧
     ¬ (m ∈ registered (groupedModels toLowerCase options searchQuery) ∧
        m ∈ supported (groupedModels toLowerCase options searchQuery))) ∧
  trained (groupedModels toLowerCase (allModelOptions Number_toString modelOptions runs)
             searchQuery) =
    trained (groupedModels toLowerCase modelOptions searchQuery) ++
    filter (λ m, JsString.includes (toLowerCase (label m)) (toLowerCase searchQuery) = true)
      (trainedRunOptions Number_toString runs) ∧
  registered (groupedModels toLowerCase (allModelOptions Number_toString modelOptions runs)
                searchQuery) =
    registered (groupedModels toLowerCase modelOptions searchQuery) ∧
  supported (groupedModels toLowerCase (allModelOptions Number_toString modelOptions runs)
               searchQuery) =
    supported (groupedModels toLowerCase modelOptions searchQuery).
Proof.
  split.
  { intros options m. rewrite elem_of_trained, elem_of_registered, elem_of_supported.
    split; [|split].
    - intros [(_ & Hrun & _) (_ & Hreg & _)]. apply prefix_run in Hrun as [? _]. congruence.
    - intros [(_ & Hrun & _) (_ & Hsup & _)]. apply prefix_run in Hrun as [_ ?]. congruence.
    - intros [(_ & Hreg & _) (_ & Hsup & _)]. apply prefix_registered in Hreg. congruence. }
  unfold groupedModels, allModelOptions. simpl. rewrite !filter_app.
  rewrite (filter_all (λ m, JsString.startsWith (value m) "run::" = true)
             (trainedRunOptions Number_toString runs))
    by (intros m Hm; by eapply ChatTabFacts.trainedRunOptions_prefix).
  rewrite (filter_none (λ m, JsString.startsWith (value m) "registered::" = true)
             (trainedRunOptions Number_toString runs)).
  2:{ intros m Hm Hreg. apply ChatTabFacts.trainedRunOptions_prefix, prefix_run in Hm as [? _].
      congruence. }
  rewrite (filter_none (λ m, JsString.startsWith (value m) "supported::" = true)
             (trainedRunOptions Number_toString runs)).
  2:{ intros m Hm Hsup. apply ChatTabFacts.trainedRunOptions_prefix, prefix_run in Hm as [_ ?].
      congruence. }
  rewrite filter_nil, !app_nil_r. done.
Qed.

Definition base_options : list ModelOption :=
  [{| value := "supported::Qwen/Qwen3-8B-Base"; label := "Supported · Qwen/Qwen3-8B-Base" |};
   {| value := "registered::3"; label := "Registered · my-checkpoint" |}].

Example groupedModels_all :
  groupedModels JsString.ascii_lower
    (allModelOptions JsString.decimal base_options
       [ChatTabFacts.run1; ChatTabFacts.run2; ChatTabFacts.run3; ChatTabFacts.run4]) ""
  = {| trained := [ {| value := "run::1"; label := "Run #1 - SFT" |};
                    {| value := "run::14"; label := "Run #14 - CHAT_SL" |} ];
       registered := [{| value := "registered::3"; label := "Registered · my-checkpoint" |}];
       supported := [{| value := "supported::Qwen/Qwen3-8B-Base";
                        label := "Supported · Qwen/Qwen3-8B-Base" |}] |}.
Proof. vm_compute. reflexivity. Qed.

Example groupedModels_query :
  groupedModels JsString.ascii_lower
    (allModelOptions JsString.decimal base_options
       [ChatTabFacts.run1; ChatTabFacts.run2; ChatTabFacts.run3; ChatTabFacts.run4]) "Chat"
  = {| trained := [ {| value := "run::14"; label := "Run #14 - CHAT_SL" |} ];
       registered := []; supported := [] |}.
Proof. vm_compute. reflexivity. Qed.

End ChatConsoleFacts.

(** ** Chat tab: the submit handler *)

Module ChatTabSubmitFacts.
Import ChatTab ChatTabSubmit.

Lemma splitOn_run_key (t : string) :
  JsString.splitOn "::" ("run::" +:+ t) = "run" :: JsString.splitOn "::" t.
Proof. reflexivity. Qed.

Lemma splitOn_supported_key (t : string) :
  JsString.splitOn "::" ("supported::" +:+ t) = "supported" :: JsString.splitOn "::" t.
Proof. reflexivity. Qed.

Lemma splitOn_cons (sep s : string) : ∃ w ws, JsString.splitOn sep s = w :: ws.
Proof.
  unfold JsString.splitOn. generalize 0%nat. induction s as [|c s IH]; intros skip; simpl.
  - by eexists _, _.
  - destruct skip as [|k]; [|apply IH].
    destruct (JsString.startsWith (String c s) sep); [by eexists _, _|].
    destruct (IH 0%nat) as (w & ws & ->). by eexists _, _.
Qed.

Section handler.

Variable JsNumber : Type.
Variable Number : option string → JsNumber.
Variable trim : string → string.
Variable TypeError_message : string.
Variable chatWithModel : ChatRequest JsNumber → Settled string.
Variable sampleModel : SampleRequest JsNumber → Settled (list string).

Local Abbreviation attempt :=
  (attempt JsNumber Number trim TypeError_message chatWithModel sampleModel).
Local Abbreviation handleChatSubmit :=
  (handleChatSubmit JsNumber Number trim TypeError_message chatWithModel sampleModel).

(** What the [try] block adds to the history it is given. *)
Lemma attempt_shape (history : list ChatMessage) (key prompt : string) :
  ((attempt history key prompt).1.1 = history ∧
   ((attempt history key prompt).1.2 = [] ∨ (attempt history key prompt).2 ≠ []) ∧
   ∃ message, (attempt history key prompt).2 = [message]) ∨
  ((∃ reply, (attempt history key prompt).1.1 =
             history ++ [{| role := assistant; content := reply |}]) ∧
   (attempt history key prompt).1.2 ≠ [] ∧
   (attempt history key prompt).2 = []).
Proof.
  unfold ChatTabSubmit.attempt. cbv zeta.
  repeat case_decide.
  - destruct (chatWithModel _); simpl; [right | left]; eauto 10.
  - destruct (chatWithModel _); simpl; [right; eauto 10|].
    destruct (sampleModel _); simpl; [right | left]; eauto 10.
  - destruct (JsString.splitOn "::" key !! 1%nat); simpl; [|left; eauto 10].
    destruct (chatWithModel _); simpl; [right | left]; eauto 10.
Qed.

(** X11. A chat submission never drops or rewrites a message: the history
    afterwards is the history before followed by nothing (blank prompt or no
    model selected), by the user's message, or by the user's message and one
    reply; at most one error is reported, and a reply is added only when no
    error is reported and the API has been called. The selected model is
    left as it is, and a blank prompt changes nothing at all. *)
Theorem chat_submit_frame (st : State) (prompt : string) :
  (∃ added,
     chatHistory (state (handleChatSubmit st prompt)) = chatHistory st ++ added ∧
     (added = [] ∨ added = [{| role := user; content := prompt |}] ∨
      ∃ reply, added = [{| role := user; content := prompt |};
                        {| role := assistant; content := reply |}] ∧
               errors (handleChatSubmit st prompt) = [] ∧
               calls (handleChatSubmit st prompt) ≠ [])) ∧
  (errors (handleChatSubmit st prompt) = [] ∨
   ∃ message, errors (handleChatSubmit st prompt) = [message]) ∧
  chatModelKey (state (handleChatSubmit st prompt)) = chatModelKey st ∧
  (trim prompt = "" →
   handleChatSubmit st prompt = {| state := st; calls := []; errors := [] |}).
Proof.
  unfold ChatTabSubmit.handleChatSubmit.
  destruct (JsString.falsy (trim prompt)) eqn:Hblank.
  { simpl. split; [exists []; by rewrite app_nil_r; auto|]. auto. }
  destruct (JsString.falsy (chatModelKey st)) eqn:Hkey.
  { simpl. split; [exists []; by rewrite app_nil_r; auto|].
    split; [eauto|]. split; [done|]. intros He. by rewrite He in Hblank. }
  cbv zeta.
  pose proof (attempt_shape (chatHistory st ++ [{| role := user; content := prompt |}])
                (chatModelKey st) prompt) as Hshape.
  destruct (attempt _ _ _) as [[history calls] errors]. simpl in *.
  split; [|split; [|split]].
  - destruct Hshape as [(-> & _ & message & ->) | ((reply & ->) & Hcalls & ->)].
    + eexists. split; [done|]. auto.
    + eexists. split; [by rewrite <- app_assoc|]. right. right. by exists reply.
  - destruct Hshape as [(_ & _ & message & ->) | (_ & _ & ->)]; eauto.
  - done.
  - intros He. by rewrite He in Hblank.
Qed.

(** X9. Choosing the option that the chat tab lists for a completed run
    and sending a prompt makes one call, [chatWithModel] for that run: the
    run id of the request is the number read back from the text of the run's
    id. The reply is appended after the user's message with the "[Real
    Inference]" tag; a failure appends the user's message only and reports
    the error; either way the input is cleared and the loading flag is
    off. *)
Theorem chat_with_trained_run (Number_toString : Z → string) (runs : list Run) (run : Run)
    (st : State) (prompt : string) :
  run ∈ runs →
  status run = "completed" →
  JsString.includes (Number_toString (id run)) "::" = false →
  chatModelKey st = "run::" +:+ Number_toString (id run) →
  trim prompt ≠ "" →
  (∃ o, o ∈ trainedRunOptions Number_toString runs ∧ value o = chatModelKey st) ∧
  calls (handleChatSubmit st prompt) =
    [ChatWithModel
       {| run_id := Some (Number (Some (Number_toString (id run)))); model_id := None;
          base_model := None; ChatTabSubmit.prompt := prompt; temperature := 0.7;
          max_tokens := 256 |}] ∧
  chatInput (state (handleChatSubmit st prompt)) = "" ∧
  chatLoading (state (handleChatSubmit st prompt)) = false ∧
  match chatWithModel
          {| run_id := Some (Number (Some (Number_toString (id run)))); model_id := None;
             base_model := None; ChatTabSubmit.prompt := prompt; temperature := 0.7;
             max_tokens := 256 |} with
  | Fulfilled text =>
      chatHistory (state (handleChatSubmit st prompt)) =
        chatHistory st ++ [{| role := user; content := prompt |};
                           {| role := assistant; content := "[Real Inference] " +:+ trim text |}] ∧
      errors (handleChatSubmit st prompt) = []
  | Rejected message =>
      chatHistory (state (handleChatSubmit st prompt)) =
        chatHistory st ++ [{| role := user; content := prompt |}] ∧
      errors (handleChatSubmit st prompt) = [message]
  end.
Proof.
  intros Hin Hstatus Hclean Hkey Hprompt. split.
  { exists {| value := "run::" +:+ Number_toString (id run);
              label := "Run #" +:+ Number_toString (id run) +:+ " - " +:+ recipe_type run |}.
    split; [|by rewrite Hkey].
    apply ChatTabFacts.elem_of_trainedRunOptions. by exists run. }
  unfold ChatTabSubmit.handleChatSubmit.
  destruct (JsString.falsy (trim prompt)) eqn:Hblank.
  { by apply JsStringFacts.falsy_spec in Hblank. }
  rewrite Hkey. rewrite JsStringFacts.append_String. simpl JsString.falsy. cbv iota.
  rewrite <- JsStringFacts.append_String.
  unfold ChatTabSubmit.attempt. cbv zeta.
  rewrite splitOn_run_key, (JsStringFacts.splitOn_absent _ _ Hclean). simpl.
  destruct (chatWithModel _); simpl; by rewrite <- ?app_assoc.
Qed.

(** X10. A key of a base model, "supported::" followed by the model name,
    makes one call of [chatWithModel] whose base model is the model name up
    to its first "::", which is the whole name when the name holds no "::";
    the [replace] of the handler never changes it. A key that holds no "::"
    and is neither "run" nor "registered" makes no call: the user's message
    is appended and the [TypeError] of the method call on [undefined] is
    reported. *)
Theorem chat_with_base_model (st : State) (prompt : string) :
  trim prompt ≠ "" →
  (∀ modelName,
     chatModelKey st = "supported::" +:+ modelName →
     calls (handleChatSubmit st prompt) =
       [ChatWithModel
          {| run_id := None; model_id := None;
             base_model := head (JsString.splitOn "::" modelName);
             ChatTabSubmit.prompt := prompt; temperature := 0.7; max_tokens := 256 |}] ∧
     (JsString.includes modelName "::" = false →
      head (JsString.splitOn "::" modelName) = Some modelName)) ∧
  (chatModelKey st ≠ "" →
   JsString.includes (chatModelKey st) "::" = false →
   chatModelKey st ≠ "run" → chatModelKey st ≠ "registered" →
   calls (handleChatSubmit st prompt) = [] ∧
   errors (handleChatSubmit st prompt) = [TypeError_message] ∧
   chatHistory (state (handleChatSubmit st prompt)) =
     chatHistory st ++ [{| role := user; content := prompt |}]).
Proof.
  intros Hprompt.
  assert (Hblank : JsString.falsy (trim prompt) = false).
  { destruct (JsString.falsy (trim prompt)) eqn:Hb; [|done].
    by apply JsStringFacts.falsy_spec in Hb. }
  split.
  - intros modelName Hkey. split.
    + unfold ChatTabSubmit.handleChatSubmit. rewrite Hblank, Hkey.
      rewrite JsStringFacts.append_String. simpl JsString.falsy. cbv iota.
      rewrite <- JsStringFacts.append_String.
      unfold ChatTabSubmit.attempt. cbv zeta. rewrite splitOn_supported_key.
      destruct (splitOn_cons "::" modelName) as (w & ws & Hparts). rewrite Hparts. simpl.
      assert (Hw : JsString.replace "supported::" "" w = w).
      { apply JsStringFacts.replace_absent.
        apply (JsStringFacts.includes_longer w "supported" "::").
        apply (JsStringFacts.split_from_clean "::" 0 modelName); [done|].
        unfold JsString.splitOn in Hparts. rewrite Hparts. apply list_elem_of_here. }
      rewrite Hw. by destruct (chatWithModel _).
    + intros Hclean. by rewrite (JsStringFacts.splitOn_absent _ _ Hclean).
  - intros Hkey Hclean Hrun Hreg.
    unfold ChatTabSubmit.handleChatSubmit. rewrite Hblank.
    destruct (JsString.falsy (chatModelKey st)) eqn:Hf.
    { by apply JsStringFacts.falsy_spec in Hf. }
    unfold ChatTabSubmit.attempt. cbv zeta.
    rewrite (JsStringFacts.splitOn_absent _ _ Hclean). simpl.
    rewrite decide_False by done. rewrite decide_False by done. done.
Qed.

End handler.

(** An instance for running the handler: [Number] reads a natural number in
    decimal notation and gives NaN ([None]) on every other text, an API that
    answers every chat request on a run and rejects every other call. *)
Definition plain_Number (value : option string) : option Z :=
  value ≫= PlainBuiltins.json_number.

Definition run_only_api (request : ChatRequest (option Z)) : Settled string :=
  match run_id request with
  | Some _ => Fulfilled "  Hello from the run. "
  | None => Rejected "model is not loaded"
  end.

Definition no_samples (request : SampleRequest (option Z)) : Settled (list string) :=
  Fulfilled [].

Definition plain_submit : State → string → Outcome (option Z) :=
  handleChatSubmit (option Z) plain_Number PlainBuiltins.trim
    "Cannot read properties of undefined (reading 'replace')" run_only_api no_samples.

Definition fresh_tab (key : string) : State :=
  {| chatHistory := []; chatInput := "Hi"; chatModelKey := key; chatLoading := false |}.

Example submit_to_run :
  plain_submit (fresh_tab "run::14") "Hi" =
  {| state := {| chatHistory := [{| role := user; content := "Hi" |};
                                 {| role := assistant;
                                    content := "[Real Inference] Hello from the run." |}];
                 chatInput := ""; chatModelKey := "run::14"; chatLoading := false |};
     calls := [ChatWithModel
                 {| run_id := Some (Some 14%Z); model_id := None; base_model := None;
                    prompt := "Hi"; temperature := 0.7; max_tokens := 256 |}];
     errors := [] |}.
Proof. vm_compute. reflexivity. Qed.

Example submit_to_registered :
  calls (plain_submit (fresh_tab "registered::3") "Hi") =
    [ChatWithModel
       {| run_id := None; model_id := Some (Some 3%Z); base_model := None;
          prompt := "Hi"; temperature := 0.7; max_tokens := 256 |};
     SampleModel
       {| sr_model_id := Some 3%Z; sr_prompt := "Hi";
          sampling_params := {| sp_max_tokens := 256; sp_temperature := 0.7; top_p := 0.9;
                                stop := ["User:"; "Assistant:"] |} |}] ∧
  chatHistory (state (plain_submit (fresh_tab "registered::3") "Hi")) =
    [{| role := user; content := "Hi" |};
     {| role := assistant; content := "[Simulation] (no response)" |}].
Proof. vm_compute. done. Qed.

Example submit_truncates_name :
  calls (plain_submit (fresh_tab "supported::org/model::v2") "Hi") =
    [ChatWithModel
       {| run_id := None; model_id := None; base_model := Some "org/model";
          prompt := "Hi"; temperature := 0.7; max_tokens := 256 |}].
Proof. vm_compute. reflexivity. Qed.

Example submit_without_separator :
  calls (plain_submit (fresh_tab "gpt2") "Hi") = [] ∧
  errors (plain_submit (fresh_tab "gpt2") "Hi") =
    ["Cannot read properties of undefined (reading 'replace')"].
Proof. vm_compute. done. Qed.

Lemma chat_with_trained_run_witness :
  ChatTabFacts.run4 ∈ [ChatTabFacts.run1; ChatTabFacts.run2; ChatTabFacts.run3; ChatTabFacts.run4] ∧
  calls (plain_submit (fresh_tab "run::14") "Hi") =
    [ChatWithModel
       {| run_id := Some (plain_Number (Some (JsString.decimal 14))); model_id := None;
          base_model := None; prompt := "Hi"; temperature := 0.7; max_tokens := 256 |}].
Proof.
  assert (Hin : ChatTabFacts.run4 ∈
                [ChatTabFacts.run1; ChatTabFacts.run2; ChatTabFacts.run3; ChatTabFacts.run4]).
  { repeat constructor. }
  split; [exact Hin|].
  refine (proj1 (proj2 (chat_with_trained_run (option Z) plain_Number PlainBuiltins.trim
            "Cannot read properties of undefined (reading 'replace')" run_only_api no_samples
            JsString.decimal _ ChatTabFacts.run4 (fresh_tab "run::14") "Hi" Hin _ _ _ _)));
    try reflexivity.
  discriminate.
Defined.

Lemma chat_with_base_model_witness :
  PlainBuiltins.trim "Hi" ≠ "" ∧
  calls (plain_submit (fresh_tab "supported::Qwen/Qwen3-8B-Base") "Hi") =
    [ChatWithModel
       {| run_id := None; model_id := None;
          base_model := head (JsString.splitOn "::" "Qwen/Qwen3-8B-Base");
          prompt := "Hi"; temperature := 0.7; max_tokens := 256 |}].
Proof.
  assert (Hprompt : PlainBuiltins.trim "Hi" ≠ "") by discriminate.
  split; [exact Hprompt|].
  refine (proj1 (proj1 (chat_with_base_model (option Z) plain_Number PlainBuiltins.trim
            "Cannot read properties of undefined (reading 'replace')" run_only_api no_samples
            (fresh_tab "supported::Qwen/Qwen3-8B-Base") "Hi" Hprompt) _ _)).
  reflexivity.
Defined.

End ChatTabSubmitFacts.

(** ** Deployments page *)

Module DeploymentsFacts.
Import Deployments.

(** C9. The progress percentage shown for a deployment depends on the status
    string alone: 100 for "completed", 75 for "uploading", 25 for "pending"
    and 0 for every other status, "failed" included; [deployed_at] does not
    affect it. *)
Theorem getProgressValue_status_only :
  (∀ deployed_at, getProgressValue "completed" deployed_at = 100%Z) ∧
  (∀ deployed_at, getProgressValue "uploading" deployed_at = 75%Z) ∧
  (∀ deployed_at, getProgressValue "pending" deployed_at = 25%Z) ∧
  (∀ deployed_at, getProgressValue "failed" deployed_at = 0%Z) ∧
  (∀ status deployed_at,
     status ∉ ["completed"; "uploading"; "pending"] →
     getProgressValue status deployed_at = 0%Z) ∧
  (∀ status deployed_at deployed_at',
     getProgressValue status deployed_at = getProgressValue status deployed_at').
Proof.
  repeat split; try done.
  intros status deployed_at Hs. unfold getProgressValue.
  repeat case_decide; try done; subst; set_solver.
Qed.

Lemma getProgressValue_status_only_witness :
  ("cancelled" ∉ ["completed"; "uploading"; "pending"]) ∧
  getProgressValue "cancelled" (Some "2025-01-01T00:00:00Z") = 0%Z.
Proof.
  split.
  - intros H. repeat (apply elem_of_cons in H as [H|H]; [discriminate|]). by apply elem_of_nil in H.
  - destruct getProgressValue_status_only as (_ & _ & _ & _ & Hother & _).
    apply Hother. intros H. repeat (apply elem_of_cons in H as [H|H]; [discriminate|]). by apply elem_of_nil in H.
Defined.

Lemma getProgressValue_range (status : string) (deployed_at : option string) :
  (0 ≤ getProgressValue status deployed_at ≤ 100)%Z.
Proof. unfold getProgressValue. repeat case_decide; lia. Qed.

(** The progress bar, the repository button and the polling predicate read
    the status the way [getProgressValue] does. *)
Lemma status_cases (status : string) :
  status = "completed" ∨ status = "uploading" ∨ status = "pending" ∨
  (status ≠ "completed" ∧ status ≠ "uploading" ∧ status ≠ "pending").
Proof.
  destruct (decide (status = "completed")); [by left|].
  destruct (decide (status = "uploading")); [by right; left|].
  destruct (decide (status = "pending")); [by right; right; left|].
  by right; right; right.
Qed.

(** X3. What the card of a deployment renders agrees with the progress
    value: the progress bar is rendered exactly when the value is not 0, the
    button that opens the repository is enabled exactly when the value is
    100, and a deployment keeps the page polling exactly when its value is
    strictly between 0 and 100. *)
Theorem progress_bar_matches_value (status : string) (deployed_at : option string) :
  (showsProgressBar status = true ↔ getProgressValue status deployed_at ≠ 0%Z) ∧
  (hubButtonDisabled status = false ↔ getProgressValue status deployed_at = 100%Z) ∧
  (isActive status = true ↔ (0 < getProgressValue status deployed_at < 100)%Z).
Proof.
  unfold showsProgressBar, hubButtonDisabled, isActive, getProgressValue.
  destruct (status_cases status) as [-> | [-> | [-> | (Hc & Hu & Hp)]]].
  - repeat split; try done; simpl; intros; lia.
  - repeat split; try done; simpl; intros; lia.
  - repeat split; try done; simpl; intros; lia.
  - rewrite !decide_False by done. rewrite !bool_decide_eq_false_2 by done. simpl.
    repeat split; try done; intros; lia.
Qed.

Lemma isActive_spec (status : string) :
  isActive status = true ↔ status = "pending" ∨ status = "uploading".
Proof.
  unfold isActive. rewrite orb_true_iff, !bool_decide_eq_true. done.
Qed.

Lemma hasActiveDeployments_spec (data : list string) :
  hasActiveDeployments data = true ↔ "pending" ∈ data ∨ "uploading" ∈ data.
Proof.
  unfold hasActiveDeployments. rewrite existsb_exists. split.
  - intros (status & Hin & Hact). apply list_elem_of_In in Hin.
    apply isActive_spec in Hact as [-> | ->]; auto.
  - intros [Hin | Hin]; eexists; (split; [by apply list_elem_of_In|done]).
Qed.

(** At most one interval is alive, and it is the one the page refers to. *)
Definition tidy (t : Timers) : Prop :=
  live t = from_option (λ i, [i]) [] (intervalRef t) ∧
  (∀ i, i ∈ live t → (i < next_handle t)%positive).

Lemma managePolling_tidy (hasActive : bool) (t : Timers) :
  tidy t → tidy (managePolling hasActive t).
Proof.
  intros [Hlive Hnext]. unfold managePolling.
  destruct hasActive, (intervalRef t) as [i|] eqn:Href; try (split; by rewrite ?Href);
    unfold tidy; simpl in *; rewrite Hlive.
  - split; [done|]. intros i Hi. apply list_elem_of_singleton in Hi as ->. lia.
  - rewrite filter_cons_False by (intros Hne; by apply Hne). rewrite filter_nil.
    split; [done|]. intros i' Hi'. by apply elem_of_nil in Hi'.
Qed.

Lemma cleanup_tidy (t : Timers) : tidy t → tidy (cleanup t).
Proof.
  intros [Hlive Hnext]. unfold cleanup.
  destruct (intervalRef t) as [i|] eqn:Href; [|split; by rewrite ?Href].
  unfold tidy. simpl in *. rewrite Hlive.
  rewrite filter_cons_False by (intros Hne; by apply Hne). rewrite filter_nil.
  split; [done|]. intros i' Hi'. by apply elem_of_nil in Hi'.
Qed.

Lemma on_event_tidy (t : Timers) (e : PageEvent) : tidy t → tidy (on_event t e).
Proof.
  destruct e; simpl; [apply managePolling_tidy | done | apply cleanup_tidy].
Qed.

Lemma fold_on_event_tidy (events : list PageEvent) (t : Timers) :
  tidy t → tidy (fold_left on_event events t).
Proof.
  revert t. induction events as [|e events IH]; intros t Ht; [done|].
  simpl. by apply IH, on_event_tidy.
Qed.

Lemma managePolling_ref (hasActive : bool) (t : Timers) :
  bool_decide (is_Some (intervalRef (managePolling hasActive t))) = hasActive.
Proof.
  unfold managePolling.
  destruct hasActive, (intervalRef t) eqn:Href; simpl; by rewrite ?Href.
Qed.

(** X2. Whatever fetches and cleanups a mounted deployments page has gone
    through, at most one polling interval is alive and it is the one held in
    [intervalRef]; right after a fetch that succeeded the page is polling
    exactly when one of the deployments received is pending or uploading;
    right after a cleanup no interval is alive. *)
Theorem polling_tracks_active_deployments (events : list PageEvent) :
  live (on_events events) = from_option (λ i, [i]) [] (intervalRef (on_events events)) ∧
  (∀ data,
     is_Some (intervalRef (on_events (events ++ [FetchOk data]))) ↔
     "pending" ∈ data ∨ "uploading" ∈ data) ∧
  live (on_events (events ++ [Cleanup])) = [].
Proof.
  assert (Htidy : ∀ es, tidy (on_events es)).
  { intros es. apply fold_on_event_tidy. split; [done|].
    intros i Hi. by apply elem_of_nil in Hi. }
  split; [apply Htidy|]. split.
  - intros data. unfold on_events. rewrite fold_left_app. simpl.
    rewrite <- hasActiveDeployments_spec.
    pose proof (managePolling_ref (hasActiveDeployments data)
                  (fold_left on_event events no_timers)) as Href.
    destruct (hasActiveDeployments data).
    + by apply bool_decide_eq_true in Href.
    + by apply bool_decide_eq_false in Href.
  - destruct (Htidy (events ++ [Cleanup])) as [Hlive _]. rewrite Hlive.
    unfold on_events. rewrite fold_left_app. simpl. unfold cleanup.
    destruct (intervalRef (fold_left on_event events no_timers)) eqn:Href; simpl;
      by rewrite ?Href.
Qed.

Example polling_session :
  intervalRef (on_events [FetchOk ["completed"; "uploading"]]) = Some 1%positive ∧
  intervalRef (on_events [FetchOk ["completed"; "uploading"]; FetchOk ["pending"]])
    = Some 1%positive ∧
  intervalRef (on_events [FetchOk ["uploading"]; FetchFailed; FetchOk ["completed"; "failed"]])
    = None ∧
  live (on_events [FetchOk ["uploading"]; Cleanup; FetchOk ["uploading"]]) = [2%positive].
Proof. done. Qed.

End DeploymentsFacts.

(** ** Model search *)

Module ModelsFacts.
Import Models.

Section filters.

Variable toLowerCase : string → string.

(** [''.toLowerCase() === ''] *)
Hypothesis toLowerCase_empty : toLowerCase "" = "".

(** The shape shared by the four search filters of the two components. *)
Lemma name_filter_contract {A : Type} (name : A → string) (f : list A → string → list A) :
  (∀ models term,
     f models term =
     if JsString.falsy term then models
     else filter (λ model,
            JsString.includes (toLowerCase (name model)) (toLowerCase term) = true) models) →
  filters_by_name toLowerCase name f.
Proof.
  intros Hf models term. rewrite Hf. split; [|split].
  - intros m. destruct (JsString.falsy term) eqn:Hterm.
    + apply JsStringFacts.falsy_spec in Hterm as ->. split; [|by intros [? _]].
      intros Hm. split; [done|].
      exists "", (toLowerCase (name m)). by rewrite toLowerCase_empty.
    + rewrite list_elem_of_filter. unfold contains_ignoring_case.
      rewrite JsStringFacts.includes_spec. tauto.
  - destruct (JsString.falsy term); [done | apply sublist_filter].
  - by intros ->.
Qed.

Lemma includes_filter_idemp {A : Type} (name : A → string) (models : list A) (term : string) :
  filter (λ model, JsString.includes (toLowerCase (name model)) (toLowerCase term) = true)
    (filter (λ model, JsString.includes (toLowerCase (name model)) (toLowerCase term) = true) models)
  = filter (λ model, JsString.includes (toLowerCase (name model)) (toLowerCase term) = true) models.
Proof.
  induction models as [|m models IH]; [done|].
  rewrite filter_cons. case_decide as Hm; [|done].
  rewrite filter_cons_True by done. by rewrite IH.
Qed.

(** Filtering again in list view changes nothing. *)
Lemma listViewSupported_eq (supportedModels : list SupportedModel) (modelSearch : string) :
  ModelCatalog.listViewSupported toLowerCase supportedModels modelSearch =
  ModelsTab.filteredSupported toLowerCase supportedModels modelSearch.
Proof.
  unfold ModelCatalog.listViewSupported, ModelCatalog.filteredSupported,
    ModelsTab.filteredSupported.
  destruct (JsString.falsy modelSearch); [done|]. apply includes_filter_idemp.
Qed.

Lemma listViewRegistered_eq (registeredModels : list RegisteredModel) (modelSearch : string) :
  ModelCatalog.listViewRegistered toLowerCase registeredModels modelSearch =
  ModelsTab.filteredRegistered toLowerCase registeredModels modelSearch.
Proof.
  unfold ModelCatalog.listViewRegistered, ModelCatalog.filteredRegistered,
    ModelsTab.filteredRegistered.
  destruct (JsString.falsy modelSearch); [done|]. apply includes_filter_idemp.
Qed.

End filters.

(** C10. Each search filter of the models tab and of the model catalog keeps
    exactly the models whose name contains the search term ignoring case, in
    the order of the input list, and returns the input list unchanged when
    the term is empty; what the list view shows after both components have
    filtered is the same list. *)
Theorem model_search_filters (toLowerCase : string → string) :
  toLowerCase "" = "" →
  filters_by_name toLowerCase model_name (ModelsTab.filteredSupported toLowerCase) ∧
  filters_by_name toLowerCase name (ModelsTab.filteredRegistered toLowerCase) ∧
  filters_by_name toLowerCase model_name (ModelCatalog.filteredSupported toLowerCase) ∧
  filters_by_name toLowerCase name (ModelCatalog.filteredRegistered toLowerCase) ∧
  filters_by_name toLowerCase model_name (ModelCatalog.listViewSupported toLowerCase) ∧
  filters_by_name toLowerCase name (ModelCatalog.listViewRegistered toLowerCase).
Proof.
  intros Hempty.
  split; [by apply name_filter_contract|].
  split; [by apply name_filter_contract|].
  split; [by apply name_filter_contract|].
  split; [by apply name_filter_contract|].
  split; apply name_filter_contract; try done; intros models term.
  - by rewrite listViewSupported_eq.
  - by rewrite listViewRegistered_eq.
Qed.

Definition llama : SupportedModel :=
  {| model_name := "meta-llama/Llama-3.1-8B-Instruct"; parameters := Some "8B";
     context_length := Some "128k"; supported_description := None |}.
Definition qwen : SupportedModel :=
  {| model_name := "Qwen/Qwen3-8B-Base"; parameters := Some "8B";
     context_length := None; supported_description := None |}.
Definition llama_small : SupportedModel :=
  {| model_name := "meta-llama/Llama-3.2-3B"; parameters := Some "3B";
     context_length := None; supported_description := None |}.

Example filteredSupported_llama :
  ModelsTab.filteredSupported JsString.ascii_lower [llama; qwen; llama_small] "LLAMA"
  = [llama; llama_small].
Proof. reflexivity. Qed.

Example filteredSupported_empty_term :
  ModelsTab.filteredSupported JsString.ascii_lower [llama; qwen; llama_small] ""
  = [llama; qwen; llama_small].
Proof. reflexivity. Qed.

Example filteredSupported_no_match :
  ModelCatalog.filteredSupported JsString.ascii_lower [llama; qwen; llama_small] "mistral" = [].
Proof. reflexivity. Qed.

Lemma model_search_filters_witness :
  JsString.ascii_lower "" = "" ∧
  filters_by_name JsString.ascii_lower model_name (ModelsTab.filteredSupported JsString.ascii_lower).
Proof.
  split; [reflexivity|].
  apply (model_search_filters JsString.ascii_lower). reflexivity.
Defined.

End ModelsFacts.

(** ** Model names on the cards *)

Module ModelCardFacts.
Import ModelCard.

(** X1. The organisation line and the display name of a model card, and of
    a row of the catalog's list view, are the two sides of the first slash of
    the model name: a name has an organisation exactly when it contains a
    slash; then the organisation contains no slash and organisation, slash
    and display name put together give the model name back; a name without a
    slash is displayed as it is, with no organisation line. *)
Theorem model_name_display (modelName : string) :
  hasOrg modelName = JsString.includes modelName "/" ∧
  (hasOrg modelName = true →
     ∃ org, orgName modelName = Some org ∧
            JsString.includes org "/" = false ∧
            modelName = org +:+ "/" +:+ displayName modelName) ∧
  (hasOrg modelName = false →
     orgName modelName = None ∧ displayName modelName = modelName).
Proof.
  split; [apply JsStringFacts.split_length|]. split.
  - intros Horg. unfold orgName, displayName. rewrite Horg.
    unfold hasOrg, nameParts in *. apply bool_decide_eq_true in Horg.
    pose proof (JsStringFacts.join_split "/" modelName) as Hjoin.
    destruct (JsString.split "/" modelName) as [|org [|w ws]] eqn:Hs; simpl in Horg; try lia.
    exists org. split; [done|]. split; [by eapply JsStringFacts.split_head|].
    by rewrite JsStringFacts.join_cons in Hjoin.
  - intros Horg. unfold orgName, displayName. by rewrite Horg.
Qed.

Example display_llama :
  orgName "meta-llama/Llama-3.1-8B-Instruct" = Some "meta-llama" ∧
  displayName "meta-llama/Llama-3.1-8B-Instruct" = "Llama-3.1-8B-Instruct".
Proof. done. Qed.

Example display_nested :
  orgName "org/family/model" = Some "org" ∧ displayName "org/family/model" = "family/model".
Proof. done. Qed.

Example display_plain : orgName "gpt2" = None ∧ displayName "gpt2" = "gpt2".
Proof. done. Qed.

End ModelCardFacts.

(** ** Inline training wizard *)

Module InlineTrainingWizardFacts.
Import InlineTrainingWizard.

Section wizard.

Context {JsonValue : Type} {builtins : JsBuiltins JsonValue}.

(** The recipe kinds marked as coming soon in [ALL_RECIPES]. *)
Lemma isDisabled_table_check :
  Forall (λ recipe,
    isDisabled recipe =
      bool_decide (value recipe ∈
                   ["PPO"; "GRPO"; "PROMPT_DISTILLATION"; "TOOL_USE"; "MULTIPLAYER_RL"]) ∧
    isDisabled recipe =
      negb (supported recipe && bool_decide (comingSoon recipe = None)))
    ALL_RECIPES.
Proof. unfold ALL_RECIPES. repeat constructor. Qed.

Lemma isDisabled_table (recipe : Recipe) :
  recipe ∈ ALL_RECIPES →
  (isDisabled recipe = true ↔
   value recipe ∈ ["PPO"; "GRPO"; "PROMPT_DISTILLATION"; "TOOL_USE"; "MULTIPLAYER_RL"]) ∧
  (isDisabled recipe = false ↔ supported recipe = true ∧ comingSoon recipe = None).
Proof.
  intros Hin.
  destruct (proj1 (Forall_forall _ _) isDisabled_table_check recipe Hin) as [Hfive Hflags].
  split.
  - rewrite Hfive. apply bool_decide_eq_true.
  - rewrite Hflags, negb_false_iff, andb_true_iff, bool_decide_eq_true. done.
Qed.

Lemma value_inj_table (r1 r2 : Recipe) :
  r1 ∈ ALL_RECIPES → r2 ∈ ALL_RECIPES → value r1 = value r2 → r1 = r2.
Proof.
  unfold ALL_RECIPES. intros H1 H2.
  repeat (apply elem_of_cons in H1 as [-> | H1]);
    try (by apply elem_of_nil in H1);
    repeat (apply elem_of_cons in H2 as [-> | H2]);
    try (by apply elem_of_nil in H2); simpl; intros Hv; try done; discriminate.
Qed.

(** The selection is empty or names an enabled entry of the table. *)
Definition selection_ok (st : State) : Prop :=
  selectedRecipe st = "" ∨
  ∃ recipe, recipe ∈ ALL_RECIPES ∧ value recipe = selectedRecipe st ∧ isDisabled recipe = false.

Lemma displayedRecipes_table (st : State) (i : nat) (recipe : Recipe) :
  displayedRecipes st !! i = Some recipe → recipe ∈ ALL_RECIPES.
Proof.
  unfold displayedRecipes, popularRecipes. intros Hi.
  apply list_elem_of_lookup_2 in Hi.
  destruct (showAllRecipes st); [done|].
  by apply list_elem_of_filter in Hi as [_ ?].
Qed.

Lemma clickRecipe_ok (recipe : Recipe) (st : State) :
  recipe ∈ ALL_RECIPES → selection_ok st → selection_ok (clickRecipe recipe st).
Proof.
  intros Hin Hok. unfold clickRecipe. destruct (isDisabled recipe) eqn:Hd; [done|].
  right. by exists recipe.
Qed.


Lemma afterSubmit_selected (p : Props) (st : State) :
  selectedRecipe (afterSubmit p st) = selectedRecipe st.
Proof. unfold afterSubmit. by destruct (handleSubmit p st). Qed.

Lemma react_ok (w : Wizard) (e : Event) :
  selection_ok (state w) → selection_ok (state (react w e)).
Proof.
  intros Hok. destruct w as [p st]. simpl in *.
  destruct e; simpl; try (destruct (isOpen p); simpl; done).
  - destruct (negb (isOpen p) && isOpen props0); [by left | done].
  - destruct (isOpen p); simpl; [|done]. case_bool_decide; [|done].
    destruct (displayedRecipes st !! i) as [recipe|] eqn:Hi; [|done].
    apply clickRecipe_ok; [|done]. by eapply displayedRecipes_table.
  - destruct (isOpen p); simpl; [|done]. by case_bool_decide.
  - destruct (isOpen p); simpl; [|done].
    by destruct (bool_decide (step st = 1%Z) && negb (JsString.falsy (selectedRecipe st))).
  - destruct (isOpen p); simpl; [|done]. by destruct (1 <? step st)%Z.
  - destruct (isOpen p); simpl; [|done].
    destruct (negb (bool_decide (step st = 1%Z)) &&
              negb (isSubmitting st || JsString.falsy (selectedRecipe st)
                    || JsString.falsy (selectedModel st))); [|done].
    unfold selection_ok. by rewrite afterSubmit_selected.
Qed.






(** The kinds that the job runner of the spec refuses are the entries of
    the table whose button is disabled. *)
Lemma unsupported_kinds_table (recipe : Recipe) :
  recipe ∈ ALL_RECIPES →
  (isDisabled recipe = true ↔ value recipe ∈ JobRunner.unsupported_kinds).
Proof. intros Hin. apply (isDisabled_table recipe Hin). Qed.

End wizard.

(** *** The model list of the second step *)

Lemma elem_of_recommendedModelsList (supportedModels : list Models.SupportedModel)
    (m : Models.SupportedModel) :
  m ∈ recommendedModelsList supportedModels ↔
  m ∈ supportedModels ∧ Models.model_name m ∈ RECOMMENDED_MODELS.
Proof. unfold recommendedModelsList. rewrite list_elem_of_filter. tauto. Qed.

Lemma elem_of_otherModels (supportedModels : list Models.SupportedModel)
    (m : Models.SupportedModel) :
  m ∈ otherModels supportedModels ↔
  m ∈ supportedModels ∧ Models.model_name m ∉ RECOMMENDED_MODELS.
Proof. unfold otherModels. rewrite list_elem_of_filter. tauto. Qed.

(** X5. The second step of the wizard lists the recommended models until
    "Show All" is clicked, and offers that button exactly when a supported
    model is missing from the list shown. The recommended and the other
    models split the supported models between them, the list shown is always
    taken from the supported models in their order, and the model selected
    when the wizard opens is a recommended one. *)
Theorem show_all_offered_iff_model_hidden (showAllModels : bool)
    (supportedModels : list Models.SupportedModel) :
  (offersShowAll showAllModels supportedModels = true ↔
   ∃ m, m ∈ supportedModels ∧ m ∉ displayedModels showAllModels supportedModels) ∧
  recommendedModelsList supportedModels ++ otherModels supportedModels ≡ₚ supportedModels ∧
  displayedModels showAllModels supportedModels `sublist_of` supportedModels ∧
  selectedModel initial ∈ RECOMMENDED_MODELS.
Proof.
  split; [|split; [|split]].
  - unfold offersShowAll, displayedModels. destruct showAllModels; simpl.
    + split; [done | by intros (m & Hin & Hout)].
    + rewrite bool_decide_eq_true. split.
      * destruct (otherModels supportedModels) as [|m ms] eqn:Hother; simpl; [lia|].
        intros _. assert (Hm : m ∈ otherModels supportedModels).
        { rewrite Hother. apply list_elem_of_here. }
        apply elem_of_otherModels in Hm as [Hin Hnot]. exists m. split; [done|].
        rewrite elem_of_recommendedModelsList. tauto.
      * intros (m & Hin & Hout).
        assert (Hm : m ∈ otherModels supportedModels).
        { apply elem_of_otherModels. split; [done|]. intros Hrec. apply Hout.
          by apply elem_of_recommendedModelsList. }
        destruct (otherModels supportedModels); [by apply elem_of_nil in Hm | simpl; lia].
  - apply (filter_app_complement (λ m, Models.model_name m ∈ RECOMMENDED_MODELS)).
  - unfold displayedModels, recommendedModelsList.
    destruct showAllModels; [done | apply sublist_filter].
  - apply list_elem_of_here.
Qed.

Definition deepseek : Models.SupportedModel :=
  {| Models.model_name := "deepseek-ai/DeepSeek-V3"; Models.parameters := None;
     Models.context_length := None; Models.supported_description := None |}.

Example displayedModels_sample :
  displayedModels false [deepseek; ModelsFacts.qwen; ModelsFacts.llama]
    = [ModelsFacts.qwen; ModelsFacts.llama] ∧
  offersShowAll false [deepseek; ModelsFacts.qwen; ModelsFacts.llama] = true ∧
  offersShowAll false [ModelsFacts.qwen; ModelsFacts.llama] = false ∧
  offersShowAll true [deepseek; ModelsFacts.qwen; ModelsFacts.llama] = false.
Proof. done. Qed.

(** *** The payload of a submission *)

Section payload.

Context {JsonValue : Type} {builtins : JsBuiltins JsonValue}.

Local Abbreviation Value := (HyperValue (JsonValue := JsonValue)).
Local Abbreviation Object := (JsObject (JsonValue := JsonValue)).
Local Abbreviation Payload := (RunCreatePayload (JsonValue := JsonValue)).

Lemma obj_get_cons (k k' : string) (v : Value) (o : Object) :
  obj_get k ((k', v) :: o) = if decide (k' = k) then Some v else obj_get k o.
Proof. unfold obj_get. simpl. case_bool_decide; by case_decide. Qed.

Lemma obj_get_set (k k' : string) (v : Value) (o : Object) :
  obj_get k (obj_set k' v o) = if decide (k' = k) then Some v else obj_get k o.
Proof.
  induction o as [|[k0 v0] o IH]; simpl.
  - rewrite obj_get_cons. by case_decide.
  - destruct (decide (k0 = k')) as [-> | Hne]; rewrite !obj_get_cons.
    + by case_decide.
    + rewrite IH. repeat case_decide; congruence.
Qed.

Lemma obj_get_app (k : string) (a b : Object) :
  obj_get k (a ++ b) = match obj_get k a with Some v => Some v | None => obj_get k b end.
Proof.
  induction a as [|[k0 v0] a IH]; [done|].
  rewrite <- app_comm_cons, !obj_get_cons. by case_decide.
Qed.

(** In [{ ...a, ...b }] an entry of [b] wins over one of [a], and among the
    entries of [b] with the same key the last one wins. *)
Lemma obj_get_spread (k : string) (a b : Object) :
  obj_get k (obj_spread a b) =
  match obj_get k (reverse b) with Some v => Some v | None => obj_get k a end.
Proof.
  unfold obj_spread. revert a. induction b as [|[k0 v0] b IH]; intros a; [done|].
  simpl. rewrite IH, reverse_cons, obj_get_app, obj_get_set, obj_get_cons.
  destruct (obj_get k (reverse b)); [done|]. by case_decide.
Qed.

Lemma obj_get_layer (c : bool) (key k : string) (v : Value) (o : Object) :
  obj_get k (if c then o else obj_set key v o) =
  if bool_decide (key = k) && negb c then Some v else obj_get k o.
Proof.
  destruct c; simpl; [by rewrite andb_false_r|].
  rewrite obj_get_set, andb_true_r. by case_decide; case_bool_decide.
Qed.

(** The value that the advanced options of the wizard write under key [k],
    if any. *)
Definition written (st : State) (k : string) : option Value :=
  if bool_decide ("lr_warmup_steps" = k) && (0 <? warmupSteps st)%Z
  then Some (HNumber (inject_Z (warmupSteps st)))
  else if bool_decide ("lr_schedule" = k) && negb (bool_decide (lrScheduler st = "constant"))
  then Some (HString (lrScheduler st))
  else if bool_decide ("wandb_project" = k) && negb (JsString.falsy (trim (wandbProject st)))
  then Some (HString (trim (wandbProject st)))
  else if bool_decide ("renderer_name" = k) && negb (JsString.falsy (selectedRenderer st))
  then Some (HString (selectedRenderer st))
  else None.

(** The value of key [k] in the custom hyperparameters, if they are not
    blank: that of the last entry with this key. *)
Definition custom_entry (st : State) (k : string) : option JsonValue :=
  if JsString.falsy (trim (customHyperparams st)) then None
  else entries ← JSON_parse_entries (customHyperparams st);
       snd <$> List.find (λ kv, bool_decide (kv.1 = k)) (reverse entries).

(** The default of the selected recipe for key [k], if it has one. *)
Definition default_entry (st : State) (k : string) : option Q :=
  cfg ← findRecipe (selectedRecipe st) ≫= defaultConfig;
  snd <$> List.find (λ kv, bool_decide (kv.1 = k)) (reverse cfg).

Lemma obj_get_fmap {A : Type} (f : A → Value) (k : string) (l : list (string * A)) :
  obj_get k ((λ kv, (kv.1, f kv.2)) <$> l) =
  f <$> (snd <$> List.find (λ kv, bool_decide (kv.1 = k)) l).
Proof.
  induction l as [|[k0 v0] l IH]; [done|].
  rewrite fmap_cons, obj_get_cons. simpl. case_decide; case_bool_decide; done.
Qed.

Lemma obj_get_options (st : State) (h0 : Object) (k : string) :
  obj_get k
    (let h1 := if JsString.falsy (selectedRenderer st) then h0
               else obj_set "renderer_name" (HString (selectedRenderer st)) h0 in
     let h2 := if JsString.falsy (trim (wandbProject st)) then h1
               else obj_set "wandb_project" (HString (trim (wandbProject st))) h1 in
     let h3 := if decide (lrScheduler st = "constant") then h2
               else obj_set "lr_schedule" (HString (lrScheduler st)) h2 in
     if (0 <? warmupSteps st)%Z
     then obj_set "lr_warmup_steps" (HNumber (inject_Z (warmupSteps st))) h3
     else h3)
  = match written st k with Some v => Some v | None => obj_get k h0 end.
Proof.
  cbv zeta. unfold written.
  destruct (0 <? warmupSteps st)%Z, (decide (lrScheduler st = "constant")) as [Hc | Hc],
    (JsString.falsy (trim (wandbProject st))), (JsString.falsy (selectedRenderer st));
    rewrite ?(bool_decide_eq_true_2 _ Hc), ?(bool_decide_eq_false_2 _ Hc);
    rewrite ?obj_get_set, ?andb_true_r, ?andb_false_r; simpl;
    repeat (case_decide; subst; simpl);
    rewrite ?bool_decide_eq_true_2 by done; rewrite ?bool_decide_eq_false_2 by done; done.
Qed.

(** X7. In the payload of a submission the hyperparameter under a key is
    decided by precedence: an advanced option of the wizard that is set
    (warm-up steps above 0, a scheduler other than "constant", a non-blank
    WandB project, a selected renderer) writes its key whatever the custom
    JSON and the recipe say; otherwise the custom JSON gives the value when
    it has an entry for the key, the last such entry; otherwise the value is
    the selected recipe's default for the key, and the key is absent when
    there is none. *)
Theorem hyperparameters_precedence (p : Props) (st : State) (payload : Payload) (k : string) :
  handleSubmit p st = Submitted payload →
  obj_get k (hyperparameters (config_json payload)) =
  match written st k with
  | Some v => Some v
  | None =>
      match custom_entry st k with
      | Some v => Some (HJson v)
      | None => HNumber <$> default_entry st k
      end
  end.
Proof.
  unfold handleSubmit.
  destruct (falsy_id (selectedProjectId p) || JsString.falsy (selectedRecipe st)
            || JsString.falsy (selectedModel st)); [done|].
  cbv zeta. unfold custom_entry, default_entry.
  destruct (findRecipe (selectedRecipe st) ≫= defaultConfig) as [cfg|] eqn:Hcfg; simpl.
  - destruct (JsString.falsy (trim (customHyperparams st))).
    + intros [= <-]. simpl. rewrite (obj_get_options st).
      destruct (written st k); [done|].
      rewrite obj_get_spread, <- fmap_reverse, obj_get_fmap. simpl.
      by destruct (List.find _ (reverse cfg)).
    + destruct (JSON_parse_entries (customHyperparams st)) as [entries|]; [|done].
      intros [= <-]. simpl. rewrite (obj_get_options st).
      destruct (written st k); [done|].
      rewrite !obj_get_spread, <- !fmap_reverse, !obj_get_fmap. simpl.
      destruct (List.find _ (reverse entries)); simpl; [done|].
      by destruct (List.find _ (reverse cfg)).
  - destruct (JsString.falsy (trim (customHyperparams st))).
    + intros [= <-]. simpl. rewrite (obj_get_options st).
      by destruct (written st k).
    + destruct (JSON_parse_entries (customHyperparams st)) as [entries|]; [|done].
      intros [= <-]. simpl. rewrite (obj_get_options st).
      destruct (written st k); [done|].
      rewrite !obj_get_spread, <- !fmap_reverse, !obj_get_fmap. simpl.
      by destruct (List.find _ (reverse entries)).
Qed.

Lemma guard_spec (p : Props) (st : State) :
  falsy_id (selectedProjectId p) || JsString.falsy (selectedRecipe st)
    || JsString.falsy (selectedModel st) = true ↔
  selectedProjectId p = None ∨ selectedProjectId p = Some 0%Z ∨
  selectedRecipe st = "" ∨ selectedModel st = "".
Proof.
  rewrite !orb_true_iff, !JsStringFacts.falsy_spec. unfold falsy_id.
  destruct (selectedProjectId p) as [n|]; [|tauto].
  rewrite bool_decide_eq_true. split.
  - intros [[-> | ?] | ?]; auto.
  - intros [? | [[= ->] | [? | ?]]]; auto. done.
Qed.

End payload.

(** X6. The submit handler of the wizard returns without doing anything
    exactly when no project is selected (the id is null or 0), no recipe is
    selected or no model is selected; otherwise it stops at the custom
    hyperparameters exactly when they are not blank and are not valid JSON;
    and a payload it hands to [onSubmit] carries the selected project, the
    selected recipe and the selected model, and a dataset id exactly when a
    dataset other than "none" is selected. *)
Theorem handleSubmit_outcomes {JsonValue : Type} {builtins : JsBuiltins JsonValue}
    (p : Props) (st : State) :
  (handleSubmit p st = Ignored ↔
     selectedProjectId p = None ∨ selectedProjectId p = Some 0%Z ∨
     selectedRecipe st = "" ∨ selectedModel st = "") ∧
  (handleSubmit p st = InvalidJson ↔
     handleSubmit p st ≠ Ignored ∧ trim (customHyperparams st) ≠ "" ∧
     JSON_parse_entries (customHyperparams st) = None) ∧
  (∀ payload, handleSubmit p st = Submitted payload →
     selectedProjectId p = Some (project_id payload) ∧
     recipe_type payload = selectedRecipe st ∧
     base_model (config_json payload) = selectedModel st ∧
     dataset_id payload =
       if decide (selectedDataset st = "" ∨ selectedDataset st = "none") then None
       else Some (parseInt (selectedDataset st))).
Proof.
  pose proof (guard_spec p st) as Hguard. unfold handleSubmit in *.
  destruct (falsy_id (selectedProjectId p) || JsString.falsy (selectedRecipe st)
            || JsString.falsy (selectedModel st)) eqn:Hg.
  { split; [by rewrite <- Hguard|]. split; [|done]. split; [done|]. by intros [? _]. }
  assert (Hproject : ∃ n, selectedProjectId p = Some n).
  { destruct (selectedProjectId p) as [n|] eqn:Hp; [by exists n|].
    exfalso. assert (false = true); [|done]. apply Hguard. by left. }
  destruct Hproject as [n Hn]. cbv zeta.
  destruct (JsString.falsy (trim (customHyperparams st))) eqn:Hblank.
  - split; [split; [done|]; intros Hi; apply Hguard in Hi; done|].
    split.
    + split; [done|]. intros (_ & Hne & _).
      apply JsStringFacts.falsy_spec in Hblank. done.
    + intros payload [= <-]. simpl. rewrite Hn. repeat split.
      destruct (JsString.falsy (selectedDataset st)) eqn:Hd; simpl.
      * apply JsStringFacts.falsy_spec in Hd. rewrite decide_True by auto. done.
      * assert (selectedDataset st ≠ "") by (intros Hd'; by rewrite Hd' in Hd).
        case_bool_decide; case_decide; try done; tauto.
  - assert (Hne : trim (customHyperparams st) ≠ "").
    { intros He. by rewrite He in Hblank. }
    destruct (JSON_parse_entries (customHyperparams st)) as [entries|] eqn:Hjson.
    + split; [split; [done|]; intros Hi; apply Hguard in Hi; done|].
      split; [split; [done|]; by intros (_ & _ & ?)|].
      intros payload [= <-]. simpl. rewrite Hn. repeat split.
      destruct (JsString.falsy (selectedDataset st)) eqn:Hd; simpl.
      * apply JsStringFacts.falsy_spec in Hd. rewrite decide_True by auto. done.
      * assert (selectedDataset st ≠ "") by (intros Hd'; by rewrite Hd' in Hd).
        case_bool_decide; case_decide; try done; tauto.
    + split; [split; [done|]; intros Hi; apply Hguard in Hi; done|].
      split; [|done]. split; [done|]. by intros _.
Qed.


Definition open_props : Props := {| isOpen := true; selectedProjectId := Some 7%Z |}.



(** A click on PPO, shown once all recipes are listed, changes nothing, and
    the wizard cannot be continued with no recipe selected. *)
Example wizard_ppo_session :
  (run (builtins := PlainBuiltins.builtins) (mount open_props)
     [ToggleAllRecipes; ClickRecipe 6; ClickContinue; ClickStartTraining]).2 = [].
Proof. vm_compute. reflexivity. Qed.


(** The submit handler itself does not look at the flags of the recipe
    table: were the selection PPO, which no sequence of events brings about,
    it would hand the payload to [onSubmit]. The gate is the disabled button
    alone. *)
Lemma handleSubmit_accepts_coming_soon :
  (∃ recipe, recipe ∈ ALL_RECIPES ∧ value recipe = "PPO" ∧
             supported recipe = false ∧ comingSoon recipe = Some true) ∧
  handleSubmit (builtins := PlainBuiltins.builtins) open_props (setSelectedRecipe "PPO" initial) =
  Submitted {|
    project_id := 7;
    recipe_type := "PPO";
    config_json := {| base_model := "meta-llama/Llama-3.1-8B-Instruct"; hyperparameters := [] |};
    dataset_id := None |}.
Proof.
  split; [|vm_compute; reflexivity].
  destruct (ALL_RECIPES !! 6%nat) as [recipe|] eqn:Hrecipe; [|done].
  exists recipe. split; [by eapply list_elem_of_lookup_2|].
  injection Hrecipe as <-. by repeat split.
Qed.

(** *** The steps of the wizard *)

Section navigation.

Context {JsonValue : Type} {builtins : JsBuiltins JsonValue}.

(** The wizard is at step 1 or 2, and at step 2 a recipe is selected. *)
Definition step_ok (st : State) : Prop :=
  (step st = 1%Z ∨ step st = 2%Z) ∧ (step st = 2%Z → selectedRecipe st ≠ "").

Lemma afterSubmit_step (p : Props) (st : State) :
  step (afterSubmit p st) = step st.
Proof. unfold afterSubmit. by destruct (handleSubmit p st). Qed.

Lemma clickRecipe_step (recipe : Recipe) (st : State) :
  step (clickRecipe recipe st) = step st.
Proof. unfold clickRecipe. by destruct (isDisabled recipe). Qed.

Lemma react_step_ok (w : Wizard) (e : Event) :
  step_ok (state w) → step_ok (state (react w e)).
Proof.
  intros [Hstep Hsel]. destruct w as [p st]. simpl in *.
  destruct e; simpl; try (destruct (isOpen p); simpl; by split).
  - destruct (negb (isOpen p) && isOpen props0); [|by split].
    split; [by left | done].
  - destruct (isOpen p); simpl; [|by split]. case_bool_decide as H1; [|by split].
    destruct (displayedRecipes st !! i) as [recipe|]; [|by split].
    unfold step_ok. rewrite clickRecipe_step. split; [done|]. intros H2. congruence.
  - destruct (isOpen p); simpl; [|by split]. by case_bool_decide.
  - destruct (isOpen p); simpl; [|by split].
    case_bool_decide as H1; simpl; [|by split].
    destruct (JsString.falsy (selectedRecipe st)) eqn:Hf; simpl; [by split|].
    split; [by right|]. intros _ He. simpl in He. by rewrite He in Hf.
  - destruct (isOpen p); simpl; [|by split].
    destruct (1 <? step st)%Z eqn:Hlt; [|by split].
    apply Z.ltb_lt in Hlt. destruct Hstep as [H1 | H2]; [lia|].
    split; simpl; [left; lia | intros; lia].
  - destruct (isOpen p); simpl; [|by split].
    destruct (negb (bool_decide (step st = 1%Z)) &&
              negb (isSubmitting st || JsString.falsy (selectedRecipe st)
                    || JsString.falsy (selectedModel st))); [|by split].
    unfold step_ok. by rewrite afterSubmit_step, afterSubmit_selected.
Qed.

Lemma run_invariant (Inv : State → Prop) :
  (∀ w e, Inv (state w) → Inv (state (react w e))) →
  ∀ w events, Inv (state w) → Inv (state (run w events).1).
Proof.
  intros Hreact w events. revert w. induction events as [|e events IH]; intros w Hw; [done|].
  simpl. specialize (IH (react w e) (Hreact w e Hw)).
  by destruct (run (react w e) events).
Qed.

End navigation.

(** X8. Whatever has happened to a mounted wizard, it is at step 1 or at
    step 2 and never at a third step; while it is at step 2 the selected
    recipe is an entry of the table that is supported and not marked as
    coming soon; and an event hands a payload to [onSubmit] only if it is a
    click on "Start Training" in an open wizard at step 2. *)
Theorem wizard_steps {JsonValue : Type} {builtins : JsBuiltins JsonValue}
    (p : Props) (events : list Event) :
  (step (state (run (mount p) events).1) = 1%Z ∨
   step (state (run (mount p) events).1) = 2%Z) ∧
  (step (state (run (mount p) events).1) = 2%Z →
   ∃ recipe, recipe ∈ ALL_RECIPES ∧
             value recipe = selectedRecipe (state (run (mount p) events).1) ∧
             supported recipe = true ∧ comingSoon recipe = None) ∧
  (∀ e payload,
     submitted (run (mount p) events).1 e = Some payload →
     e = ClickStartTraining ∧
     isOpen (props (run (mount p) events).1) = true ∧
     step (state (run (mount p) events).1) = 2%Z).
Proof.
  assert (Hstep : step_ok (state (run (mount p) events).1)).
  { apply (run_invariant step_ok); [apply react_step_ok|]. split; [by left | done]. }
  assert (Hsel : selection_ok (state (run (mount p) events).1)).
  { apply (run_invariant selection_ok); [apply react_ok | by left]. }
  destruct Hstep as [Hstep Hrecipe]. split; [done|]. split.
  - intros H2. destruct Hsel as [Hempty | (recipe & Hin & Hv & Hd)]; [by apply Hrecipe in H2|].
    exists recipe. by destruct (proj2 (isDisabled_table recipe Hin) ) as [Hs _]; destruct (Hs Hd).
  - intros e payload. destruct e; simpl; try done.
    destruct (isOpen (props (run (mount p) events).1)); simpl; [|done].
    case_bool_decide as H1; simpl; [done|]. intros _.
    repeat split. by destruct Hstep.
Qed.

Example wizard_back_and_forth :
  step (state (run (builtins := PlainBuiltins.builtins) (mount open_props)
                 [ClickContinue; ClickRecipe 0; ClickContinue; ClickContinue; ClickBack;
                  ClickBack; ClickContinue]).1) = 2%Z.
Proof. vm_compute. reflexivity. Qed.

(** A session with advanced options: the custom JSON overrides the rank of
    the recipe, the renderer and the warm-up steps are added. *)
Definition tuned_state : State :=
  setWarmupSteps 100
    (setSelectedRenderer "llama3"
       (setCustomHyperparams
          ("{ " +:+ String PlainBuiltins.quote "rank" +:+ String PlainBuiltins.quote ": 8 }")
          (setSelectedDataset "12" (setSelectedRecipe "SFT" initial)))).

Definition tuned_payload : RunCreatePayload (JsonValue := Z) := {|
  project_id := 7;
  recipe_type := "SFT";
  config_json := {|
    base_model := "meta-llama/Llama-3.1-8B-Instruct";
    hyperparameters := [("learning_rate", HNumber 5e-5%Q); ("batch_size", HNumber 4%Q);
                        ("rank", HJson 8%Z); ("epochs", HNumber 3%Q);
                        ("renderer_name", HString "llama3");
                        ("lr_warmup_steps", HNumber 100%Q)] |};
  dataset_id := Some (Int 12);
|}.

Example handleSubmit_tuned :
  handleSubmit (builtins := PlainBuiltins.builtins) open_props tuned_state
  = Submitted tuned_payload.
Proof. vm_compute. reflexivity. Qed.

Example handleSubmit_invalid_json :
  handleSubmit (builtins := PlainBuiltins.builtins) open_props
    (setCustomHyperparams "{ rank: 8" (setSelectedRecipe "SFT" initial))
  = InvalidJson.
Proof. vm_compute. reflexivity. Qed.

Example handleSubmit_no_project :
  handleSubmit (builtins := PlainBuiltins.builtins)
    {| isOpen := true; selectedProjectId := Some 0%Z |} (setSelectedRecipe "SFT" initial)
  = Ignored.
Proof. vm_compute. reflexivity. Qed.

Lemma hyperparameters_precedence_witness :
  handleSubmit (builtins := PlainBuiltins.builtins) open_props tuned_state
    = Submitted tuned_payload ∧
  obj_get "rank" (hyperparameters (config_json tuned_payload)) = Some (HJson 8%Z) ∧
  obj_get "lr_warmup_steps" (hyperparameters (config_json tuned_payload))
    = Some (HNumber 100%Q).
Proof.
  assert (Hs : handleSubmit (builtins := PlainBuiltins.builtins) open_props tuned_state
               = Submitted tuned_payload) by (vm_compute; reflexivity).
  split; [exact Hs|]. split.
  - rewrite (hyperparameters_precedence open_props tuned_state tuned_payload "rank" Hs).
    vm_compute. reflexivity.
  - rewrite (hyperparameters_precedence open_props tuned_state tuned_payload
               "lr_warmup_steps" Hs).
    vm_compute. reflexivity.
Defined.

End InlineTrainingWizardFacts.

(** ** Simple run wizard *)

Module SimpleRunWizardFacts.
Import InlineTrainingWizard.
Import SimpleRunWizard.

(** *** Recipes and submissions *)

Section wizard.

Context {JsonValue : Type} {builtins : JsBuiltins JsonValue}.

(** The selection is empty or names a quick recipe. *)
Definition quick_selection (st : State) : Prop :=
  selectedRecipe st = "" ∨ selectedRecipe st ∈ ["SFT"; "CHAT_SL"; "MATH_RL"].

Lemma QUICK_RECIPES_values (i : nat) (recipe : QuickRecipe (JsonValue := JsonValue)) :
  QUICK_RECIPES !! i = Some recipe → value recipe ∈ ["SFT"; "CHAT_SL"; "MATH_RL"].
Proof.
  destruct i as [|[|[|i]]]; simpl; intros [= <-]; simpl;
    [apply list_elem_of_here | apply list_elem_of_further, list_elem_of_here
    | do 2 apply list_elem_of_further; apply list_elem_of_here].
Qed.

Lemma afterSubmit_quick (p : Props) (st : State) (fulfilled : bool) :
  quick_selection st → quick_selection (afterSubmit p st fulfilled).
Proof.
  intros Hq. unfold afterSubmit. destruct (handleSubmit p st); try done.
  destruct fulfilled; [by left | done].
Qed.

Lemma react_quick (w : Wizard) (e : Event) :
  quick_selection (state w) → quick_selection (state (react w e)).
Proof.
  intros Hq. destruct w as [p st]. simpl in *.
  destruct e; simpl; try done; destruct (open p); simpl; try done.
  - destruct (QUICK_RECIPES !! i) as [recipe|] eqn:Hi; [|done].
    right. by eapply QUICK_RECIPES_values.
  - by case_bool_decide.
  - destruct (canSubmit p st && negb (isSubmitting st)); [|done].
    by apply afterSubmit_quick.
Qed.

Lemma run_quick (w : Wizard) (events : list Event) (payload : RunCreatePayload) :
  quick_selection (state w) →
  payload ∈ (run w events).2 →
  recipe_type payload ∈ ["SFT"; "CHAT_SL"; "MATH_RL"].
Proof.
  revert w. induction events as [|e events IH]; intros w Hq; simpl.
  - intros Hin. by apply elem_of_nil in Hin.
  - destruct (run (react w e) events) as [w' outs] eqn:Hrun. simpl.
    rewrite elem_of_app. intros [Hin | Hin].
    + destruct (submitted w e) as [payload'|] eqn:Hsub; simpl in Hin;
        [|by apply elem_of_nil in Hin].
      apply list_elem_of_singleton in Hin as ->.
      destruct e; simpl in Hsub; try done.
      destruct (open (props w) && canSubmit (props w) (state w)
                && negb (isSubmitting (state w))); [|done].
      unfold handleSubmit in Hsub.
      destruct (falsy_id (selectedProjectId (props w))); simpl in Hsub; [done|].
      destruct (JsString.falsy (selectedRecipe (state w))) eqn:Hsel; simpl in Hsub; [done|].
      destruct (JsString.falsy (selectedModel (state w))); simpl in Hsub; [done|].
      revert Hsub.
      match goal with |- match match ?m with _ => _ end with _ => _ end = _ → _ =>
        destruct m end; [|done].
      intros [= <-]. simpl. destruct Hq as [He | Hq]; [|done].
      by rewrite He in Hsel.
    + apply (IH (react w e)); [by apply react_quick|]. by rewrite Hrun.
Qed.

End wizard.

(** X12. Whatever has happened to a mounted simple wizard, a payload it
    hands to [onSubmit] names one of the three quick recipes SFT, CHAT_SL and
    MATH_RL, each of which is a popular entry of the inline wizard's recipe
    table that is supported and not marked as coming soon. A submission
    whose [onSubmit] is fulfilled puts the form back to its initial values
    and closes the dialog; one whose [onSubmit] is rejected leaves the form
    as it was and the dialog open. *)
Theorem simple_wizard_submissions {JsonValue : Type} {builtins : JsBuiltins JsonValue}
    (p : Props) (events : list Event) :
  (∀ payload, payload ∈ (run (mount p) events).2 →
     recipe_type payload ∈ ["SFT"; "CHAT_SL"; "MATH_RL"] ∧
     ∃ recipe, recipe ∈ ALL_RECIPES ∧
               InlineTrainingWizard.value recipe = recipe_type payload ∧
               popular recipe = true ∧ supported recipe = true ∧ comingSoon recipe = None) ∧
  (∀ w payload fulfilled,
     submitted w (ClickStartTraining fulfilled) = Some payload →
     state (react w (ClickStartTraining fulfilled)) = (if fulfilled then initial else state w) ∧
     closesDialog (props w) (state w) fulfilled = fulfilled).
Proof.
  split.
  - intros payload Hin. apply run_quick in Hin; [|by left]. split; [done|].
    repeat (apply elem_of_cons in Hin as [-> | Hin]); [| | |by apply elem_of_nil in Hin].
    + destruct (ALL_RECIPES !! 0%nat) as [recipe|] eqn:Hr; [|done].
      exists recipe. split; [by eapply list_elem_of_lookup_2|]. by injection Hr as <-.
    + destruct (ALL_RECIPES !! 1%nat) as [recipe|] eqn:Hr; [|done].
      exists recipe. split; [by eapply list_elem_of_lookup_2|]. by injection Hr as <-.
    + destruct (ALL_RECIPES !! 2%nat) as [recipe|] eqn:Hr; [|done].
      exists recipe. split; [by eapply list_elem_of_lookup_2|]. by injection Hr as <-.
  - intros [p' st] payload fulfilled. simpl. unfold closesDialog, afterSubmit.
    destruct (open p'); simpl; [|done].
    destruct (canSubmit p' st); simpl; [|done].
    destruct (isSubmitting st) eqn:Hsub; simpl; [done|].
    destruct (handleSubmit p' st); try done. intros _.
    destruct fulfilled; [done|]. split; [|done].
    destruct st. simpl in *. by subst.
Qed.

Definition simple_props : Props := {| open := true; selectedProjectId := Some 7%Z |}.

Example simple_wizard_session :
  (run (builtins := PlainBuiltins.builtins) (mount simple_props)
     [ClickStartTraining true; ClickRecipe 1; ClickRecipe 7; EditWandbProject " demo ";
      ClickStartTraining false; ClickStartTraining true; ClickStartTraining true]).2
  = let payload := {|
        project_id := 7; recipe_type := "CHAT_SL";
        config_json := {|
          InlineTrainingWizard.base_model := "meta-llama/Llama-3.1-8B-Instruct";
          hyperparameters := [("dataset", HString "HuggingFaceH4/no_robots");
                              ("learning_rate", HNumber 5e-4%Q); ("batch_size", HNumber 64%Q);
                              ("rank", HNumber 64%Q); ("eval_every", HNumber 20%Q);
                              ("save_every", HNumber 20%Q);
                              ("wandb_project", HString "demo")] |};
        dataset_id := None |} in
    [payload; payload].
Proof. vm_compute. reflexivity. Qed.

(** *** The name shown for a model *)

(** X13. The select of the simple wizard labels a model as follows. A
    name without a slash is shown whole. A name with a slash is
    organisation, slash, segment and rest, where the organisation and the
    segment hold no slash and the rest is empty or starts with the second
    slash; the card of the model shows segment and rest as its display
    name, and the select shows the segment alone, or the whole name when
    the segment is empty. So the select shows the display name of the card
    exactly when the name has no slash, or has one slash with text after
    it; for a name with a second slash the select never shows the display
    name: it shows the whole name when nothing stands between the first
    two slashes, and otherwise the part of the display name before the
    second slash. *)
Theorem short_name_vs_display_name (model_name : string) :
  (JsString.includes model_name "/" = false → shortName model_name = model_name) ∧
  (JsString.includes model_name "/" = true →
   ∃ org segment rest,
     model_name = org +:+ "/" +:+ segment +:+ rest ∧
     JsString.includes org "/" = false ∧
     JsString.includes segment "/" = false ∧
     (rest = "" ∨ JsString.startsWith rest "/" = true) ∧
     ModelCard.displayName model_name = segment +:+ rest ∧
     shortName model_name = (if decide (segment = "") then model_name else segment)) ∧
  (shortName model_name = ModelCard.displayName model_name ↔
   ModelCard.hasOrg model_name = false ∨
   (ModelCard.displayName model_name ≠ "" ∧
    JsString.includes (ModelCard.displayName model_name) "/" = false)) ∧
  (ModelCard.hasOrg model_name = true →
   JsString.includes (ModelCard.displayName model_name) "/" = true →
   shortName model_name ≠ ModelCard.displayName model_name ∧
   (shortName model_name = model_name ∨
    ∃ rest, ModelCard.displayName model_name = shortName model_name +:+ "/" +:+ rest ∧
            shortName model_name ≠ "" ∧
            JsString.includes (shortName model_name) "/" = false)).
Proof.
  pose proof (JsStringFacts.join_split "/" model_name) as Hjoin.
  pose proof (JsStringFacts.split_length "/" model_name) as Hlen.
  pose proof (JsStringFacts.split_clean "/" model_name) as Hclean.
  unfold shortName, ModelCard.displayName, ModelCard.hasOrg, ModelCard.nameParts in *.
  destruct (JsString.split "/" model_name) as [|org [|w ws]] eqn:Hs;
    cbn -[JsString.join JsString.includes JsString.startsWith] in *.
  - destruct (JsStringFacts.split_cons "/" model_name) as (? & ? & ?). congruence.
  - rewrite <- Hlen. rewrite bool_decide_eq_false_2 by lia. repeat split; auto; done.
  - rewrite <- Hlen. rewrite bool_decide_eq_true_2 by lia.
    assert (Horg : JsString.includes org "/" = false) by apply Hclean, list_elem_of_here.
    assert (Hw : JsString.includes w "/" = false).
    { apply Hclean, list_elem_of_further, list_elem_of_here. }
    assert (Hname : model_name ≠ JsString.join "/" (w :: ws)).
    { intros He. apply (f_equal String.length) in Hjoin.
      rewrite JsStringFacts.join_cons, <- He in Hjoin.
      rewrite !JsStringFacts.length_append in Hjoin. simpl in Hjoin. lia. }
    assert (Hshort : (if JsString.falsy w then model_name else w)
                     = (if decide (w = "") then model_name else w)).
    { destruct w; [done|]. cbn [JsString.falsy]. by destruct (decide _). }
    split; [done|]. split.
    { intros _. destruct ws as [|v ws].
      - exists org, w, "". split_and!; try done.
        + rewrite <- Hjoin at 1.
          by rewrite JsStringFacts.join_cons, JsStringFacts.append_empty_r.
        + by left.
        + change (JsString.join "/" [w]) with w. by rewrite JsStringFacts.append_empty_r.
      - exists org, w, ("/" +:+ JsString.join "/" (v :: ws)). split_and!; try done.
        right. by rewrite JsStringFacts.append_String. }
    destruct w as [|c w]; simpl JsString.falsy; cbv iota.
    + split.
      * split; [done|]. intros [? | [Hne Hno]]; [done|].
        destruct ws as [|v ws]; [done|].
        by rewrite JsStringFacts.join_includes in Hno.
      * intros _ _. split; [done | by left].
    + destruct ws as [|v ws].
      * change (JsString.join "/" [String c w]) with (String c w). split.
        -- split; [intros _; right; by split | done].
        -- intros _ Hslash. congruence.
      * assert (Hslash : JsString.includes (JsString.join "/" (String c w :: v :: ws)) "/" = true)
          by apply JsStringFacts.join_includes.
        split.
        -- split.
           ++ intros He. exfalso. rewrite <- He in Hslash. congruence.
           ++ intros [? | [_ Hno]]; [done | congruence].
        -- intros _ _. split.
           ++ intros He. rewrite <- He in Hslash. congruence.
           ++ right. exists (JsString.join "/" (v :: ws)). split_and!; try done.
Qed.

Example shortName_samples :
  shortName "meta-llama/Llama-3.1-8B-Instruct" = "Llama-3.1-8B-Instruct" ∧
  shortName "gpt2" = "gpt2" ∧
  shortName "org/family/model" = "family" ∧
  ModelCard.displayName "org/family/model" = "family/model" ∧
  shortName "org/" = "org/" ∧
  ModelCard.displayName "org/" = "" ∧
  shortName "a//b" = "a//b" ∧
  ModelCard.displayName "a//b" = "/b".
Proof. done. Qed.

End SimpleRunWizardFacts.

(** ** Registering a dataset *)

Module DatasetFormFacts.
Import DatasetManager DatasetsTab.

Section tab.

Variable JsonValue : Type.
Variable JSON_parse : string → option JsonValue.
Variable object : list (string * string) → JsonValue.
Variable JSON_stringify : JsonValue → string.
Variable Dataset : Type.
Variable dataset_name : Dataset → string.

Local Abbreviation react :=
  (DatasetsTab.react JsonValue JSON_parse object JSON_stringify Dataset dataset_name).
Local Abbreviation State := (DatasetsTab.State).
Local Abbreviation Effect := (DatasetsTab.Effect JsonValue Dataset).

(** The payloads that [createDataset] was called with. *)
Definition requests (effects : list Effect) : list (Payload JsonValue) :=
  omap (λ e, match e with CreateDataset payload => Some payload | _ => None end) effects.

(** The form can be submitted: both required fields are filled in and no
    registration is under way. *)
Definition submittable (st : State) : Prop :=
  name (datasetForm st) ≠ "" ∧ spec (datasetForm st) ≠ "" ∧ datasetLoading st = false.

Ltac members H :=
  rewrite ?elem_of_cons, ?elem_of_nil in H; destruct_or?; try discriminate; try done.

Lemma submit_blocked (st : State) (created : ChatTabSubmit.Settled Dataset) :
  ¬ submittable st → react st (Submit created) = (st, []).
Proof.
  intros Hno. unfold DatasetsTab.react.
  destruct (JsString.falsy (name (datasetForm st))) eqn:Hn; [done|].
  destruct (JsString.falsy (spec (datasetForm st))) eqn:Hs; [done|].
  destruct (datasetLoading st) eqn:Hl; [done|].
  exfalso. apply Hno. repeat split; [| |done].
  - intros H. apply JsStringFacts.falsy_spec in H. congruence.
  - intros H. apply JsStringFacts.falsy_spec in H. congruence.
Qed.

Lemma submit_open (st : State) (created : ChatTabSubmit.Settled Dataset) :
  submittable st →
  react st (Submit created)
  = match handleSubmit JsonValue JSON_parse (datasetForm st) with
    | Some payload =>
        handleDatasetSubmit JsonValue Dataset dataset_name st payload created
    | None => (st, [Alert "Dataset specification must be valid JSON."])
    end.
Proof.
  intros (Hn & Hs & Hl). unfold DatasetsTab.react. rewrite Hl.
  destruct (JsString.falsy (name (datasetForm st))) eqn:Hn'.
  { by apply JsStringFacts.falsy_spec in Hn'. }
  destruct (JsString.falsy (spec (datasetForm st))) eqn:Hs'.
  { by apply JsStringFacts.falsy_spec in Hs'. }
  done.
Qed.

(** X14. Submitting the dataset form. [createDataset] is called exactly
    when the form can be submitted (name and specification filled in, no
    registration under way) and the specification is read by [JSON.parse];
    the payload then holds the name and the kind of the form, the value
    read, and the description, left out when it is empty. When the form can
    be submitted and [JSON.parse] throws, the alert is shown and nothing
    else happens. A dataset is announced by [onDatasetCreated] only when
    [createDataset] resolved to it, and then the name and the description
    of the form are cleared; in every other case the form is left as it
    was. The kind and the specification are never changed by a submission,
    and no registration is left under way. *)
Theorem dataset_submission (st : State) (created : ChatTabSubmit.Settled Dataset) :
  let after := (react st (Submit created)).1 in
  let effects := (react st (Submit created)).2 in
  ((∃ payload, CreateDataset payload ∈ effects)
   ↔ submittable st ∧ is_Some (JSON_parse (spec (datasetForm st))))
  ∧ (∀ payload, CreateDataset payload ∈ effects →
       payload_name payload = name (datasetForm st)
       ∧ payload_kind payload = kind (datasetForm st)
       ∧ JSON_parse (spec (datasetForm st)) = Some (payload_spec payload)
       ∧ payload_description payload
         = (if decide (description (datasetForm st) = "") then None
            else Some (description (datasetForm st))))
  ∧ ((∃ message, Alert message ∈ effects)
     ↔ submittable st ∧ JSON_parse (spec (datasetForm st)) = None)
  ∧ (∀ dataset, OnDatasetCreated dataset ∈ effects →
       created = ChatTabSubmit.Fulfilled dataset
       ∧ name (datasetForm after) = "" ∧ description (datasetForm after) = "")
  ∧ ((∀ dataset, OnDatasetCreated dataset ∉ effects) →
       datasetForm after = datasetForm st)
  ∧ kind (datasetForm after) = kind (datasetForm st)
  ∧ spec (datasetForm after) = spec (datasetForm st)
  ∧ (datasetLoading st = false → datasetLoading after = false).
Proof.
  intros after effects. subst after effects.
  destruct (decide (submittable st)) as [Hyes | Hno]; last first.
  { rewrite (submit_blocked _ _ Hno). simpl. split_and!; try done.
    - split; [intros [? Hin]; members Hin | by intros [? _]].
    - intros ? Hin. members Hin.
    - split; [intros [? Hin]; members Hin | by intros [? _]].
    - intros ? Hin. members Hin. }
  rewrite (submit_open _ _ Hyes). unfold handleSubmit.
  destruct (JSON_parse (spec (datasetForm st))) as [v|] eqn:Hparse; last first.
  { simpl. split_and!; try done.
    - split; [intros [? Hin]; members Hin | by intros [_ [? ?]]].
    - intros ? Hin. members Hin.
    - split; [done|]. intros _. eexists. constructor.
    - intros ? Hin. members Hin. }
  assert (Hdesc : (if JsString.falsy (description (datasetForm st)) then None
                   else Some (description (datasetForm st)))
                  = (if decide (description (datasetForm st) = "") then None
                     else Some (description (datasetForm st)))).
  { destruct (description (datasetForm st)); [done|]. cbn [JsString.falsy].
    by destruct (decide _). }
  destruct created as [dataset | message]; simpl.
  - split_and!; try done.
    + split; [done|]. intros _. eexists. do 2 constructor 2. constructor 1.
    + intros payload Hin. members Hin. by injection Hin as ->.
    + split; [|by intros [_ ?]]. intros [? Hin]. members Hin.
    + intros d Hin. members Hin. by injection Hin as ->.
    + intros Hnone. exfalso. apply (Hnone dataset). do 3 constructor 2. constructor 1.
  - split_and!; try done.
    + split; [done|]. intros _. eexists. do 2 constructor 2. constructor 1.
    + intros payload Hin. members Hin. by injection Hin as ->.
    + split; [|by intros [_ ?]]. intros [? Hin]. members Hin.
    + intros d Hin. members Hin.
Qed.

(** What a form is after a click on a preset. *)
Lemma preset_form (st : State) (i : nat) (preset : Preset) :
  PRESET_DATASETS !! i = Some preset →
  datasetForm (react st (ClickPreset i)).1
  = {| name := preset_name preset; kind := preset_kind preset;
       spec := JSON_stringify (object (preset_spec preset));
       description := preset_description preset |}
  ∧ datasetLoading (react st (ClickPreset i)).1 = datasetLoading st.
Proof. intros Hi. unfold DatasetsTab.react. rewrite Hi. done. Qed.

Lemma preset_filled (preset : Preset) :
  preset ∈ PRESET_DATASETS → preset_name preset ≠ "" ∧ preset_description preset ≠ "".
Proof.
  unfold PRESET_DATASETS. rewrite !elem_of_cons, elem_of_nil.
  intros [->|[->|[->|[->|[]]]]]; done.
Qed.

(** X15. A preset goes through the form unchanged. When [JSON.parse] reads
    back what [JSON.stringify] prints for the specification of a preset, and
    throws on the empty text, then a click on the preset followed by a
    submission, with no registration under way, calls [createDataset] once,
    with the name, the kind, the specification and the description of the
    preset, whatever the form held before the click. *)
Theorem preset_round_trip (st : State) (i : nat) (preset : Preset)
    (created : ChatTabSubmit.Settled Dataset) :
  PRESET_DATASETS !! i = Some preset →
  JSON_parse (JSON_stringify (object (preset_spec preset))) = Some (object (preset_spec preset)) →
  JSON_parse "" = None →
  datasetLoading st = false →
  requests (react (react st (ClickPreset i)).1 (Submit created)).2
  = [{| payload_name := preset_name preset; payload_kind := preset_kind preset;
        payload_spec := object (preset_spec preset);
        payload_description := Some (preset_description preset) |}].
Proof.
  intros Hi Hround Hempty Hidle.
  destruct (preset_form st i preset Hi) as [Hform Hload].
  destruct (preset_filled preset) as [Hname Hdesc].
  { by eapply list_elem_of_lookup_2. }
  rewrite submit_open; last first.
  { unfold submittable. rewrite Hform, Hload. simpl. repeat split; [done| |done].
    intros Hs. rewrite Hs in Hround. congruence. }
  unfold handleSubmit. rewrite Hform. simpl. rewrite Hround.
  destruct (preset_description preset) eqn:Hd; [done|]. simpl.
  by destruct created.
Qed.

End tab.

(** The form on concrete inputs, with the plain JSON built-ins and datasets
    that are their names. *)
Definition plain_react :=
  DatasetsTab.react (list (string * string)) PlainJson.JSON_parse id PlainJson.JSON_stringify
    string id.

Definition new_tab : DatasetsTab.State := DatasetsTab.initial.

Example initial_spec_parses :
  PlainJson.JSON_parse (spec (datasetForm new_tab)) = Some [("repo", "allenai/tulu-3-sft-mixture")].
Proof. vm_compute. reflexivity. Qed.

Example presets_round_trip :
  Forall (λ preset, PlainJson.JSON_parse (PlainJson.JSON_stringify (preset_spec preset))
                    = Some (preset_spec preset)) PRESET_DATASETS.
Proof. repeat constructor. Qed.

Example fresh_form_is_blocked :
  plain_react new_tab (Submit (ChatTabSubmit.Fulfilled "d")) = (new_tab, []).
Proof. vm_compute. reflexivity. Qed.

Example broken_spec_alerts :
  (plain_react
     (plain_react new_tab
        (Change {| new_name := Some "mine"; new_kind := None;
                          new_spec := Some "{repo}"; new_description := None |})).1
     (Submit (ChatTabSubmit.Fulfilled "mine"))).2
  = [Alert "Dataset specification must be valid JSON."].
Proof. vm_compute. reflexivity. Qed.

Lemma preset_round_trip_witness :
  requests (list (string * string)) string
    (plain_react (plain_react new_tab (ClickPreset 2)).1
       (Submit (ChatTabSubmit.Rejected "offline"))).2
  = [{| payload_name := "local/chat-traces"; payload_kind := "local";
        payload_spec := [("path", "./data/chat_traces.jsonl")];
        payload_description := Some "Upload chat traces stored locally (JSONL)" |}].
Proof.
  apply (preset_round_trip (list (string * string)) PlainJson.JSON_parse id
           PlainJson.JSON_stringify string id new_tab 2
           {| preset_name := "local/chat-traces"; preset_kind := "local";
              preset_spec := [("path", "./data/chat_traces.jsonl")];
              preset_description := "Upload chat traces stored locally (JSONL)" |}).
  - reflexivity.
  - vm_compute. reflexivity.
  - reflexivity.
  - reflexivity.
Defined.

End DatasetFormFacts.

(** ** The models tab *)

Module ModelsTabPageFacts.
Import Models ModelsTabPage.

Ltac members H :=
  cbn [fst snd] in H; rewrite ?elem_of_cons, ?elem_of_nil in H; destruct_or?;
  try discriminate; try done.

Section tab.

Variable toLowerCase : string → string.
Variable trim : string → string.

Local Abbreviation render := (ModelsTabPage.render toLowerCase).
Local Abbreviation react := (ModelsTabPage.react toLowerCase trim).

Lemma shown_in_grid (supported : list SupportedModel) (registered : list RegisteredModel)
    (clear : bool) (n : nat) :
  let page := {| clearSearch := clear; badge := n;
                 body := Grid (ModelGrid.ModelGrid supported registered) |} in
  shownSupported page = supported ∧ shownRegistered page = registered.
Proof.
  unfold shownSupported, shownRegistered, ModelGrid.ModelGrid.
  destruct supported as [|m ms], registered as [|r rs]; cbn; by rewrite ?app_nil_r.
Qed.

Lemma shown_in_catalog (supported : list SupportedModel) (registered : list RegisteredModel)
    (searchTerm : string) (form : ModelCatalogPanel.ModelRegisterForm) (registering clear : bool)
    (n : nat) :
  let page := {| clearSearch := clear; badge := n;
                 body := Catalog (ModelCatalogPanel.ModelCatalog toLowerCase supported registered
                                    searchTerm form registering) |} in
  shownSupported page = ModelCatalog.filteredSupported toLowerCase supported searchTerm
  ∧ shownRegistered page = ModelCatalog.filteredRegistered toLowerCase registered searchTerm.
Proof.
  unfold shownSupported, shownRegistered, ModelCatalogPanel.ModelCatalog.
  destruct (ModelCatalog.filteredSupported toLowerCase supported searchTerm) as [|m ms],
    (ModelCatalog.filteredRegistered toLowerCase registered searchTerm) as [|r rs];
    cbn; by rewrite ?app_nil_r.
Qed.

(** The cards of the grid and the rows of the list are the same models. *)
Lemma shown_models (props : Props) (st : State) :
  shownSupported (render props st)
  = ModelsTab.filteredSupported toLowerCase (supportedModels props) (modelSearch st)
  ∧ shownRegistered (render props st)
    = ModelsTab.filteredRegistered toLowerCase (registeredModels props) (modelSearch st).
Proof.
  unfold ModelsTabPage.render. destruct (viewMode st).
  - apply shown_in_grid.
  - pose proof (ModelsFacts.listViewSupported_eq toLowerCase (supportedModels props)
                  (modelSearch st)) as Hs.
    pose proof (ModelsFacts.listViewRegistered_eq toLowerCase (registeredModels props)
                  (modelSearch st)) as Hr.
    unfold ModelCatalog.listViewSupported in Hs. unfold ModelCatalog.listViewRegistered in Hr.
    split.
    + etrans; [|exact Hs]. apply shown_in_catalog.
    + etrans; [|exact Hr]. apply shown_in_catalog.
Qed.

(** X16. The two views of the models tab show the same models. Whatever
    the view, the models that have a card or a row are those that the
    search of the tab keeps, in the same order, and the badge counts them.
    In the grid a section of cards is there only when it has a card, its
    count is the number of its cards, and the empty state is shown exactly
    when the badge is at zero; in the list the notice under the supported
    models, and the one under the registered models, is shown exactly when
    the rows above it are none. A click on Quick Start leaves the tab as it
    is, hands a model that is shown on the page to [onFineTunePrefill],
    with no dataset, and then opens the runs tab. *)
Theorem views_show_the_same_models (props : Props) (st : State) :
  let page := render props st in
  shownSupported page
    = ModelsTab.filteredSupported toLowerCase (supportedModels props) (modelSearch st)
  ∧ shownRegistered page
    = ModelsTab.filteredRegistered toLowerCase (registeredModels props) (modelSearch st)
  ∧ badge page = (length (shownSupported page) + length (shownRegistered page))%nat
  ∧ (∀ blocks, body page = Grid blocks →
       viewMode st = view_grid
       ∧ (ModelGrid.NoModelsFound ∈ blocks ↔ badge page = 0%nat)
       ∧ (∀ count cards, ModelGrid.BaseModels count cards ∈ blocks →
            count = length cards ∧ cards ≠ [])
       ∧ (∀ count cards, ModelGrid.CustomCheckpoints count cards ∈ blocks →
            count = length cards ∧ cards ≠ []))
  ∧ (∀ blocks, body page = Catalog blocks →
       viewMode st = view_list
       ∧ (ModelCatalogPanel.NoSupportedMatch ∈ blocks ↔ shownSupported page = [])
       ∧ (ModelCatalogPanel.NoRegisteredYet ∈ blocks ↔ shownRegistered page = []))
  ∧ (∀ e model datasetId,
       OnFineTunePrefill model datasetId ∈ (react props st e).2 →
       react props st e = (st, [OnFineTunePrefill model None; OnOpenRunsTab])
       ∧ datasetId = None
       ∧ match model with
         | inl supported => supported ∈ shownSupported page
         | inr registered => registered ∈ shownRegistered page
         end).
Proof.
  intros page. subst page.
  destruct (shown_models props st) as [Hs Hr].
  split; [done|]. split; [done|]. split.
  { rewrite Hs, Hr. done. }
  split; [|split].
  - intros blocks Hbody. unfold ModelsTabPage.render in *. simpl in *.
    destruct (viewMode st); [|done]. split; [done|]. injection Hbody as <-.
    unfold ModelGrid.ModelGrid.
    destruct (ModelsTab.filteredSupported toLowerCase (supportedModels props) (modelSearch st))
      as [|m ms],
      (ModelsTab.filteredRegistered toLowerCase (registeredModels props) (modelSearch st))
      as [|r rs]; cbn; split_and!.
    all: try (intros ? ? Hin; members Hin; by injection Hin as -> ->).
    all: split; [intros Hin; members Hin | intros ?; try done; try lia].
    constructor.
  - intros blocks Hbody. rewrite Hs, Hr. clear Hs Hr.
    unfold ModelsTabPage.render in *. simpl in *.
    destruct (viewMode st); [done|]. split; [done|]. injection Hbody as <-.
    pose proof (ModelsFacts.listViewSupported_eq toLowerCase (supportedModels props)
                  (modelSearch st)) as Hs.
    pose proof (ModelsFacts.listViewRegistered_eq toLowerCase (registeredModels props)
                  (modelSearch st)) as Hr.
    unfold ModelCatalog.listViewSupported in Hs. unfold ModelCatalog.listViewRegistered in Hr.
    unfold ModelCatalogPanel.ModelCatalog. rewrite Hs, Hr.
    destruct (ModelsTab.filteredSupported toLowerCase (supportedModels props) (modelSearch st))
      as [|m ms],
      (ModelsTab.filteredRegistered toLowerCase (registeredModels props) (modelSearch st))
      as [|r rs]; cbn; split_and!.
    all: split; [intros Hin; members Hin | intros ?; try done].
    all: do 4 (try (by constructor); constructor 2).
  - intros e model datasetId Hin.
    destruct e as [value| |mode|updater|registered|i|i]; unfold ModelsTabPage.react in *.
    + members Hin.
    + destruct (clearSearch _); members Hin.
    + members Hin.
    + destruct (viewMode st); members Hin.
    + destruct (viewMode st); [members Hin|].
      destruct (registeringModel st); [members Hin|].
      destruct (ModelCatalogPanel.handleRegisterSubmit _ _); [|members Hin].
      unfold handleRegisterModel in Hin. destruct registered; members Hin.
    + destruct (shownSupported _ !! i) as [supported|] eqn:Hi; [|members Hin].
      unfold handleFineTunePrefill in *. members Hin. injection Hin as -> ->.
      split; [done|]. split; [done|]. by eapply list_elem_of_lookup_2.
    + destruct (shownRegistered _ !! i) as [registered|] eqn:Hi; [|members Hin].
      unfold handleFineTunePrefill in *. members Hin. injection Hin as -> ->.
      split; [done|]. split; [done|]. by eapply list_elem_of_lookup_2.
Qed.

(** The form can be submitted: the list view is shown, where the form is,
    and no registration is under way. *)
Definition submittable (st : State) : Prop :=
  viewMode st = view_list ∧ registeringModel st = false.

(** Both required fields hold more than white space. *)
Definition filled (st : State) : Prop :=
  trim (ModelCatalogPanel.name (registerModelForm st)) ≠ ""
  ∧ trim (ModelCatalogPanel.base_model (registerModelForm st)) ≠ "".

Lemma handleRegisterSubmit_filled (st : State) :
  filled st →
  ModelCatalogPanel.handleRegisterSubmit trim (registerModelForm st)
  = Some (registerModelForm st).
Proof.
  intros [Hn Hb]. unfold ModelCatalogPanel.handleRegisterSubmit.
  destruct (JsString.falsy (trim (ModelCatalogPanel.name _))) eqn:Hn'.
  { by apply JsStringFacts.falsy_spec in Hn'. }
  destruct (JsString.falsy (trim (ModelCatalogPanel.base_model _))) eqn:Hb'.
  { by apply JsStringFacts.falsy_spec in Hb'. }
  done.
Qed.

Lemma handleRegisterSubmit_missing (st : State) :
  ¬ filled st →
  ModelCatalogPanel.handleRegisterSubmit trim (registerModelForm st) = None.
Proof.
  intros Hno. unfold ModelCatalogPanel.handleRegisterSubmit.
  destruct (JsString.falsy (trim (ModelCatalogPanel.name _))) eqn:Hn'; [done|].
  destruct (JsString.falsy (trim (ModelCatalogPanel.base_model _))) eqn:Hb'; [done|].
  exfalso. apply Hno. split; intros H; apply JsStringFacts.falsy_spec in H; congruence.
Qed.

Lemma submit_unavailable (props : Props) (st : State) (registered : ChatTabSubmit.Settled unit) :
  ¬ submittable st → react props st (RegisterSubmit registered) = (st, []).
Proof.
  intros Hno. unfold ModelsTabPage.react.
  destruct (viewMode st) eqn:Hv; [done|].
  destruct (registeringModel st) eqn:Hr; [done|].
  exfalso. by apply Hno.
Qed.

Lemma or_undefined_spec (s : string) :
  or_undefined s = if decide (s = "") then None else Some s.
Proof. destruct s; [done|]. unfold or_undefined. cbn [JsString.falsy]. by destruct (decide _). Qed.

(** X17. Registering a checkpoint. [registerModel] is called exactly when
    the form is submitted in the list view, with no registration under way,
    and the name and the base model hold more than white space; the payload
    holds the name and the base model as they were typed, not trimmed, the
    path and the description, each left out when it is empty, and an empty
    [meta]. When the form is submitted and one of the two required fields
    is blank, the alert is shown and nothing else happens. The form is
    emptied exactly when [registerModel] was called and resolved; in every
    other case nothing of the form is lost. A submission never changes the
    search nor the view, and leaves no registration under way. *)
Theorem checkpoint_registration (props : Props) (st : State)
    (registered : ChatTabSubmit.Settled unit) :
  let after := (react props st (RegisterSubmit registered)).1 in
  let effects := (react props st (RegisterSubmit registered)).2 in
  let form := registerModelForm st in
  ((∃ payload, RegisterModel payload ∈ effects) ↔ submittable st ∧ filled st)
  ∧ (∀ payload, RegisterModel payload ∈ effects →
       payload_name payload = ModelCatalogPanel.name form
       ∧ payload_base_model payload = ModelCatalogPanel.base_model form
       ∧ payload_tinker_path payload
         = (if decide (ModelCatalogPanel.tinker_path form = "") then None
            else Some (ModelCatalogPanel.tinker_path form))
       ∧ payload_description payload
         = (if decide (ModelCatalogPanel.description form = "") then None
            else Some (ModelCatalogPanel.description form))
       ∧ payload_meta payload = [])
  ∧ ((∃ message, Alert message ∈ effects) ↔ submittable st ∧ ¬ filled st)
  ∧ (submittable st → filled st → (∃ result, registered = ChatTabSubmit.Fulfilled result) →
       registerModelForm after = blank)
  ∧ (¬ (submittable st ∧ filled st ∧ ∃ result, registered = ChatTabSubmit.Fulfilled result) →
       registerModelForm after = form)
  ∧ modelSearch after = modelSearch st
  ∧ viewMode after = viewMode st
  ∧ (registeringModel st = false → registeringModel after = false).
Proof.
  intros after effects form. subst after effects form.
  destruct (decide (submittable st)) as [[Hview Hidle] | Hno]; last first.
  { rewrite (submit_unavailable _ _ _ Hno). simpl. split_and!; try done.
    - split; [intros [? Hin]; members Hin | by intros [? _]].
    - intros ? Hin. members Hin.
    - split; [intros [? Hin]; members Hin | by intros [? _]]. }
  unfold ModelsTabPage.react. rewrite Hview, Hidle.
  destruct (decide (filled st)) as [Hfilled | Hblank]; last first.
  { rewrite (handleRegisterSubmit_missing _ Hblank). simpl. split_and!; try done.
    - split; [intros [? Hin]; members Hin | by intros [_ ?]].
    - intros ? Hin. members Hin.
    - split; [done|]. intros _. eexists. constructor. }
  rewrite (handleRegisterSubmit_filled _ Hfilled). unfold handleRegisterModel.
  destruct registered as [[] | message]; simpl.
  - split_and!; try done.
    + split; [done|]. intros _. eexists. do 2 constructor 2. constructor 1.
    + intros payload Hin. members Hin. injection Hin as ->. simpl.
      by rewrite !or_undefined_spec.
    + split; [|by intros [_ ?]]. intros [? Hin]. members Hin.
    + intros Hnot. exfalso. apply Hnot. split_and!; try done. by exists ().
  - split_and!; try done.
    + split; [done|]. intros _. eexists. do 2 constructor 2. constructor 1.
    + intros payload Hin. members Hin. injection Hin as ->. simpl.
      by rewrite !or_undefined_spec.
    + split; [|by intros [_ ?]]. intros [? Hin]. members Hin.
    + intros _ _ [? ?]. done.
Qed.

(** What was typed in the form is kept while the list view is left, the
    search edited or Quick Start clicked. *)
Lemma form_kept (props : Props) (st : State) (e : Event) :
  (∀ updater, e ≠ RegisterChange updater) → (∀ registered, e ≠ RegisterSubmit registered) →
  registerModelForm (react props st e).1 = registerModelForm st.
Proof.
  intros Hchange Hsubmit. destruct e; simpl; try done.
  - by destruct (negb _).
  - by destruct (Hchange updater).
  - by destruct (Hsubmit registered).
  - by destruct (_ !! i).
  - by destruct (_ !! i).
Qed.

End tab.

(** The tab on a concrete catalog. *)
Definition catalog : Props := {|
  modelCatalog := Some {|
    supported_models := [ModelsFacts.llama; ModelsFacts.qwen; ModelsFacts.llama_small];
    registered_models :=
      [{| registered_id := 4; name := "team/llama-tuned";
          base_model := "meta-llama/Llama-3.2-3B"; tinker_path := None;
          description := None |}];
  |}
|}.

Definition plain_run := ModelsTabPage.run JsString.ascii_lower PlainBuiltins.trim catalog.
Definition plain_render := ModelsTabPage.render JsString.ascii_lower catalog.

Example badge_counts_matches :
  badge (plain_render (plain_run initial [Search "LLAMA"]).1) = 3%nat
  ∧ badge (plain_render (plain_run initial [Search "LLAMA"; SetViewMode view_list]).1) = 3%nat
  ∧ badge (plain_render (plain_run initial [Search "mistral"]).1) = 0%nat
  ∧ body (plain_render (plain_run initial [Search "mistral"]).1) = Grid [ModelGrid.NoModelsFound].
Proof. vm_compute. done. Qed.

Example register_needs_list_view :
  (plain_run initial
     [RegisterChange {| ModelCatalogPanel.new_name := Some "mine";
                        ModelCatalogPanel.new_base_model := None;
                        ModelCatalogPanel.new_tinker_path := None;
                        ModelCatalogPanel.new_description := None |};
      RegisterSubmit (ChatTabSubmit.Fulfilled ())]).2 = [].
Proof. vm_compute. done. Qed.

Example register_trims_only_the_check :
  (plain_run initial
     [SetViewMode view_list;
      RegisterChange {| ModelCatalogPanel.new_name := Some " mine ";
                        ModelCatalogPanel.new_base_model := Some "Qwen/Qwen3-8B-Base";
                        ModelCatalogPanel.new_tinker_path := None;
                        ModelCatalogPanel.new_description := None |};
      SetViewMode view_grid; SetViewMode view_list;
      RegisterSubmit (ChatTabSubmit.Rejected "offline");
      RegisterSubmit (ChatTabSubmit.Fulfilled ());
      RegisterSubmit (ChatTabSubmit.Fulfilled ())]).2
  = let payload := {| payload_name := " mine "; payload_base_model := "Qwen/Qwen3-8B-Base";
                      payload_tinker_path := None; payload_description := None;
                      payload_meta := [] |} in
    [OnError ""; OnSuccess ""; RegisterModel payload; OnError "offline";
     OnError ""; OnSuccess ""; RegisterModel payload;
     OnSuccess ("Model " +:+ DatasetManager.quoted " mine " +:+ " registered.");
     Alert "Model name and base model are required."].
Proof. vm_compute. done. Qed.

End ModelsTabPageFacts.

(** ** The top bar *)

Module TopBarFacts.
Import TopBar.

Ltac members H :=
  cbn [fst snd] in H; rewrite ?elem_of_cons, ?elem_of_nil in H; destruct_or?;
  try discriminate; try done.

Section bar.

Variable Number_toString : Z → string.
Variable Number : string → option Z.
Variable trim : string → string.

Local Abbreviation react := (TopBar.react Number_toString Number trim).
Local Abbreviation run := (TopBar.run Number_toString Number trim).

(** The button that creates the project can be clicked: the dialog is
    open, no creation is under way and the name holds more than white
    space. *)
Definition creatable (st : State) : Prop :=
  isCreateDialogOpen st = true ∧ isCreating st = false ∧ trim (newProjectName st) ≠ "".

Lemma create_unavailable (props : Props) (st : State) (created : ChatTabSubmit.Settled Project) :
  ¬ creatable st → react props st (ClickCreate created) = (st, []).
Proof.
  intros Hno. unfold TopBar.react, createDisabled.
  destruct (isCreateDialogOpen st) eqn:Ho; [|done].
  destruct (isCreating st) eqn:Hc; [done|].
  destruct (JsString.falsy (trim (newProjectName st))) eqn:Hn; [done|].
  exfalso. apply Hno. split_and!; try done.
  intros H. apply JsStringFacts.falsy_spec in H. congruence.
Qed.

Lemma create_available (props : Props) (st : State) (created : ChatTabSubmit.Settled Project) :
  creatable st →
  react props st (ClickCreate created)
  = let payload := {|
      payload_name := trim (newProjectName st);
      payload_description :=
        if decide (trim (newProjectDescription st) = "") then None
        else Some (trim (newProjectDescription st)) |} in
    match created with
    | ChatTabSubmit.Fulfilled project =>
        (initial,
         CreateProject payload
         :: (if onProjectCreated props then [OnProjectCreated project] else []))
    | ChatTabSubmit.Rejected message =>
        (st, CreateProject payload :: (if onError props then [OnError message] else []))
    end.
Proof.
  intros (Ho & Hc & Hn). unfold TopBar.react, createDisabled, handleCreateProject.
  rewrite Ho, Hc.
  destruct (JsString.falsy (trim (newProjectName st))) eqn:Hn'.
  { by apply JsStringFacts.falsy_spec in Hn'. }
  cbn [negb orb andb].
  assert (Hdesc : (if JsString.falsy (trim (newProjectDescription st)) then None
                   else Some (trim (newProjectDescription st)))
                  = (if decide (trim (newProjectDescription st) = "") then None
                     else Some (trim (newProjectDescription st)))).
  { destruct (trim (newProjectDescription st)); [done|]. cbn [JsString.falsy].
    by destruct (decide _). }
  rewrite Hdesc. destruct created; [done|].
  destruct st; simpl in *. by subst.
Qed.

(** X18. Creating a project from the top bar. [createProject] is called
    exactly when Create Project is clicked with the dialog open, no
    creation under way and a name that holds more than white space; the
    payload holds the name trimmed, and the description trimmed, left out
    when nothing remains of it. When the creation succeeds the bar is as it
    was at first, the dialog closed and both fields empty, and the project
    is handed to [onProjectCreated] when that callback is given; when it
    fails the dialog stays open with what was typed, and the message goes
    to [onError] when that callback is given. A click that does not reach
    [createProject] changes nothing and calls nothing. *)
Theorem project_creation (props : Props) (st : State) (created : ChatTabSubmit.Settled Project) :
  let after := (react props st (ClickCreate created)).1 in
  let effects := (react props st (ClickCreate created)).2 in
  ((∃ payload, CreateProject payload ∈ effects) ↔ creatable st)
  ∧ (∀ payload, CreateProject payload ∈ effects →
       payload_name payload = trim (newProjectName st)
       ∧ payload_description payload
         = (if decide (trim (newProjectDescription st) = "") then None
            else Some (trim (newProjectDescription st))))
  ∧ (¬ creatable st → after = st ∧ effects = [])
  ∧ (∀ project, creatable st → created = ChatTabSubmit.Fulfilled project →
       after = initial
       ∧ (OnProjectCreated project ∈ effects ↔ onProjectCreated props = true)
       ∧ (∀ message, OnError message ∉ effects))
  ∧ (∀ message, creatable st → created = ChatTabSubmit.Rejected message →
       after = st
       ∧ (OnError message ∈ effects ↔ onError props = true)
       ∧ (∀ project, OnProjectCreated project ∉ effects)).
Proof.
  intros after effects. subst after effects.
  destruct (decide (creatable st)) as [Hyes | Hno]; last first.
  { rewrite (create_unavailable _ _ _ Hno). simpl. split_and!; try done.
    - split; [intros [? Hin]; members Hin | done].
    - intros ? Hin. members Hin. }
  rewrite (create_available _ _ _ Hyes). cbv zeta.
  destruct created as [project | message]; simpl.
  - split_and!; try done.
    + split; [done|]. intros _. eexists. constructor.
    + intros payload Hin. destruct (onProjectCreated props); members Hin; by injection Hin as ->.
    + intros ? _ [= <-]. split; [done|]. split.
      * destruct (onProjectCreated props); split; try done.
        -- intros _. constructor 2. constructor.
        -- intros Hin. members Hin.
      * intros ? Hin. destruct (onProjectCreated props); members Hin.
  - split_and!; try done.
    + split; [done|]. intros _. eexists. constructor.
    + intros payload Hin. destruct (onError props); members Hin; by injection Hin as ->.
    + intros ? _ [= <-]. split; [done|]. split.
      * destruct (onError props); split; try done.
        -- intros _. constructor 2. constructor.
        -- intros Hin. members Hin.
      * intros ? Hin. destruct (onError props); members Hin.
Qed.

(** X19. Choosing a project in the top bar. When [Number] reads back what
    [String] prints for the identifiers of the projects, the select
    reporting the value of one of its items hands the identifier of the
    project of that item to [onSelectProject], and does nothing else; the
    select shows no value when no project is selected or the selected
    identifier is [0], and otherwise the text of the selected
    identifier. *)
Theorem project_selection (props : Props) (st : State) (i : nat) (project : Project) :
  (∀ p, p ∈ projects props → Number (Number_toString (id p)) = Some (id p)) →
  projects props !! i = Some project →
  react props st (ValueChange i) = (st, [OnSelectProject (id project)])
  ∧ selectDisabled props = false
  ∧ (selectValue Number_toString props = None
     ↔ selectedProjectId props = None ∨ selectedProjectId props = Some 0%Z)
  ∧ (∀ value, selectValue Number_toString props = Some value →
       ∃ projectId, selectedProjectId props = Some projectId ∧ projectId ≠ 0%Z
                    ∧ value = Number_toString projectId).
Proof.
  intros Hround Hi. split_and!.
  - unfold TopBar.react, selectDisabled, itemValues, onValueChange.
    rewrite bool_decide_eq_false_2; last first.
    { apply lookup_lt_Some in Hi. lia. }
    rewrite list_lookup_fmap, Hi. simpl. rewrite Hround; [done|].
    by eapply list_elem_of_lookup_2.
  - unfold selectDisabled. apply bool_decide_eq_false_2.
    apply lookup_lt_Some in Hi. lia.
  - unfold selectValue. destruct (selectedProjectId props) as [projectId|]; [|by split; [left|]].
    case_bool_decide as Hzero.
    + subst projectId. by split; [right|].
    + split; [done|]. intros [Hnone | [= Hsome]]; done.
  - intros value. unfold selectValue.
    destruct (selectedProjectId props) as [projectId|]; [|done].
    case_bool_decide; [done|]. intros [= <-]. by exists projectId.
Qed.

(** What was typed in the dialog is kept when the dialog is closed and
    opened again. *)
Lemma cancel_keeps_fields (props : Props) (st : State) :
  let after := (run props st [ClickCancel; OpenChange true]).1 in
  newProjectName after = newProjectName st
  ∧ newProjectDescription after = newProjectDescription st.
Proof. simpl. by destruct (isCreateDialogOpen st). Qed.

End bar.

(** The bar on concrete projects, with decimal identifiers. *)
Definition decimal_Number (s : string) : option Z :=
  match PlainBuiltins.parseInt s with
  | InlineTrainingWizard.Int n => if decide (JsString.decimal n = s) then Some n else None
  | InlineTrainingWizard.NaN => None
  end.

Definition two_projects : Props := {|
  projects := [{| id := 3; name := "demo" |}; {| id := 12; name := "math" |}];
  selectedProjectId := Some 3%Z;
  onProjectCreated := true;
  onError := false;
|}.

Definition plain_run := TopBar.run JsString.decimal decimal_Number PlainBuiltins.trim two_projects.

Example create_then_blank :
  plain_run initial
    [ClickCreate (ChatTabSubmit.Fulfilled {| id := 13; name := "x" |});
     OpenChange true; EditName "  vision "; EditDescription "   ";
     ClickCreate (ChatTabSubmit.Rejected "offline");
     ClickCreate (ChatTabSubmit.Fulfilled {| id := 13; name := "vision" |});
     ClickCreate (ChatTabSubmit.Fulfilled {| id := 14; name := "vision" |})]
  = (initial,
     [CreateProject {| payload_name := "vision"; payload_description := None |};
      CreateProject {| payload_name := "vision"; payload_description := None |};
      OnProjectCreated {| id := 13; name := "vision" |}]).
Proof. vm_compute. done. Qed.

Lemma project_selection_witness :
  TopBar.react JsString.decimal decimal_Number PlainBuiltins.trim two_projects initial
    (ValueChange 1)
  = (initial, [OnSelectProject 12]).
Proof.
  refine (proj1 (project_selection JsString.decimal decimal_Number PlainBuiltins.trim
                   two_projects initial 1 {| id := 12; name := "math" |} _ _)).
  - intros p Hp. unfold two_projects in Hp. simpl in Hp.
    rewrite !elem_of_cons, elem_of_nil in Hp.
    destruct Hp as [-> | [-> | []]]; vm_compute; reflexivity.
  - reflexivity.
Defined.

End TopBarFacts.

(** ** The hyperparameter calculator *)

Module HyperparamCalculatorFacts.
Import HyperparamCalculator.

Ltac members H :=
  cbn [fst snd] in H; rewrite ?elem_of_cons, ?elem_of_nil in H; destruct_or?;
  try discriminate; try done.

Section calculator.

Variable HyperparamResponse : Type.
Variable HyperparamRecommendations : Type.
Variable recommendations_of : HyperparamResponse → HyperparamRecommendations.

Local Abbreviation Calculator := (HyperparamCalculator.Calculator HyperparamResponse).
Local Abbreviation Event := (HyperparamCalculator.Event HyperparamResponse).
Local Abbreviation react :=
  (HyperparamCalculator.react HyperparamResponse HyperparamRecommendations recommendations_of).
Local Abbreviation run :=
  (HyperparamCalculator.run HyperparamResponse HyperparamRecommendations recommendations_of).

(** What one event does to the recommendations that the card shows. *)
Lemma react_recommendations (c : Calculator) (e : Event) (data : HyperparamResponse) :
  recommendations (state (react c e).1) = Some data →
  recommendations (state c) = Some data ∨ e = ClickCalculate (Calculated data).
Proof.
  destruct e as [p|outcome|]; simpl.
  - by left.
  - destruct (calculateDisabled _ _) eqn:Hd; [by left|].
    unfold calculateDisabled in Hd. apply orb_false_elim in Hd as [_ Hm].
    unfold calculateRecommendations. rewrite Hm.
    destruct outcome; simpl; [|by left..]. intros [= ->]. by right.
  - destruct (recommendations (state c)) eqn:Hrec; simpl; rewrite ?Hrec; by left.
Qed.

Lemma react_effects (c : Calculator) (e : Event) :
  (∀ request, Fetch request ∈ (react c e).2 →
     (∃ outcome, e = ClickCalculate outcome) ∧ loading (state c) = false
     ∧ model_name request = modelName (props c) ∧ model_name request ≠ ""
     ∧ recipe_type request = recipeType (props c) ∧ lora_rank request = loraRank (props c))
  ∧ (∀ values, OnApply values ∈ (react c e).2 →
       e = ClickApply
       ∧ ∃ data, recommendations (state c) = Some data ∧ values = recommendations_of data).
Proof.
  destruct e as [p|outcome|]; simpl.
  - split; intros ? Hin; members Hin.
  - destruct (calculateDisabled _ _) eqn:Hd; [split; intros ? Hin; members Hin|].
    unfold calculateDisabled in Hd. apply orb_false_elim in Hd as [Hl Hm].
    unfold calculateRecommendations. rewrite Hm.
    assert (Hname : modelName (props c) ≠ "").
    { intros H. apply JsStringFacts.falsy_spec in H. congruence. }
    destruct outcome; simpl; split; intros ? Hin; members Hin.
    all: injection Hin as ->; split_and!; try done; by eexists.
  - destruct (recommendations (state c)) as [data|]; split; intros ? Hin; members Hin.
    injection Hin as ->. split; [done|]. by exists data.
Qed.

Lemma run_app (c : Calculator) (events events' : list Event) :
  run c (events ++ events')
  = let (c', effects) := run c events in
    let (c'', effects') := run c' events' in
    (c'', effects ++ effects').
Proof.
  revert c. induction events as [|e events IH]; intros c; simpl.
  - by destruct (run c events').
  - destruct (react c e) as [c1 effects1]. rewrite IH.
    destruct (run c1 events) as [c2 effects2]. destruct (run c2 events') as [c3 effects3].
    by rewrite app_assoc.
Qed.

(** The recommendations on the card are those of an earlier calculation
    that succeeded, or were there from the start. *)
Lemma run_recommendations (c : Calculator) (events : list Event) (data : HyperparamResponse) :
  recommendations (state (run c events).1) = Some data →
  recommendations (state c) = Some data ∨ ClickCalculate (Calculated data) ∈ events.
Proof.
  revert c. induction events as [|e events IH]; intros c; simpl; [by left|].
  destruct (react c e) as [c1 effects1] eqn:Hreact.
  destruct (run c1 events) as [c2 effects2] eqn:Hrun. simpl. intros Hdata.
  specialize (IH c1). rewrite Hrun in IH. destruct (IH Hdata) as [Hc1 | Hin].
  - pose proof (react_recommendations c e data) as Hstep. rewrite Hreact in Hstep.
    destruct (Hstep Hc1) as [? | ->]; [by left|]. right. constructor.
  - right. by constructor.
Qed.

(** Every request names a model. *)
Lemma run_requests (c : Calculator) (events : list Event) (request : Request) :
  Fetch request ∈ (run c events).2 → model_name request ≠ "".
Proof.
  revert c. induction events as [|e events IH]; intros c; simpl; [intros Hin; members Hin|].
  destruct (react c e) as [c1 effects1] eqn:Hreact.
  destruct (run c1 events) as [c2 effects2] eqn:Hrun. simpl.
  rewrite elem_of_app. intros [Hin | Hin].
  - pose proof (react_effects c e) as [Hstep _]. rewrite Hreact in Hstep.
    by destruct (Hstep request Hin) as (_ & _ & _ & ? & _).
  - specialize (IH c1). rewrite Hrun in IH. by apply IH.
Qed.

(** Every value applied was calculated before, when the card was not
    there at the start. *)
Lemma run_applies (c : Calculator) (events : list Event) (values : HyperparamRecommendations) :
  recommendations (state c) = None →
  OnApply values ∈ (run c events).2 →
  ∃ data before after,
    events = before ++ ClickCalculate (Calculated data) :: after
    ∧ ClickApply ∈ after ∧ values = recommendations_of data.
Proof.
  intros Hnone.
  induction events as [|e events IH] using rev_ind; [intros Hin; members Hin|].
  rewrite run_app. destruct (run c events) as [c1 effects1] eqn:Hrun. simpl.
  destruct (react c1 e) as [c2 effects2] eqn:Hreact. simpl.
  rewrite app_nil_r, elem_of_app. intros [Hin | Hin].
  - destruct (IH Hin) as (data & before & after & -> & Happly & ->).
    exists data, before, (after ++ [e]). split_and!; [|apply elem_of_app; by left|done].
    by rewrite <- app_assoc.
  - pose proof (react_effects c1 e) as [_ Hstep]. rewrite Hreact in Hstep.
    destruct (Hstep values Hin) as (-> & data & Hdata & ->).
    pose proof (run_recommendations c events data) as Hrec. rewrite Hrun in Hrec.
    destruct (Hrec Hdata) as [Hinit | Hin']; [congruence|].
    apply list_elem_of_split in Hin' as (before & after & ->).
    exists data, before, (after ++ [ClickApply]). split_and!; [|apply elem_of_app; right; constructor|done].
    by rewrite <- app_assoc.
Qed.

(** X20. The hyperparameter calculator. Over any sequence of events after
    mounting: every value handed to [onApply] is the [recommendations]
    field of a response that an earlier click on the button that
    calculates received with an ok status; every request sent names a
    model, the one of the props at the click, which is not empty; and a
    calculation that fails leaves the recommendations shown before where
    they were, so that the card of an earlier success stays next to the
    alert. *)
Theorem calculator_applies_backend_values (p : Props) (events : list Event) :
  (∀ values, OnApply values ∈ (run (mount p) events).2 →
     ∃ data before after,
       events = before ++ ClickCalculate (Calculated data) :: after
       ∧ ClickApply ∈ after ∧ values = recommendations_of data)
  ∧ (∀ request, Fetch request ∈ (run (mount p) events).2 → model_name request ≠ "")
  ∧ (∀ c outcome, (∀ data, outcome ≠ Calculated data) →
       recommendations (state (react c (ClickCalculate outcome)).1) = recommendations (state c)
       ∧ showsCard (state (react c (ClickCalculate outcome)).1) = showsCard (state c)).
Proof.
  split; [|split].
  - intros values. apply run_applies. done.
  - intros request. apply run_requests.
  - intros c outcome Hfail. simpl.
    destruct (calculateDisabled _ _) eqn:Hd; [done|].
    unfold calculateDisabled in Hd. apply orb_false_elim in Hd as [_ Hm].
    unfold calculateRecommendations. rewrite Hm.
    destruct outcome; simpl; try done. by destruct (Hfail data).
Qed.

End calculator.

(** The calculator on concrete events, with responses that are their
    recommendations. *)
Definition qwen_sft : Props :=
  {| modelName := "Qwen/Qwen3-8B-Base"; recipeType := "sft"; loraRank := None |}.
Definition llama_sft : Props :=
  {| modelName := "meta-llama/Llama-3.1-8B"; recipeType := "sft"; loraRank := Some 32%Z |}.

Example card_stays_next_to_alert :
  let result :=
    HyperparamCalculator.run Z Z id (mount qwen_sft)
      [ClickApply; ClickCalculate (Calculated 64%Z); PropsChanged llama_sft;
       ClickCalculate (Refused ""); ClickApply] in
  result.2
  = [Fetch {| model_name := "Qwen/Qwen3-8B-Base"; recipe_type := "sft"; lora_rank := None |};
     Fetch {| model_name := "meta-llama/Llama-3.1-8B"; recipe_type := "sft";
              lora_rank := Some 32%Z |};
     OnApply 64%Z]
  ∧ showsCard (state result.1) = true
  ∧ error (state result.1) = Some "Failed to calculate hyperparameters"
  ∧ showsAlert (state result.1) = true.
Proof. vm_compute. done. Qed.

Example no_model_no_request :
  HyperparamCalculator.run Z Z id
    (mount {| modelName := ""; recipeType := "sft"; loraRank := None |})
    [ClickCalculate (Calculated 64%Z); ClickApply]
  = (mount {| modelName := ""; recipeType := "sft"; loraRank := None |}, []).
Proof. vm_compute. done. Qed.

End HyperparamCalculatorFacts.

(** ** Checkpoint manager: step order *)

Module CheckpointOrderFacts.
Import CheckpointManager.

Lemma of_run_app (run : RunId) (σ1 σ2 : Store) :
  of_run run (σ1 ++ σ2) = of_run run σ1 ++ of_run run σ2.
Proof. apply filter_app. Qed.

Lemma of_run_owner (run : RunId) (σ : Store) (c : Checkpoint) :
  c ∈ of_run run σ ↔ c ∈ σ ∧ owner c = run.
Proof. unfold of_run. rewrite list_elem_of_filter. tauto. Qed.

(** [max_step] is the greatest step among the run's checkpoints. *)
Lemma max_step_None (run : RunId) (σ : Store) :
  max_step run σ = None ↔ of_run run σ = [].
Proof. unfold max_step. by destruct (of_run run σ). Qed.

Lemma max_step_Some (run : RunId) (σ : Store) (m : Z) :
  max_step run σ = Some m →
  (∃ c, c ∈ of_run run σ ∧ step c = m) ∧
  (∀ c, c ∈ of_run run σ → (step c ≤ m)%Z).
Proof.
  unfold max_step. generalize (of_run run σ) as l. intros l. revert m.
  induction l as [|c l IH]; intros m; simpl; [done|].
  intros [= <-].
  destruct (foldr _ None l) as [m'|] eqn:Hrest; simpl.
  - destruct (IH m' eq_refl) as [[c' [Hc' Hs]] Hub]. split.
    + destruct (Z.max_spec (step c) m') as [[_ ->] | [_ ->]].
      * exists c'. split; [by apply list_elem_of_further | done].
      * exists c. split; [apply list_elem_of_here | done].
    + intros c0 [-> | Hin]%elem_of_cons; [lia|].
      specialize (Hub c0 Hin). lia.
  - split.
    + exists c. split; [apply list_elem_of_here | done].
    + intros c0 [-> | Hin]%elem_of_cons; [lia|].
      destruct l; [by apply elem_of_nil in Hin | done].
Qed.

(** What [register] answers, by cases on the run's current maximum. *)
Lemma register_reject (σ : Store) (run : RunId) (s m : Z) (ref : string)
    (ms : gmap string Q) (fin : bool) :
  max_step run σ = Some m → (s ≤ m)%Z →
  register σ run s ref ms fin = (σ, inl InvalidStepOrder).
Proof.
  intros Hm Hle. unfold register. rewrite Hm.
  by destruct (Z.leb_spec s m); [|lia].
Qed.

Lemma register_accept (σ : Store) (run : RunId) (s : Z) (ref : string)
    (ms : gmap string Q) (fin : bool) :
  (∀ m, max_step run σ = Some m → (m < s)%Z) →
  ∃ c, register σ run s ref ms fin = (σ ++ [c], inr c) ∧
       owner c = run ∧ step c = s ∧ storageRef c = ref ∧ metrics c = ms ∧ isFinal c = fin.
Proof.
  intros Hgt. unfold register. destruct (max_step run σ) as [m|].
  - specialize (Hgt m eq_refl). destruct (Z.leb_spec s m); [lia|]. by eexists.
  - by eexists.
Qed.

Lemma register_cases (σ : Store) (run : RunId) (s : Z) (ref : string)
    (ms : gmap string Q) (fin : bool) :
  (register σ run s ref ms fin = (σ, inl InvalidStepOrder) ∧
   ∃ m, max_step run σ = Some m ∧ (s ≤ m)%Z) ∨
  (∃ c, register σ run s ref ms fin = (σ ++ [c], inr c) ∧ owner c = run ∧ step c = s ∧
        ∀ m, max_step run σ = Some m → (m < s)%Z).
Proof.
  destruct (max_step run σ) as [m|] eqn:Hm.
  - destruct (Z.le_gt_cases s m).
    + left. split; [by eapply register_reject | by exists m].
    + right. destruct (register_accept σ run s ref ms fin) as (c & Hc & Ho & Hs & _).
      { rewrite Hm. intros ? [= <-]. done. }
      exists c. repeat split; try done. by intros ? [= <-].
  - right. destruct (register_accept σ run s ref ms fin) as (c & Hc & Ho & Hs & _).
    { by rewrite Hm. }
    exists c. by repeat split.
Qed.

(** The invariant: the steps of every run increase strictly in registration
    order. *)
Definition ordered (σ : Store) : Prop :=
  ∀ run, StronglySorted Z.lt (step <$> of_run run σ).

Lemma ordered_empty : ordered [].
Proof. intros run. constructor. Qed.

Lemma register_ordered (σ : Store) (run : RunId) (s : Z) (ref : string)
    (ms : gmap string Q) (fin : bool) :
  ordered σ → ordered (register σ run s ref ms fin).1.
Proof.
  intros Hord.
  destruct (register_cases σ run s ref ms fin) as [[-> _] | (c & -> & Ho & Hs & Hgt)]; [done|].
  simpl. intros run'. rewrite of_run_app, fmap_app.
  apply StronglySorted_app_2; [| apply Hord |].
  - intros x y Hx Hy.
    apply list_elem_of_fmap in Hx as (cx & -> & Hcx).
    apply list_elem_of_fmap in Hy as (cy & -> & Hcy).
    apply of_run_owner in Hcy as [Hcy Hoy].
    apply list_elem_of_singleton in Hcy as ->. rewrite Ho in Hoy. subst run'.
    destruct (max_step run σ) as [m|] eqn:Hm.
    + destruct (max_step_Some _ _ _ Hm) as [_ Hub].
      specialize (Hub cx Hcx). specialize (Hgt m eq_refl). simpl. lia.
    + apply max_step_None in Hm. rewrite Hm in Hcx. by apply elem_of_nil in Hcx.
  - unfold of_run. rewrite (filter_cons (λ c0 : Checkpoint, owner c0 = run')), filter_nil.
    case_decide; simpl; repeat constructor.
Qed.

Lemma serve_all_ordered (σ : Store) (qs : list Request) :
  ordered σ → ordered (serve_all σ qs).
Proof.
  revert σ. induction qs as [|q qs IH]; intros σ Hord; simpl; [done|].
  apply IH. by apply register_ordered.
Qed.

End CheckpointOrderFacts.

(** C2. Along any sequence of [register] calls, the steps of the
    checkpoints of every run increase strictly in registration order; the
    current maximum is the greatest registered step of the run; a call whose
    step is not strictly greater than it fails with [InvalidStepOrder] and
    leaves the store unchanged, while a call whose step is strictly greater
    (or the first for its run) appends one checkpoint with that step. *)
Theorem register_step_order (requests : list CheckpointManager.Request)
    (run : CheckpointManager.RunId) (step : Z) (storageRef : string)
    (metrics : gmap string Q) (isFinal : bool) :
  let σ := CheckpointManager.serve_all [] requests in
  StronglySorted Z.lt (CheckpointManager.step <$> CheckpointManager.of_run run σ) ∧
  (∀ m, CheckpointManager.max_step run σ = Some m →
        (∃ c, c ∈ CheckpointManager.of_run run σ ∧ CheckpointManager.step c = m) ∧
        (∀ c, c ∈ CheckpointManager.of_run run σ → (CheckpointManager.step c ≤ m)%Z)) ∧
  (∀ m, CheckpointManager.max_step run σ = Some m → (step ≤ m)%Z →
        CheckpointManager.register σ run step storageRef metrics isFinal =
          (σ, inl CheckpointManager.InvalidStepOrder)) ∧
  ((∀ m, CheckpointManager.max_step run σ = Some m → (m < step)%Z) →
        ∃ c, CheckpointManager.register σ run step storageRef metrics isFinal = (σ ++ [c], inr c) ∧
             CheckpointManager.owner c = run ∧ CheckpointManager.step c = step).
Proof.
  intros σ. split; [|split; [|split]].
  - apply CheckpointOrderFacts.serve_all_ordered, CheckpointOrderFacts.ordered_empty.
  - apply CheckpointOrderFacts.max_step_Some.
  - intros m. apply CheckpointOrderFacts.register_reject.
  - intros Hgt.
    destruct (CheckpointOrderFacts.register_accept σ run step storageRef metrics isFinal Hgt)
      as (c & Hc & Ho & Hs & _).
    by exists c.
Qed.

Module CheckpointOrderExamples.
Import CheckpointManager.

Definition request (run : RunId) (step : Z) (loss : Q) : Request :=
  {| req_run := run; req_step := step; req_storageRef := "tinker://run/ckpt";
     req_metrics := {[ "loss" := loss ]}; req_isFinal := false |}.

(** Run 1 registers steps 10 and 20, a retry then redelivers step 20 and
    step 15, which are rejected, and goes on with step 30; run 2 is
    independent. *)
Definition deliveries : list Request :=
  [request 1 10 0.9; request 1 20 0.4; request 2 5 1.5; request 1 20 0.4;
   request 1 15 0.5; request 1 30 0.6].

Example deliveries_steps :
  step <$> of_run 1 (serve_all [] deliveries) = [10; 20; 30]%Z ∧
  step <$> of_run 2 (serve_all [] deliveries) = [5]%Z ∧
  max_step 1 (serve_all [] deliveries) = Some 30%Z.
Proof. vm_compute. done. Qed.

Example redelivery_rejected :
  register (serve_all [] deliveries) 1 30 "tinker://run/ckpt" ∅ true =
  (serve_all [] deliveries, inl InvalidStepOrder).
Proof. vm_compute. done. Qed.

End CheckpointOrderExamples.

Lemma register_step_order_witness :
  CheckpointManager.max_step 1 (CheckpointManager.serve_all [] CheckpointOrderExamples.deliveries)
    = Some 30%Z ∧
  (25 ≤ 30)%Z ∧
  CheckpointManager.register
    (CheckpointManager.serve_all [] CheckpointOrderExamples.deliveries) 1 25 "ref" ∅ false =
  (CheckpointManager.serve_all [] CheckpointOrderExamples.deliveries,
   inl CheckpointManager.InvalidStepOrder).
Proof.
  assert (Hmax : CheckpointManager.max_step 1
            (CheckpointManager.serve_all [] CheckpointOrderExamples.deliveries) = Some 30%Z)
    by (vm_compute; reflexivity).
  split; [exact Hmax|]. split; [lia|].
  destruct (register_step_order CheckpointOrderExamples.deliveries 1 25 "ref" ∅ false)
    as (_ & _ & Hreject & _).
  apply (Hreject 30%Z Hmax). lia.
Defined.

(** ** Checkpoint manager: selecting the best checkpoint *)

Module BestCheckpointFacts.
Import CheckpointManager.






Section selection.

Variables (metricKey : string) (d : Direction).







End selection.

End BestCheckpointFacts.



Module BestCheckpointExamples.
Import CheckpointManager.

(** Three checkpoints of run 1 at steps 10, 20 and 30 with the given
    losses. *)
Definition three (l1 l2 l3 : Q) : Store :=
  serve_all [] [CheckpointOrderExamples.request 1 10 l1;
                CheckpointOrderExamples.request 1 20 l2;
                CheckpointOrderExamples.request 1 30 l3].

Definition best_loss (σ : Store) : option (Z * option Q) :=
  (λ c, (step c, metrics c !! "loss")) <$> best σ 1 "loss" Minimize.

(** The scenario of the spec: losses 0.9, 0.4 and 0.6 in each of the six
    registration orders; the checkpoint with loss 0.4 is returned. *)
Example best_loss_scenario :
  best_loss (three 0.9 0.4 0.6) = Some (20%Z, Some 0.4%Q) ∧
  best_loss (three 0.9 0.6 0.4) = Some (30%Z, Some 0.4%Q) ∧
  best_loss (three 0.4 0.9 0.6) = Some (10%Z, Some 0.4%Q) ∧
  best_loss (three 0.4 0.6 0.9) = Some (10%Z, Some 0.4%Q) ∧
  best_loss (three 0.6 0.9 0.4) = Some (30%Z, Some 0.4%Q) ∧
  best_loss (three 0.6 0.4 0.9) = Some (20%Z, Some 0.4%Q).
Proof. vm_compute. done. Qed.

Example best_reward_scenario :
  (λ c, step c) <$> best (three 0.9 0.4 0.6) 1 "loss" Maximize = Some 10%Z ∧
  best (three 0.9 0.4 0.6) 1 "reward" Maximize = None ∧
  best (three 0.9 0.4 0.6) 2 "loss" Minimize = None.
Proof. vm_compute. done. Qed.

(** The same three checkpoint records listed in another order. *)
Example best_loss_reordered :
  best (reverse (three 0.9 0.4 0.6)) 1 "loss" Minimize = best (three 0.9 0.4 0.6) 1 "loss" Minimize.
Proof. vm_compute. done. Qed.

(** Two checkpoints with the same loss: the one registered first is
    returned. Listed in the reverse order, which [register] never produces
    for one run, the same records give the other checkpoint with that
    loss. *)
Example best_loss_tie :
  best_loss (three 0.4 0.4 0.6) = Some (10%Z, Some 0.4%Q) ∧
  best_loss (reverse (three 0.4 0.4 0.6)) = Some (20%Z, Some 0.4%Q).
Proof. vm_compute. done. Qed.

End BestCheckpointExamples.




(** ** Job runner: how the operations touch a run *)

Module JobRunnerFacts.
Import RunStateMachine JobRunner.

Lemma transition_terminal (s : RunStatus) (t : Transition) :
  is_terminal s = true → transition s t = None.
Proof. by destruct s, t. Qed.

Lemma with_status_same (run : Run) (s : RunStatus) :
  status run = s → with_status s run = run.
Proof. intros <-. by destruct run. Qed.

(** Run [r], if it exists in [σ], still exists in [σ'] and its two records
    are related by [R]. *)
Definition run_related (R : Run → Run → Prop) (r : N) (σ σ' : System) : Prop :=
  ∀ run, runs σ !! r = Some run → ∃ run', runs σ' !! r = Some run' ∧ R run run'.

Lemma run_related_refl (R : Run → Run → Prop) (r : N) (σ : System) :
  (∀ run, R run run) → run_related R r σ σ.
Proof. intros HR run Hrun. by exists run. Qed.

Lemma run_related_trans (R : Run → Run → Prop) (r : N) (σ1 σ2 σ3 : System) :
  (∀ a b c, R a b → R b c → R a c) →
  run_related R r σ1 σ2 → run_related R r σ2 σ3 → run_related R r σ1 σ3.
Proof.
  intros HR H12 H23 run Hrun.
  destruct (H12 run Hrun) as (run2 & Hrun2 & HR12).
  destruct (H23 run2 Hrun2) as (run3 & Hrun3 & HR23).
  exists run3. split; [done|]. by eapply HR.
Qed.

Lemma run_related_same_runs (R : Run → Run → Prop) (r : N) (σ σ' : System) :
  (∀ run, R run run) → runs σ' = runs σ → run_related R r σ σ'.
Proof. intros HR Hruns run Hrun. exists run. by rewrite Hruns. Qed.

Section relation.

(** A relation between the old and the new record of a run that every change
    the job runner makes to a run respects: a change of status by the state
    machine, a new attempt, a recorded error and a new position. *)
Variable R : Run → Run → Prop.
Hypothesis R_refl : ∀ run, R run run.
Hypothesis R_trans : ∀ a b c, R a b → R b c → R a c.
Hypothesis R_status : ∀ run t s',
  transition (status run) t = Some s' → R run (with_status s' run).
Hypothesis R_attempt : ∀ run n, R run (with_attempt n run).
Hypothesis R_error : ∀ run e, R run (with_error e run).
Hypothesis R_position : ∀ run step p, R run (with_position step p run).

Lemma fire_related (r r' : N) (t : Transition) (σ σ' : System) :
  fire r' t σ = Some σ' → run_related R r σ σ'.
Proof.
  unfold fire. destruct (runs σ !! r') as [run'|] eqn:Hrun'; [|done].
  destruct (transition (status run') t) as [s'|] eqn:Ht; [|done].
  intros [= <-] run Hrun. simpl. destruct (decide (r' = r)) as [-> | Hne].
  - rewrite lookup_insert_eq. eexists. split; [done|].
    rewrite Hrun in Hrun'. injection Hrun' as <-.
    by apply R_status with t.
  - rewrite lookup_insert_ne by done. by exists run.
Qed.

Lemma amend_related (r r' : N) (f : Run → Run) (σ : System) :
  (∀ run, status (f run) = status run) →
  (∀ run, R run (f run)) →
  run_related R r σ (amend r' f σ).
Proof.
  intros Hstatus Hf run Hrun. unfold amend. simpl. destruct (decide (r' = r)) as [-> | Hne].
  - rewrite lookup_alter_eq, Hrun. simpl. eexists. split; [done|].
    rewrite with_status_same by done. apply Hf.
  - rewrite lookup_alter_ne by done. by exists run.
Qed.

Lemma invoke_related (r r' : N) (resume : option N) (σ : System) :
  run_related R r σ (invoke r' resume σ).
Proof.
  unfold invoke. destruct (runs σ !! r'); by apply run_related_same_runs.
Qed.

Lemma release_related (r r' : N) (σ : System) : run_related R r σ (release r' σ).
Proof. by apply run_related_same_runs. Qed.

Lemma acquire_related (r r' : N) (σ : System) : run_related R r σ (acquire r' σ).
Proof. by apply run_related_same_runs. Qed.

Lemma create_run_related (r : N) (σ : System) (project : Z) (recipe config : string)
    (dataset : option Z) :
  run_related R r σ (create_run σ project recipe config dataset).1.
Proof.
  intros run Hrun. simpl. exists run. split; [|done].
  rewrite lookup_insert_ne; [done|].
  intros Heq. assert (Hin : r ∈ dom (runs σ)) by (apply elem_of_dom; by eexists).
  rewrite <- Heq in Hin. by apply is_fresh in Hin.
Qed.

Lemma submitRun_related (r : N) (σ : System) (project : Z) (recipe config : string)
    (dataset : option Z) :
  run_related R r σ (submitRun σ project recipe config dataset).1.
Proof.
  unfold submitRun. destruct (bool_decide (recipe ∈ unsupported_kinds)).
  - by apply run_related_refl.
  - apply create_run_related.
Qed.

Lemma resubmit_related (r r' : N) (σ : System) :
  run_related R r σ (from_option fst σ (resubmit σ r')).
Proof.
  unfold resubmit. destruct (runs σ !! r') as [run'|]; simpl; [|by apply run_related_refl].
  apply create_run_related.
Qed.

Lemma next_attempt_related (r r' : N) (σ : System) :
  run_related R r σ (amend r' (λ run, with_attempt (S (attempt run)) run) σ).
Proof. by apply amend_related. Qed.

Lemma start_related (r r' : N) (σ : System) : run_related R r σ (start σ r').1.
Proof.
  unfold start. case_decide; simpl; [by apply run_related_refl|].
  destruct (runs σ !! r') as [run'|] eqn:Hrun'; simpl.
  - destruct (fire r' BeginAttempt (acquire r' σ)) as [σ2|] eqn:Hfire; simpl.
    + eapply run_related_trans; [done | apply (acquire_related r r') |].
      eapply run_related_trans; [done | by eapply fire_related |].
      eapply run_related_trans; [done | apply next_attempt_related | apply invoke_related].
    + eapply run_related_trans; [done | apply (acquire_related r r') | apply release_related].
  - eapply run_related_trans; [done | apply (acquire_related r r') | apply release_related].
Qed.

Lemma on_cancel_related (r r' : N) (σ : System) : run_related R r σ (on_cancel r' σ).
Proof.
  unfold on_cancel. destruct (fire r' CancelObserved σ) as [σ'|] eqn:Hfire;
    [|by apply run_related_refl].
  eapply run_related_trans; [done | by eapply fire_related | apply release_related].
Qed.

Lemma on_checkpoint_related (r r' : N) (step : Z) (ref : string) (ms : gmap string Q)
    (fin : bool) (σ : System) :
  run_related R r σ (on_checkpoint r' step ref ms fin σ).
Proof.
  unfold on_checkpoint. destruct (status <$> runs σ !! r') as [[]|];
    by apply run_related_same_runs.
Qed.

Lemma fail_related (r r' : N) (message : string) (σ σ' : System) :
  fire r' AttemptFailed σ = Some σ' →
  run_related R r σ (release r' (amend r' (with_error (Some message)) σ')).
Proof.
  intros Hfire.
  apply (run_related_trans R r σ σ'); [done | by eapply fire_related |].
  apply (run_related_trans R r σ' (amend r' (with_error (Some message)) σ'));
    [done | by apply amend_related | apply release_related].
Qed.

Lemma on_outcome_related (r r' : N) (o : Outcome) (σ : System) :
  run_related R r σ (on_outcome r' o σ).
Proof.
  unfold on_outcome. destruct o as [|message|message].
  - destruct (fire r' AttemptSucceeded σ) as [σ'|] eqn:Hfire; [|by apply run_related_refl].
    eapply run_related_trans; [done | by eapply fire_related | apply release_related].
  - destruct (runs σ !! r') as [run'|]; [|by apply run_related_refl].
    case_decide.
    + destruct (fire r' RetryAttempt σ) as [σ'|] eqn:Hfire; [|by apply run_related_refl].
      eapply run_related_trans; [done | by eapply fire_related |].
      eapply run_related_trans; [done | apply next_attempt_related | apply invoke_related].
    + destruct (fire r' AttemptFailed σ) as [σ'|] eqn:Hfire; [|by apply run_related_refl].
      by apply fail_related.
  - destruct (fire r' AttemptFailed σ) as [σ'|] eqn:Hfire; [|by apply run_related_refl].
    by apply fail_related.
Qed.

Lemma apply_sample_status (s : Metrics.MetricSample) (run : Run) :
  status (apply_sample s run) = status run.
Proof. unfold apply_sample. by destruct (status run) eqn:Hs. Qed.

Lemma on_sample_related (r r' : N) (s : Metrics.MetricSample) (σ : System) :
  run_related R r σ (on_sample r' s σ).
Proof.
  unfold on_sample. apply amend_related; [apply apply_sample_status|].
  intros run. unfold apply_sample. by destruct (status run).
Qed.

Lemma on_resume_related (r r' : N) (req : ResumeRequest) (σ : System) :
  run_related R r σ (on_resume r' req σ).
Proof.
  unfold on_resume.
  destruct (fire r' RetryAttempt σ) as [σ'|] eqn:Hfire; [|by apply run_related_refl].
  eapply run_related_trans; [done | by eapply fire_related |].
  destruct req.
  - eapply run_related_trans; [done | | apply invoke_related].
    apply amend_related; [done|]. intros run.
    by apply R_trans with (with_attempt (S (attempt run)) run).
  - eapply run_related_trans; [done | apply next_attempt_related | apply invoke_related].
Qed.

Lemma exec_op_related (r : N) (op : Op) (σ : System) : run_related R r σ (exec_op σ op).
Proof.
  destruct op; simpl.
  - apply submitRun_related.
  - apply resubmit_related.
  - apply start_related.
  - apply on_sample_related.
  - apply on_checkpoint_related.
  - apply on_outcome_related.
  - apply on_cancel_related.
  - apply on_resume_related.
Qed.

Lemma exec_ops_related (r : N) (ops : list Op) (σ : System) :
  run_related R r σ (exec_ops σ ops).
Proof.
  revert σ. induction ops as [|op ops IH]; intros σ; simpl.
  - by apply run_related_refl.
  - apply (run_related_trans R r σ (exec_op σ op)); [done | apply exec_op_related | apply IH].
Qed.

End relation.

(** The relation for finality: a terminal status stays. *)
Definition keeps_terminal (a b : Run) : Prop :=
  is_terminal (status a) = true → status b = status a.

Lemma exec_ops_terminal (r : N) (ops : list Op) (σ : System) :
  run_related keeps_terminal r σ (exec_ops σ ops).
Proof.
  apply exec_ops_related; unfold keeps_terminal; try done.
  - intros a b c Hab Hbc Ha. rewrite Hbc; [by apply Hab|]. by rewrite Hab.
  - intros run t s' Ht Hterm. by rewrite transition_terminal in Ht.
Qed.

(** *** Unsupported recipe kinds *)

(** A submission with an unsupported kind is rejected with the validation
    error and changes nothing. *)
Lemma submitRun_unsupported (σ : System) (project : Z) (recipe config : string)
    (dataset : option Z) :
  recipe ∈ unsupported_kinds →
  submitRun σ project recipe config dataset
  = (σ, inl (ValidationError ("unsupported recipe kind: " +:+ recipe))).
Proof. intros Hin. unfold submitRun. by rewrite bool_decide_eq_true_2. Qed.

(** A submission with any other kind creates a run in status pending under
    an identity that was not in use. *)
Lemma submitRun_supported (σ : System) (project : Z) (recipe config : string)
    (dataset : option Z) :
  recipe ∉ unsupported_kinds →
  ∃ σ' r run,
    submitRun σ project recipe config dataset = (σ', inr r) ∧
    runs σ !! r = None ∧ runs σ' !! r = Some run ∧
    status run = pending ∧ JobRunner.recipe run = recipe.
Proof.
  intros Hin. unfold submitRun. rewrite bool_decide_eq_false_2 by done. simpl.
  eexists _, _, _. split; [done|]. split; [|split; [apply lookup_insert_eq | done]].
  apply not_elem_of_dom, is_fresh.
Qed.

(** No run of the system, and no invocation of an executor, is of an
    unsupported kind. *)
Definition supported_only (σ : System) : Prop :=
  (∀ r run, runs σ !! r = Some run → recipe run ∉ unsupported_kinds) ∧
  (∀ i, i ∈ invocations σ → inv_recipe i ∉ unsupported_kinds).

Lemma supported_only_same (σ σ' : System) :
  runs σ' = runs σ → invocations σ' = invocations σ →
  supported_only σ → supported_only σ'.
Proof. intros Hr Hi [Hruns Hinv]. split; [by rewrite Hr | by rewrite Hi]. Qed.

Lemma fire_supported (r : N) (t : Transition) (σ σ' : System) :
  fire r t σ = Some σ' → supported_only σ → supported_only σ'.
Proof.
  unfold fire. destruct (runs σ !! r) as [run|] eqn:Hrun; [|done].
  destruct (transition (status run) t) as [s'|]; [|done].
  intros [= <-] [Hruns Hinv]. split; [|done].
  intros r' run'. simpl. destruct (decide (r = r')) as [<- | Hne].
  - rewrite lookup_insert_eq. intros [= <-]. by apply (Hruns r run).
  - rewrite lookup_insert_ne by done. apply Hruns.
Qed.

Lemma amend_supported (r : N) (f : Run → Run) (σ : System) :
  (∀ run, recipe (f run) = recipe run) →
  supported_only σ → supported_only (amend r f σ).
Proof.
  intros Hf [Hruns Hinv]. split; [|done].
  intros r' run'. unfold amend. simpl. destruct (decide (r = r')) as [<- | Hne].
  - rewrite lookup_alter_eq. destruct (runs σ !! r) as [run|] eqn:Hrun; [|done].
    simpl. intros [= <-]. simpl. rewrite Hf. by apply (Hruns r run).
  - rewrite lookup_alter_ne by done. apply Hruns.
Qed.

Lemma invoke_supported (r : N) (resume : option N) (σ : System) :
  supported_only σ → supported_only (invoke r resume σ).
Proof.
  intros [Hruns Hinv]. unfold invoke.
  destruct (runs σ !! r) as [run|] eqn:Hrun; [|done].
  split; [done|]. intros i. simpl. rewrite elem_of_app.
  intros [Hi | Hi]; [by apply Hinv|].
  apply list_elem_of_singleton in Hi as ->. simpl. by apply (Hruns r run).
Qed.

Lemma create_run_supported (σ : System) (project : Z) (recipe config : string)
    (dataset : option Z) :
  recipe ∉ unsupported_kinds →
  supported_only σ → supported_only (create_run σ project recipe config dataset).1.
Proof.
  intros Hk [Hruns Hinv]. split; [|done].
  intros r' run'. simpl.
  destruct (decide (fresh (dom (runs σ)) = r')) as [<- | Hne].
  - rewrite lookup_insert_eq. by intros [= <-].
  - rewrite lookup_insert_ne by done. apply Hruns.
Qed.

Lemma next_attempt_supported (r : N) (σ : System) :
  supported_only σ →
  supported_only (amend r (λ run, with_attempt (S (attempt run)) run) σ).
Proof. by apply amend_supported. Qed.

Lemma release_supported (r : N) (σ : System) :
  supported_only σ → supported_only (release r σ).
Proof. by apply supported_only_same. Qed.

Lemma acquire_supported (r : N) (σ : System) :
  supported_only σ → supported_only (acquire r σ).
Proof. by apply supported_only_same. Qed.

Lemma fail_supported (r : N) (e : option string) (σ σ' : System) :
  fire r AttemptFailed σ = Some σ' →
  supported_only σ → supported_only (release r (amend r (with_error e) σ')).
Proof.
  intros Hfire Hσ. apply release_supported, amend_supported; [done|].
  by eapply fire_supported.
Qed.

Lemma exec_op_supported (σ : System) (op : Op) :
  supported_only σ → supported_only (exec_op σ op).
Proof.
  intros Hσ. destruct op; simpl.
  - unfold submitRun. case_bool_decide as Hk; [done|].
    by apply create_run_supported.
  - unfold resubmit. destruct (runs σ !! r) as [run|] eqn:Hrun; simpl; [|done].
    apply create_run_supported; [|done]. by apply (proj1 Hσ r run).
  - unfold start. case_decide; simpl; [done|].
    destruct (runs σ !! r) as [run|] eqn:Hrun; simpl.
    + destruct (fire r BeginAttempt (acquire r σ)) as [σ2|] eqn:Hfire; simpl.
      * apply invoke_supported, next_attempt_supported.
        eapply fire_supported; [done|]. by apply acquire_supported.
      * by apply release_supported, acquire_supported.
    + by apply release_supported, acquire_supported.
  - unfold on_sample. apply amend_supported; [|done].
    intros run. unfold apply_sample. by destruct (status run).
  - unfold on_checkpoint. by destruct (status <$> runs σ !! r) as [[]|].
  - unfold on_outcome. destruct o as [|message|message].
    + destruct (fire r AttemptSucceeded σ) as [σ'|] eqn:Hfire; [|done].
      apply release_supported. by eapply fire_supported.
    + destruct (runs σ !! r) as [run|]; [|done]. case_decide.
      * destruct (fire r RetryAttempt σ) as [σ'|] eqn:Hfire; [|done].
        apply invoke_supported, next_attempt_supported. by eapply fire_supported.
      * destruct (fire r AttemptFailed σ) as [σ'|] eqn:Hfire; [|done].
        by eapply fail_supported.
    + destruct (fire r AttemptFailed σ) as [σ'|] eqn:Hfire; [|done].
      by eapply fail_supported.
  - unfold on_cancel. destruct (fire r CancelObserved σ) as [σ'|] eqn:Hfire; [|done].
    apply release_supported. by eapply fire_supported.
  - unfold on_resume. destruct (fire r RetryAttempt σ) as [σ'|] eqn:Hfire; [|done].
    destruct req.
    + apply invoke_supported, amend_supported; [done | by eapply fire_supported].
    + apply invoke_supported, next_attempt_supported. by eapply fire_supported.
Qed.

(** The part of the job runner in the rejection of unsupported kinds: a
    submission with such a kind is refused with [ValidationError] and leaves
    the system as it was, however often it is made; so, whatever operations
    reach a system that starts empty, no run of such a kind exists in it, none
    is handed to an executor, and none can fail in mid-execution. *)
Lemma unsupported_kinds_rejected (ops : list Op) :
  (∀ σ project recipe config dataset,
     recipe ∈ unsupported_kinds →
     (∃ message, submitRun σ project recipe config dataset = (σ, inl (ValidationError message))) ∧
     exec_op σ (OpSubmit project recipe config dataset) = σ) ∧
  supported_only (exec_ops empty_system ops).
Proof.
  split.
  - intros σ project recipe config dataset Hk. split.
    + eexists. by apply submitRun_unsupported.
    + simpl. by rewrite submitRun_unsupported.
  - assert (Hall : ∀ σ, supported_only σ → supported_only (exec_ops σ ops)).
    { induction ops as [|op ops' IH]; intros σ Hσ; simpl; [done|].
      apply IH. by apply exec_op_supported. }
    apply Hall. split.
    + intros r run Hrun. simpl in Hrun. by rewrite lookup_empty in Hrun.
    + intros i Hi. by apply elem_of_nil in Hi.
Qed.

End JobRunnerFacts.

(** ** Job runner: scenarios *)

Module JobRunnerExamples.
Import RunStateMachine JobRunner.

Definition sample (step : Z) (fraction : Q) : Metrics.MetricSample :=
  {| Metrics.step := Some step; Metrics.loss := None;
     Metrics.learning_rate := None; Metrics.progress := Some fraction;
     Metrics.timestamp := None |}.

(** "submit run with recipe SFT ... first provider event reports step 10
    with progress 0.1 ... terminal success with a final checkpoint at step
    100" *)
Definition sft_run : list Op :=
  [OpSubmit 1 "SFT" "{base_model: modelA, learning_rate: 5e-5}" None;
   OpStart 0;
   OpSample 0 (sample 10 0.1)].

Definition sft_end : list Op :=
  [OpCheckpoint 0 100 "tinker://run-0/final" ∅ true;
   OpOutcome 0 Success].

Example sft_run_running :
  status_of 0 (exec_ops empty_system sft_run) = Some running ∧
  progress_of 0 (exec_ops empty_system sft_run) = Some 0.1%Q ∧
  attempt_of 0 (exec_ops empty_system sft_run) = Some 1%nat ∧
  bool_decide (0%N ∈ locks (exec_ops empty_system sft_run)) = true.
Proof. vm_compute. done. Qed.

Example sft_run_completed :
  status_of 0 (exec_ops empty_system (sft_run ++ sft_end)) = Some completed ∧
  (λ c, (CheckpointManager.step c, CheckpointManager.isFinal c))
    <$> checkpoints (exec_ops empty_system (sft_run ++ sft_end)) = [(100%Z, true)] ∧
  bool_decide (0%N ∈ locks (exec_ops empty_system (sft_run ++ sft_end))) = false.
Proof. vm_compute. done. Qed.

(** Repeated transient errors: the attempt counter grows until the budget
    is used up, then the run fails with a last error. *)
Definition flaky_run : list Op :=
  [OpSubmit 1 "SFT" "{}" None; OpStart 0;
   OpOutcome 0 (RetryableFailure "connection reset");
   OpOutcome 0 (RetryableFailure "connection reset")].

Example flaky_run_retries :
  status_of 0 (exec_ops empty_system flaky_run) = Some running ∧
  attempt_of 0 (exec_ops empty_system flaky_run) = Some 3%nat ∧
  inv_attempt <$> invocations (exec_ops empty_system flaky_run) = [1; 2; 3]%nat.
Proof. vm_compute. done. Qed.

Example flaky_run_exhausted :
  let σ := exec_ops empty_system (flaky_run ++ [OpOutcome 0 (RetryableFailure "connection reset")]) in
  status_of 0 σ = Some failed ∧
  (last_error <$> runs σ !! 0%N) = Some (Some "retry budget exhausted: connection reset").
Proof. vm_compute. done. Qed.

(** After a cancellation nothing moves the run any more: samples, outcomes,
    a second start and a resume are all without effect on its status, and a
    re-submission creates run 1. *)
Definition cancelled_run : list Op :=
  [OpSubmit 1 "DPO" "{}" (Some 4%Z); OpStart 0; OpSample 0 (sample 10 0.2); OpCancel 0].

Definition afterwards : list Op :=
  [OpSample 0 (sample 20 0.4); OpOutcome 0 Success; OpStart 0;
   OpResume 0 FromScratch; OpOutcome 0 (FatalFailure "late"); OpCancel 0; OpResubmit 0].

Example cancelled_run_stays :
  status_of 0 (exec_ops empty_system cancelled_run) = Some cancelled ∧
  status_of 0 (exec_ops empty_system (cancelled_run ++ afterwards)) = Some cancelled ∧
  progress_of 0 (exec_ops empty_system (cancelled_run ++ afterwards)) = Some 0.2%Q ∧
  status_of 1 (exec_ops empty_system (cancelled_run ++ afterwards)) = Some pending ∧
  (recipe <$> runs (exec_ops empty_system (cancelled_run ++ afterwards)) !! 1%N) = Some "DPO".
Proof. vm_compute. done. Qed.

(** A submission of an unsupported kind is refused: no run is created, and
    a start on the identity it would have received finds no run. *)
Example unsupported_submission :
  submitRun empty_system 1 "PPO" "{}" None
    = (empty_system, inl (ValidationError "unsupported recipe kind: PPO")) ∧
  status_of 0 (exec_ops empty_system [OpSubmit 1 "PPO" "{}" None; OpStart 0]) = None ∧
  invocations (exec_ops empty_system [OpSubmit 1 "PPO" "{}" None; OpStart 0]) = [] ∧
  (start (exec_ops empty_system [OpSubmit 1 "PPO" "{}" None]) 0).2 = inl NotFound.
Proof. vm_compute. done. Qed.

End JobRunnerExamples.

(** ** Run state machine: terminal states *)

(** C6. No transition leaves a terminal status, and once the status of a run
    is terminal (completed, failed or cancelled) no sequence of job-runner
    operations changes it; re-submitting the finished run creates a run
    under an identity that was not in use, in status pending and with the
    parameters of the old run, and leaves every existing run as it was. *)
Theorem terminal_status_is_final (σ : JobRunner.System) (r : N)
    (s : RunStateMachine.RunStatus) (ops : list JobRunner.Op) :
  JobRunner.status_of r σ = Some s →
  RunStateMachine.is_terminal s = true →
  (∀ t, RunStateMachine.transition s t = None) ∧
  JobRunner.status_of r (JobRunner.exec_ops σ ops) = Some s ∧
  ∃ σ' r' old new,
    JobRunner.resubmit (JobRunner.exec_ops σ ops) r = Some (σ', r') ∧
    r' ≠ r ∧
    JobRunner.runs (JobRunner.exec_ops σ ops) !! r' = None ∧
    JobRunner.runs (JobRunner.exec_ops σ ops) !! r = Some old ∧
    JobRunner.runs σ' !! r' = Some new ∧
    JobRunner.status new = RunStateMachine.pending ∧
    JobRunner.project new = JobRunner.project old ∧
    JobRunner.recipe new = JobRunner.recipe old ∧
    JobRunner.config new = JobRunner.config old ∧
    JobRunner.dataset new = JobRunner.dataset old ∧
    (∀ r'', r'' ≠ r' → JobRunner.runs σ' !! r'' = JobRunner.runs (JobRunner.exec_ops σ ops) !! r'').
Proof.
  intros Hs Hterm.
  split; [intros t; by apply JobRunnerFacts.transition_terminal|].
  unfold JobRunner.status_of in *.
  destruct (JobRunner.runs σ !! r) as [run|] eqn:Hrun; [|done].
  injection Hs as <-.
  destruct (JobRunnerFacts.exec_ops_terminal r ops σ run Hrun) as (old & Hold & Hkeep).
  rewrite Hold. simpl. split; [by rewrite Hkeep|].
  unfold JobRunner.resubmit. rewrite Hold.
  set (τ := JobRunner.exec_ops σ ops) in *.
  assert (Hfresh : fresh (dom (JobRunner.runs τ)) ∉ dom (JobRunner.runs τ)) by apply is_fresh.
  eexists _, _, old, _. split; [done|]. simpl.
  split.
  { intros Heq. apply Hfresh. rewrite Heq. apply elem_of_dom. by eexists. }
  split; [by apply not_elem_of_dom|].
  split; [done|].
  split; [apply lookup_insert_eq|].
  repeat split; try done.
  intros r'' Hne. by rewrite lookup_insert_ne.
Qed.

Lemma terminal_status_is_final_witness :
  JobRunner.status_of 0 (JobRunner.exec_ops JobRunner.empty_system JobRunnerExamples.cancelled_run)
    = Some RunStateMachine.cancelled ∧
  RunStateMachine.is_terminal RunStateMachine.cancelled = true ∧
  JobRunner.status_of 0
    (JobRunner.exec_ops
       (JobRunner.exec_ops JobRunner.empty_system JobRunnerExamples.cancelled_run)
       JobRunnerExamples.afterwards)
    = Some RunStateMachine.cancelled.
Proof.
  assert (Hs : JobRunner.status_of 0
            (JobRunner.exec_ops JobRunner.empty_system JobRunnerExamples.cancelled_run)
            = Some RunStateMachine.cancelled) by (vm_compute; reflexivity).
  split; [exact Hs|]. split; [reflexivity|].
  exact (proj1 (proj2 (terminal_status_is_final _ 0 RunStateMachine.cancelled
                         JobRunnerExamples.afterwards Hs eq_refl))).
Defined.
